(** * PRAY2 generator: the schedule table, the RTC field and the binary writer

    A shallow embedding of [span_params_with_adhanpy_csv_bin.py]:
    [validate_rtc_ascii], [daterange], [count_days], [compute_minutes_table]
    and [write_pray2_bin], together with the parts of the Python runtime they
    rest on ([str.strip], [int], the [02d] format, [date] and [datetime]
    arithmetic, [struct.pack], [zlib.crc32]).

    Conventions.  A Python [int] is a [Z].  A [str] is a [string] whose
    characters are the code points 0..255.  A byte is a [Z] in [0,255] and a
    [bytearray] a [list Z].  A raised exception is the [Raise] case of
    [result]; code that touches the outside world (the oracle, the file
    system) runs in the state monad [M] over [world]. *)

From Stdlib Require Import ZArith Lia Ascii String DecimalString.
From stdpp Require Import base option list strings gmap fin_maps.

Local Open Scope string_scope.
Local Open Scope list_scope.
Local Open Scope Z_scope.

(** ** Exceptions and results *)

Inductive exn : Type :=
| KeyError (key : string)
| ValueError
| OverflowError
| UnicodeEncodeError
| RuntimeError
| AssertionError
| struct_error
| ZoneInfoNotFoundError
| OracleError (code : Z).

Inductive result (A : Type) : Type :=
| Ok (a : A)
| Raise (e : exn).
Arguments Ok {A} a.
Arguments Raise {A} e.

Definition rbind {A B} (r : result A) (k : A → result B) : result B :=
  match r with
  | Ok a => k a
  | Raise e => Raise e
  end.

Definition is_raise {A} (r : result A) : Prop :=
  match r with
  | Ok _ => False
  | Raise _ => True
  end.

(** ** Python strings *)

Module Py.

Definition ord (c : ascii) : Z := Z.of_N (N_of_ascii c).

(** [str.isspace] on the code points below 256. *)
Definition isspace (c : ascii) : bool :=
  let n := ord c in
  ((9 <=? n) && (n <=? 13)) || ((28 <=? n) && (n <=? 32))
  || (n =? 133) || (n =? 160).

Fixpoint lstrip (s : string) : string :=
  match s with
  | EmptyString => EmptyString
  | String c s' => if isspace c then lstrip s' else s
  end.

Fixpoint rstrip (s : string) : string :=
  match s with
  | EmptyString => EmptyString
  | String c s' =>
      match rstrip s' with
      | EmptyString => if isspace c then EmptyString else String c EmptyString
      | r => String c r
      end
  end.

(** [s.strip()] *)
Definition strip (s : string) : string := rstrip (lstrip s).

(** [len(s)] *)
Definition len (s : string) : Z := Z.of_nat (String.length s).

(** [s[i] == c]; an index out of range raises, which the caller's
    [except] turns into a rejection, so it counts as [false] here. *)
Definition char_is (s : string) (i : nat) (c : ascii) : bool :=
  match String.get i s with
  | Some c' => Ascii.eqb c' c
  | None => false
  end.

(** [s[a:b]] for [a <= b]. *)
Definition slice (s : string) (a b : nat) : string :=
  String.substring a (b - a) s.

Definition digit_val (c : ascii) : option Z :=
  let n := ord c in
  if (48 <=? n) && (n <=? 57) then Some (n - 48) else None.

(** The digit part of an [int] literal in base 10: digits, with single
    underscores between digits only. *)
Fixpoint int_digits (acc : Z) (after_digit : bool) (s : string) : option Z :=
  match s with
  | EmptyString => if after_digit then Some acc else None
  | String c s' =>
      match digit_val c with
      | Some d => int_digits (acc * 10 + d) true s'
      | None =>
          if Ascii.eqb c "_"%char && after_digit
          then int_digits acc false s'
          else None
      end
  end.

(** The blanks [int] skips around a literal: tab to carriage return and
    the space, and of the other code points below 256 the two blanks
    beyond ASCII (U+0085 and U+00A0), which it reads as spaces.  Unlike
    [str.strip] it does not skip U+001C to U+001F. *)
Definition int_space (c : ascii) : bool :=
  let n := ord c in
  ((9 <=? n) && (n <=? 13)) || (n =? 32) || (n =? 133) || (n =? 160).

Fixpoint int_lstrip (s : string) : string :=
  match s with
  | EmptyString => EmptyString
  | String c s' => if int_space c then int_lstrip s' else s
  end.

Fixpoint int_rstrip (s : string) : string :=
  match s with
  | EmptyString => EmptyString
  | String c s' =>
      match int_rstrip s' with
      | EmptyString => if int_space c then EmptyString else String c EmptyString
      | r => String c r
      end
  end.

(** [int(s)]: surrounding blanks are dropped, one sign is allowed;
    [None] stands for [ValueError]. *)
Definition int (s : string) : option Z :=
  match int_rstrip (int_lstrip s) with
  | String "+"%char r => int_digits 0 false r
  | String "-"%char r => Z.opp <$> int_digits 0 false r
  | r => int_digits 0 false r
  end.

Definition decimal (n : Z) : string :=
  NilZero.string_of_uint (N.to_uint (Z.to_N n)).

Fixpoint zeros (n : nat) : string :=
  match n with
  | O => EmptyString
  | S n' => String "0"%char (zeros n')
  end.

Definition zfill (w : nat) (s : string) : string :=
  (zeros (w - String.length s) ++ s)%string.

(** [f"{v:02d}"]: zero padding to width 2, the sign counted in the width. *)
Definition format_02d (v : Z) : string :=
  if v <? 0 then ("-" ++ zfill 1 (decimal (- v)))%string
  else zfill 2 (decimal v).

(** [s.encode("ascii")] *)
Fixpoint encode_ascii (s : string) : result (list Z) :=
  match s with
  | EmptyString => Ok []
  | String c s' =>
      if ord c <? 128
      then rbind (encode_ascii s') (λ bs, Ok (ord c :: bs))
      else Raise UnicodeEncodeError
  end.

End Py.

(** ** The RTC field validator *)

Definition validate_rtc_ascii (s : string) : option string :=
  let s := Py.strip s in
  if negb (Py.len s =? 17) then None
  else if negb (Py.char_is s 2 ":" && Py.char_is s 5 ":" && Py.char_is s 8 "|"
                && Py.char_is s 11 "/" && Py.char_is s 14 "/")
  then None
  else
    HH ← Py.int (Py.slice s 0 2);
    MM ← Py.int (Py.slice s 3 5);
    SS ← Py.int (Py.slice s 6 8);
    DD ← Py.int (Py.slice s 9 11);
    MO ← Py.int (Py.slice s 12 14);
    YY ← Py.int (Py.slice s 15 17);
    if negb ((0 <=? HH) && (HH <=? 23) && (0 <=? MM) && (MM <=? 59)
             && (0 <=? SS) && (SS <=? 59))
    then None
    else if negb ((1 <=? MO) && (MO <=? 12) && (1 <=? DD) && (DD <=? 31))
    then None
    else Some (Py.format_02d HH ++ ":" ++ Py.format_02d MM ++ ":"
               ++ Py.format_02d SS ++ "|" ++ Py.format_02d DD ++ "/"
               ++ Py.format_02d MO ++ "/" ++ Py.format_02d YY)%string.

(** ** Calendar dates, as Python's [datetime] module has them *)

Module Calendar.

Definition MAXORDINAL : Z := 3652059.

(** A [date] is determined by its proleptic Gregorian ordinal (1 is
    0001-01-01); comparison and [timedelta] arithmetic act on it. *)
Record date : Type := Date { toordinal : Z }.

Definition is_leap (year : Z) : bool :=
  (year mod 4 =? 0) && (negb (year mod 100 =? 0) || (year mod 400 =? 0)).

Definition DAYS_IN_MONTH : list Z :=
  [-1; 31; 28; 31; 30; 31; 30; 31; 31; 30; 31; 30; 31].

Definition DAYS_BEFORE_MONTH : list Z :=
  [-1; 0; 31; 59; 90; 120; 151; 181; 212; 243; 273; 304; 334].

Definition days_before_year (year : Z) : Z :=
  let y := year - 1 in
  y * 365 + y / 4 - y / 100 + y / 400.

Definition days_before_month (year month : Z) : Z :=
  DAYS_BEFORE_MONTH !!! Z.to_nat month
  + (if (2 <? month) && is_leap year then 1 else 0).

Definition ymd2ord (year month day : Z) : Z :=
  days_before_year year + days_before_month year month + day.

Definition ord2ymd (n : Z) : Z * Z * Z :=
  let n := n - 1 in
  let n400 := n / 146097 in
  let n := n mod 146097 in
  let year := n400 * 400 + 1 in
  let n100 := n / 36524 in
  let n := n mod 36524 in
  let n4 := n / 1461 in
  let n := n mod 1461 in
  let n1 := n / 365 in
  let n := n mod 365 in
  let year := year + n100 * 100 + n4 * 4 + n1 in
  if (n1 =? 4) || (n100 =? 4) then (year - 1, 12, 31)
  else
    let leapyear := (n1 =? 3) && (negb (n4 =? 24) || (n100 =? 3)) in
    let month := Z.shiftr (n + 50) 5 in
    let preceding :=
      DAYS_BEFORE_MONTH !!! Z.to_nat month
      + (if (2 <? month) && leapyear then 1 else 0) in
    if n <? preceding then
      let month := month - 1 in
      let preceding :=
        preceding - (DAYS_IN_MONTH !!! Z.to_nat month
                     + (if (month =? 2) && leapyear then 1 else 0)) in
      (year, month, n - preceding + 1)
    else (year, month, n - preceding + 1).

(** [date(year, month, day)] on a valid triple. *)
Definition of_ymd (year month day : Z) : date :=
  Date (ymd2ord year month day).

Definition year (d : date) : Z := (ord2ymd (toordinal d)).1.1.
Definition month (d : date) : Z := (ord2ymd (toordinal d)).1.2.
Definition day (d : date) : Z := (ord2ymd (toordinal d)).2.

(** [a <= b] *)
Definition le (a b : date) : bool := toordinal a <=? toordinal b.

(** [d + timedelta(days=n)] *)
Definition add_days (d : date) (n : Z) : result date :=
  let o := toordinal d + n in
  if (0 <? o) && (o <=? MAXORDINAL) then Ok (Date o) else Raise OverflowError.

Record timedelta : Type :=
  { td_days : Z; td_seconds : Z; td_microseconds : Z }.

(** [timedelta(minutes=mins)] *)
Definition timedelta_minutes (mins : Z) : result timedelta :=
  let s := mins * 60 in
  let days := s / 86400 in
  if Z.abs days <=? 999999999
  then Ok {| td_days := days; td_seconds := s mod 86400; td_microseconds := 0 |}
  else Raise OverflowError.

Record datetime : Type :=
  { dt_date : date; hour : Z; minute : Z; second : Z; microsecond : Z }.

(** [datetime(year, month, day)]: midnight of that day. *)
Definition datetime_ymd (year month day : Z) : datetime :=
  {| dt_date := of_ymd year month day;
     hour := 0; minute := 0; second := 0; microsecond := 0 |}.

(** [dt + td]: wall-clock arithmetic, the time zone is carried along. *)
Definition datetime_add (dt : datetime) (td : timedelta) : result datetime :=
  let us := microsecond dt + td_microseconds td in
  let s := hour dt * 3600 + minute dt * 60 + second dt + td_seconds td
           + us / 1000000 in
  let days := toordinal (dt_date dt) + td_days td + s / 86400 in
  let s := s mod 86400 in
  if (0 <? days) && (days <=? MAXORDINAL)
  then Ok {| dt_date := Date days;
             hour := s / 3600;
             minute := (s mod 3600) / 60;
             second := (s mod 3600) mod 60;
             microsecond := us mod 1000000 |}
  else Raise OverflowError.

End Calendar.
Export Calendar.

(** ** [struct.pack] and [zlib.crc32] *)

Module Struct.

(** The [n] little-endian bytes of [v]. *)
Fixpoint le_bytes (n : nat) (v : Z) : list Z :=
  match n with
  | O => []
  | S n' => v mod 256 :: le_bytes n' (v / 256)
  end.

(** The value a little-endian byte string stands for. *)
Fixpoint le_value (bs : list Z) : Z :=
  match bs with
  | [] => 0
  | b :: bs' => b + 256 * le_value bs'
  end.

(** One unsigned field of [n] bytes; a value out of range is an error. *)
Definition pack_uint (n : nat) (v : Z) : result (list Z) :=
  if (0 <=? v) && (v <? 2 ^ (8 * Z.of_nat n))
  then Ok (le_bytes n v)
  else Raise struct_error.

Fixpoint pack_all (n : nat) (vs : list Z) : result (list Z) :=
  match vs with
  | [] => Ok []
  | v :: vs' =>
      rbind (pack_uint n v) (λ b, rbind (pack_all n vs') (λ bs, Ok (b ++ bs)))
  end.

(** [struct.pack("<B", v)], [("<H", v)], [("<I", v)] and [("<5H", *vs)] *)
Definition pack_B (v : Z) : result (list Z) := pack_uint 1 v.
Definition pack_H (v : Z) : result (list Z) := pack_uint 2 v.
Definition pack_I (v : Z) : result (list Z) := pack_uint 4 v.
Definition pack_5H (vs : list Z) : result (list Z) :=
  if (length vs =? 5)%nat then pack_all 2 vs else Raise struct_error.

End Struct.

Module Zlib.

(** One bit of the reflected CRC-32, polynomial 0xEDB88320. *)
Definition crc_shift (c : Z) : Z :=
  if Z.testbit c 0 then Z.lxor (Z.shiftr c 1) 0xEDB88320 else Z.shiftr c 1.

Definition crc_byte (c b : Z) : Z :=
  Nat.iter 8 crc_shift (Z.lxor c b).

(** [zlib.crc32(data)] *)
Definition crc32 (data : list Z) : Z :=
  Z.lxor (fold_left crc_byte data 0xFFFFFFFF) 0xFFFFFFFF.

End Zlib.

(** ** The world: the files on disk and the oracle calls made so far *)

Record world : Type :=
  { files : gmap string (list Z);
    oracle_calls : list datetime;
    (** what [datetime.now()] returns; the CSV writer and the RTC prompt
        read it, the table builder and the binary writer never do *)
    clock : datetime }.

Definition M (A : Type) : Type := world → result A * world.

Definition ret {A} (a : A) : M A := λ w, (Ok a, w).

Definition raise {A} (e : exn) : M A := λ w, (Raise e, w).

Definition bind {A B} (m : M A) (k : A → M B) : M B :=
  λ w, match m w with
       | (Ok a, w') => k a w'
       | (Raise e, w') => (Raise e, w')
       end.

Definition lift {A} (r : result A) : M A := λ w, (r, w).

Notation "'do' x <- m ; k" := (bind m (λ x, k))
  (at level 10, x name, m at level 100, k at level 200,
   format "'[v' 'do'  x  <-  m ; '/' k ']'").

Notation "'do' x <~ r ; k" := (rbind r (λ x, k))
  (at level 10, x name, r at level 100, k at level 200,
   format "'[v' 'do'  x  <~  r ; '/' k ']'").

(** [with open(path, "wb") as f: f.write(buf)]: the file then holds [buf];
    failures of the operating system itself are outside the model. *)
Definition write_file (path : string) (buf : list Z) : M unit :=
  λ w, (Ok tt, {| files := <[path := buf]> (files w);
                  oracle_calls := oracle_calls w;
                  clock := clock w |}).

(** [d[key]] on a dict *)
Definition getitem {V} (d : gmap string V) (key : string) : result V :=
  match d !! key with
  | Some v => Ok v
  | None => Raise (KeyError key)
  end.

(** ** Constants of the generator *)

Definition PRAYERS : list string := ["Fajr"; "Dhuhr"; "Asr"; "Maghrib"; "Isha"].

Inductive CalculationMethod : Type :=
| KARACHI | MUSLIM_WORLD_LEAGUE | EGYPTIAN
| MOON_SIGHTING_COMMITTEE | UMM_AL_QURA | NORTH_AMERICA.

Definition METHOD_MAP : gmap string CalculationMethod :=
  list_to_map
    [("KARACHI", KARACHI);
     ("MUSLIM_WORLD_LEAGUE", MUSLIM_WORLD_LEAGUE);
     ("EGYPTIAN", EGYPTIAN);
     ("MOON_SIGHTING_COMMITTEE", MOON_SIGHTING_COMMITTEE);
     ("UMM_AL_QURA", UMM_AL_QURA);
     ("NORTH_AMERICA", NORTH_AMERICA)].

Definition METHOD_CODE : gmap string Z :=
  list_to_map
    [("CUSTOM", 0); ("KARACHI", 1); ("MUSLIM_WORLD_LEAGUE", 2); ("EGYPTIAN", 3);
     ("UMM_AL_QURA", 4); ("MOON_SIGHTING_COMMITTEE", 5); ("NORTH_AMERICA", 6)].

Definition FLAG_RTC_ONE_SHOT : Z := 0x10.

(** ** Date spans *)

(** The generator [daterange]: the dates it yields and, when stepping past
    the last one overflows, the exception that ends the iteration.  The
    loop runs on fuel; [daterange] gives it one unit per test of [d <= end]. *)
Fixpoint daterange_loop (fuel : nat) (d end_ : date)
  : list date * option exn :=
  match fuel with
  | O => ([], None)
  | S fuel' =>
      if Calendar.le d end_ then
        match add_days d 1 with
        | Ok d' =>
            let '(ds, e) := daterange_loop fuel' d' end_ in (d :: ds, e)
        | Raise e => ([d], Some e)
        end
      else ([], None)
  end.

Definition daterange (start end_ : date) : list date * option exn :=
  daterange_loop (Z.to_nat (toordinal end_ - toordinal start + 2)) start end_.

Definition count_days (start end_ : date) : Z :=
  toordinal end_ - toordinal start + 1.

(** ** The schedule table *)

Record prayer_times : Type :=
  { fajr : datetime; sunrise : datetime; dhuhr : datetime;
    asr : datetime; maghrib : datetime; isha : datetime }.

(** [adj = lambda dt, mins: dt + timedelta(minutes=mins)] *)
Definition adj (dt : datetime) (mins : Z) : result datetime :=
  do td <~ timedelta_minutes mins ;
  datetime_add dt td.

(** [to_min = lambda dt: dt.hour*60 + dt.minute] *)
Definition to_min (dt : datetime) : Z := hour dt * 60 + minute dt.

(** [t[i] = max(0, min(1439, t[i]))] *)
Definition clamp_at (t : list Z) (i : nat) : list Z :=
  <[i := Z.max 0 (Z.min 1439 (t !!! i))]> t.

(** [if t[i] <= t[i-1]: t[i] = min(t[i-1]+1, 1439)] *)
Definition repair_at (t : list Z) (i : nat) : list Z :=
  if t !!! i <=? t !!! (i - 1)%nat
  then <[i := Z.min (t !!! (i - 1)%nat + 1) 1439]> t
  else t.

(** The two loops over the row [t], [range(5)] then [range(1,5)]. *)
Definition clamp (t : list Z) : list Z := foldl clamp_at t (seq 0 5).
Definition repair (t : list Z) : list Z := foldl repair_at t (seq 1 4).

(** The body of the loop of [compute_minutes_table] after the oracle call. *)
Definition minutes_row (offsets : gmap string Z) (pt : prayer_times)
  : result (list Z) :=
  do o <~ getitem offsets "Fajr" ; do fajr' <~ adj (fajr pt) o ;
  do o <~ getitem offsets "Dhuhr" ; do dhuhr' <~ adj (dhuhr pt) o ;
  do o <~ getitem offsets "Asr" ; do asr' <~ adj (asr pt) o ;
  do o <~ getitem offsets "Maghrib" ; do mag <~ adj (maghrib pt) o ;
  do o <~ getitem offsets "Isha" ; do isha' <~ adj (isha pt) o ;
  let t := [to_min fajr'; to_min dhuhr'; to_min asr'; to_min mag; to_min isha'] in
  Ok (repair (clamp t)).

(** [datetime(d.year, d.month, d.day)] *)
Definition midnight (d : date) : datetime :=
  datetime_ymd (year d) (month d) (day d).

Section Generator.

(** The collaborators: floating-point coordinates, the time-zone data
    base behind [ZoneInfo], and the [adhanpy] oracle [PrayerTimes]. *)
Context {float tzinfo : Type}.
Variable ZoneInfo : string → result tzinfo.
Variable PrayerTimes :
  float * float → datetime → CalculationMethod → tzinfo → result prayer_times.

(** [PrayerTimes((lat,lon), datetime(d.year,d.month,d.day), method_enum,
    time_zone=tz)], the call being recorded in the world. *)
Definition call_oracle (lat lon : float) (d : date)
    (method_enum : CalculationMethod) (tz : tzinfo) : M prayer_times :=
  let dt := midnight d in
  λ w, (PrayerTimes (lat, lon) dt method_enum tz,
        {| files := files w;
           oracle_calls := oracle_calls w ++ [dt];
           clock := clock w |}).

(** [for d in ...: ...; rows.append(tuple(t))] over the dates yielded. *)
Fixpoint table_loop (lat lon : float) (tz : tzinfo)
    (method_enum : CalculationMethod) (offsets : gmap string Z)
    (ds : list date) (rows : list (list Z)) : M (list (list Z)) :=
  match ds with
  | [] => ret rows
  | d :: ds' =>
      do pt <- call_oracle lat lon d method_enum tz ;
      do t <- lift (minutes_row offsets pt) ;
      table_loop lat lon tz method_enum offsets ds' (rows ++ [t])
  end.

Definition compute_minutes_table (start end_ : date) (lat lon : float)
    (tzname method_key : string) (offsets : gmap string Z)
  : M (list (list Z)) :=
  do tz <- lift (ZoneInfo tzname) ;
  do method_enum <- lift (getitem METHOD_MAP method_key) ;
  let '(ds, stop) := daterange start end_ in
  do rows <- table_loop lat lon tz method_enum offsets ds [] ;
  match stop with
  | Some e => raise e
  | None => ret rows
  end.

(** [buf += struct.pack(...)] *)
Definition extend (buf : list Z) (packed : result (list Z)) : result (list Z) :=
  do b <~ packed ; Ok (buf ++ b).

(** [for t in rows: buf += struct.pack("<5H", *t)] *)
Fixpoint extend_rows (buf : list Z) (rows : list (list Z)) : result (list Z) :=
  match rows with
  | [] => Ok buf
  | t :: rows' => do buf <~ extend buf (Struct.pack_5H t) ; extend_rows buf rows'
  end.

Definition write_pray2_bin (path : string) (start end_ : date)
    (lat lon : float) (tzname method_key : string) (offsets : gmap string Z)
    (default_on : list Z) (rtc_ascii : string) (flags : Z) : M unit :=
  do rows <- compute_minutes_table start end_ lat lon tzname method_key offsets ;
  let days := Z.of_nat (length rows) in
  let start_month := month start in
  let start_day := day start in
  let year := year start in
  let magic := [80; 82; 65; 89; 50] in
  let version := 2 in
  let header_size := 64 in
  do method_code <- lift (getitem METHOD_CODE method_key) ;
  do rtc_bytes <- lift (Py.encode_ascii rtc_ascii) ;
  if negb (length rtc_bytes =? 17)%nat then raise RuntimeError
  else
    let table_offset := header_size in
    let table_size := days * 5 * 2 in
    let durations_offset := 0 in
    let durations_size := 0 in
    do buf <- lift (
      let buf := [] in
      let buf := buf ++ magic in
      do buf <~ extend buf (Struct.pack_B version) ;
      do buf <~ extend buf (Struct.pack_H header_size) ;
      do buf <~ extend buf (Struct.pack_H year) ;
      do buf <~ extend buf (Struct.pack_H days) ;
      do buf <~ extend buf (Struct.pack_B start_month) ;
      do buf <~ extend buf (Struct.pack_B start_day) ;
      do buf <~ extend buf (Struct.pack_B (Z.land flags 0xFF)) ;
      do buf <~ extend buf (Struct.pack_B method_code) ;
      let buf := buf ++ rtc_bytes in
      do buf <~ extend buf (Struct.pack_B 0) ;
      do buf <~ extend buf (Struct.pack_5H default_on) ;
      do buf <~ extend buf (Struct.pack_I table_offset) ;
      do buf <~ extend buf (Struct.pack_I table_size) ;
      do buf <~ extend buf (Struct.pack_I durations_offset) ;
      do buf <~ extend buf (Struct.pack_I durations_size) ;
      do buf <~ extend buf (Struct.pack_H 0) ;
      do buf <~ extend buf (Struct.pack_H 0) ;
      if negb (length buf =? Z.to_nat header_size)%nat
      then Raise AssertionError
      else
        do buf <~ extend_rows buf rows ;
        let crc := Z.land (Zlib.crc32 buf) 0xFFFFFFFF in
        extend buf (Struct.pack_I crc)) ;
    write_file path buf.

End Generator.

(** ** Month spans (lines 77-82) *)

(** [_days_in_month(year, month)] of the [datetime] module; it is also the
    second component of [calendar.monthrange(year, month)]. *)
Definition days_in_month (year month : Z) : Z :=
  if (month =? 2) && is_leap year then 29
  else DAYS_IN_MONTH !!! Z.to_nat month.

(** [calendar.monthrange(year, month)[1]]; a month outside 1..12 raises
    [IllegalMonthError], a [ValueError]. *)
Definition monthrange_days (year month : Z) : result Z :=
  if negb ((1 <=? month) && (month <=? 12)) then Raise ValueError
  else Ok (days_in_month year month).

(** A value that fits the C [int] into which the constructor of [date]
    parses each of its arguments. *)
Definition fits_c_int (v : Z) : bool :=
  (-2147483648 <=? v) && (v <=? 2147483647).

(** [date(year, month, day)], with the checks of the constructor: an
    argument that does not fit a C [int] raises [OverflowError], one out
    of range [ValueError]. *)
Definition new_date (year month day : Z) : result date :=
  if negb (fits_c_int year && fits_c_int month && fits_c_int day)
  then Raise OverflowError
  else if negb ((1 <=? year) && (year <=? 9999)) then Raise ValueError
  else if negb ((1 <=? month) && (month <=? 12)) then Raise ValueError
  else if negb ((1 <=? day) && (day <=? days_in_month year month))
  then Raise ValueError
  else Ok (of_ymd year month day).

Definition month_span (year month : Z) : result (date * date) :=
  do last <~ monthrange_days year month;
  do first_day <~ new_date year month 1;
  do last_day <~ new_date year month last;
  Ok (first_day, last_day).

Definition contiguous_months_span (year start_month months : Z)
  : result (date * date) :=
  let end_month := Z.min 12 (start_month + months - 1) in
  do se <~ month_span year start_month;
  do se' <~ month_span year end_month;
  Ok (se.1, se'.2).

(** ** The terminal, and the prompts of the generator (lines 59-146)

    The lines still to be read are [stdin], each without its newline;
    [stdout] keeps what has been written, a text containing characters
    beyond code point 255 being kept as its UTF-8 bytes. *)

Module Console.

Inductive output : Type :=
| Printed (text : string)     (* [print(text)], a newline follows *)
| Prompted (text : string).   (* the prompt of [input(text)] *)

Record console : Type :=
  { stdin : list string;
    stdout : list output }.

Inductive console_exn : Type :=
| EOFError
| IndexError
| Other (e : exn).

(** How a call ends: it returns, it raises, or it never comes back. *)
Inductive outcome (A : Type) : Type :=
| Returned (a : A)
| Raised (e : console_exn)
| Hangs.
Arguments Returned {A} a.
Arguments Raised {A} e.
Arguments Hangs {A}.

Definition T (A : Type) : Type := console → outcome A * console.

Definition wrote (c : console) (o : output) : console :=
  {| stdin := stdin c; stdout := stdout c ++ [o] |}.

(** [print(text)] *)
Definition print (text : string) : T unit :=
  λ c, (Returned tt, wrote c (Printed text)).

(** [input(prompt)]: at the end of the input it raises [EOFError]. *)
Definition input (prompt : string) : T string :=
  λ c, match stdin c with
       | [] => (Raised EOFError, wrote c (Prompted prompt))
       | line :: rest =>
           (Returned line,
            {| stdin := rest; stdout := stdout c ++ [Prompted prompt] |})
       end.

Definition tbind {A B} (m : T A) (k : A → T B) : T B :=
  λ c, match m c with
       | (Returned a, c') => k a c'
       | (Raised e, c') => (Raised e, c')
       | (Hangs, c') => (Hangs, c')
       end.

Definition tret {A} (a : A) : T A := λ c, (Returned a, c).

Definition newline : string := String (ascii_of_nat 10) EmptyString.

(** The UTF-8 bytes of a text of code points below 256. *)
Fixpoint utf8 (s : string) : string :=
  match s with
  | EmptyString => EmptyString
  | String ch s' =>
      let n := N_of_ascii ch in
      if (n <? 128)%N then String ch (utf8 s')
      else String (ascii_of_N (192 + n / 64))
             (String (ascii_of_N (128 + n mod 64)) (utf8 s'))
  end.

(** [str(v)] for an [int] *)
Definition str_int (v : Z) : string :=
  if v <? 0 then ("-" ++ Py.decimal (- v))%string else Py.decimal v.

(** The first integer whose decimal text has more than 4300 digits, the
    interpreter's default limit (Python 3.11 and later). *)
Definition MAX_STR_DIGITS_BOUND : Z := 10 ^ 4300.

(** [str(v)] and [f"{v}"] for an [int], with the interpreter's limit on
    the length of decimal texts; [None] stands for [ValueError]. *)
Definition str_limited (v : Z) : option string :=
  if Z.abs v <? MAX_STR_DIGITS_BOUND then Some (str_int v) else None.

(** The number of decimal digits in a literal. *)
Fixpoint digit_count (s : string) : Z :=
  match s with
  | EmptyString => 0
  | String ch s' =>
      match Py.digit_val ch with
      | Some _ => 1 + digit_count s'
      | None => digit_count s'
      end
  end.

(** [int(s)] with the interpreter's limit on the length of decimal
    literals (4300 digits, the default of Python 3.11 and later); [None]
    stands for [ValueError]. *)
Definition int (s : string) : option Z :=
  if 4300 <? digit_count s then None else Py.int s.

(** [f"{k:22s}"]: [k] padded with blanks on the right to 22 characters. *)
Fixpoint blanks (n : nat) : string :=
  match n with
  | O => EmptyString
  | S n' => String " "%char (blanks n')
  end.

Definition ljust (w : nat) (s : string) : string :=
  (s ++ blanks (w - String.length s))%string.

(** [l[i]] on a list, a negative index counting from the end. *)
Definition index {A} (l : list A) (i : Z) : outcome A :=
  let j := if i <? 0 then Z.of_nat (length l) + i else i in
  if j <? 0 then Raised IndexError
  else match l !! Z.to_nat j with
       | Some x => Returned x
       | None => Raised IndexError
       end.

End Console.
Import Console.

Notation "'do' x <: m ; k" := (tbind m (λ x, k))
  (at level 10, x name, m at level 100, k at level 200,
   format "'[v' 'do'  x  <:  m ; '/' k ']'").

Definition METHODS : list (string * string) :=
  [("KARACHI", "University of Islamic Sciences, Karachi (Fajr 18°, Isha 18°)");
   ("MUSLIM_WORLD_LEAGUE", "MWL (Fajr 18°, Isha 17°)");
   ("EGYPTIAN", "Egyptian General Authority (Fajr 19.5°, Isha 17.5°)");
   ("MOON_SIGHTING_COMMITTEE", "Moonsighting Committee");
   ("UMM_AL_QURA", "Umm al-Qurā (Isha = Maghrib + 90; often 120 in Ramadan)");
   ("NORTH_AMERICA", "ISNA/North America (Fajr 15°, Isha 15°)")].

(** The loop of [ask_int] over the lines still to be read.  The prompt
    [f"{p} [{lo}-{hi}]: "] is formatted inside the [try]: a bound too long
    to be printed raises [ValueError] there, the bare [except] swallows it
    and the loop goes round again without ever reading a line.  At the end
    of the input [input] raises [EOFError], which is swallowed likewise,
    and the loop goes round for ever.  In both cases the console returned
    is the one at the point where nothing but the error message is
    written any more. *)
Fixpoint ask_int_loop (p : string) (lo hi : Z) (lines : list string)
    (out : list output) : outcome Z * console :=
  match str_limited lo, str_limited hi with
  | Some lo_text, Some hi_text =>
      let prompt := (utf8 p ++ " [" ++ lo_text ++ "-" ++ hi_text ++ "]: ")%string in
      let out := out ++ [Prompted prompt] in
      match lines with
      | [] => (Hangs, {| stdin := []; stdout := out |})
      | line :: rest =>
          let again :=
            ask_int_loop p lo hi rest
              (out ++ [Printed "  ✖ Invalid input, try again."]) in
          match Console.int (Py.strip line) with
          | Some v =>
              if (lo <=? v) && (v <=? hi)
              then (Returned v, {| stdin := rest; stdout := out |})
              else again
          | None => again
          end
      end
  | _, _ => (Hangs, {| stdin := lines; stdout := out |})
  end.

Definition ask_int (p : string) (lo hi : Z) : T Z :=
  λ c, ask_int_loop p lo hi (stdin c) (stdout c).

(** [for i,(k,desc) in enumerate(METHODS,1): print(...)] *)
Fixpoint print_methods (i : Z) (ms : list (string * string)) : T unit :=
  match ms with
  | [] => tret tt
  | (k, desc) :: ms' =>
      do _ <: print ("  " ++ str_int i ++ ") " ++ ljust 22 k ++ " – " ++ desc)%string;
      print_methods (i + 1) ms'
  end.

Definition choose_method : T string :=
  do _ <: print (newline ++ "Calculation method:")%string;
  do _ <: print_methods 1 METHODS;
  do idx <: ask_int "Choose method" 1 (Z.of_nat (length METHODS));
  do entry <: (λ c, (Console.index METHODS (idx - 1), c));
  tret entry.1.

(** The body of the loop of [get_offsets] for one prayer. *)
Definition get_offset (offs : gmap string Z) (p : string)
  : T (gmap string Z) :=
  do line <: input ("  " ++ utf8 p ++ " offset (min) [default 0]: ")%string;
  let s := Py.strip line in
  if String.eqb s "" then tret (<[p := 0]> offs)
  else match Console.int s with
       | Some v => tret (<[p := v]> offs)
       | None =>
           do _ <: print "   → Not a number; using 0.";
           tret (<[p := 0]> offs)
       end.

Fixpoint get_offsets_loop (ps : list string) (offs : gmap string Z)
  : T (gmap string Z) :=
  match ps with
  | [] => tret offs
  | p :: ps' => do offs <: get_offset offs p; get_offsets_loop ps' offs
  end.

Definition get_offsets : T (gmap string Z) :=
  do _ <: print (newline ++ "Optional per-prayer minute offsets (positive=later, negative=earlier).")%string;
  do _ <: print ("Press Enter to accept 0." ++ newline)%string;
  get_offsets_loop PRAYERS ∅.

(** The body of the loop of [get_default_durations] for one prayer. *)
Definition get_duration (default : Z) (out : list Z) (p : string)
  : T (list Z) :=
  do line <: input ("  " ++ utf8 p ++ " seconds [default "
                    ++ str_int default ++ "]: ")%string;
  let s := Py.strip line in
  if String.eqb s "" then tret (out ++ [default])
  else
    let invalid :=
      do _ <: print "   → Invalid; using default.";
      tret (out ++ [default]) in
    match Console.int s with
    | Some v => if (v <? 0) || (36000 <? v) then invalid else tret (out ++ [v])
    | None => invalid
    end.

(** [for i,p in enumerate(PRAYERS): ...], [defaults[i]] walked along. *)
Fixpoint get_durations_loop (ps : list string) (defaults : list Z)
    (i : Z) (out : list Z) : T (list Z) :=
  match ps with
  | [] => tret out
  | p :: ps' =>
      do default <: (λ c, (Console.index defaults i, c));
      do out <: get_duration default out p;
      get_durations_loop ps' defaults (i + 1) out
  end.

Definition get_default_durations : T (list Z) :=
  do _ <: print (newline ++ "Default relay ON durations (seconds) for Fajr, Dhuhr, Asr, Maghrib, Isha.")%string;
  do _ <: print "Press Enter for defaults: 60,45,45,45,45";
  get_durations_loop PRAYERS [60; 45; 45; 45; 45] 0 [].

Section Prompts.

Context {tzinfo : Type}.
(** [ZoneInfo(name)] and [datetime.now(tz)] *)
Variable ZoneInfo : string → result tzinfo.
Variable now : tzinfo → datetime.

(** The loop of [ask_timezone] over the lines still to be read. *)
Fixpoint ask_timezone_loop (lines : list string) (out : list output)
  : outcome string * console :=
  let out :=
    out ++ [Prompted "IANA time zone (e.g., Asia/Karachi, America/New_York): "] in
  match lines with
  | [] => (Raised EOFError, {| stdin := []; stdout := out |})
  | line :: rest =>
      let tz := Py.strip line in
      match ZoneInfo tz with
      | Ok _ => (Returned tz, {| stdin := rest; stdout := out |})
      | Raise _ =>
          ask_timezone_loop rest
            (out ++ [Printed "  ✖ Not a recognized IANA zone. Try again."])
      end
  end.

Definition ask_timezone : T string :=
  λ c, ask_timezone_loop (stdin c) (stdout c).

(** [dt.strftime("%H:%M:%S|%d/%m/%y")] *)
Definition strftime_rtc (dt : datetime) : string :=
  (Py.format_02d (hour dt) ++ ":" ++ Py.format_02d (minute dt) ++ ":"
   ++ Py.format_02d (second dt) ++ "|"
   ++ Py.format_02d (day (dt_date dt)) ++ "/"
   ++ Py.format_02d (month (dt_date dt)) ++ "/"
   ++ Py.format_02d (year (dt_date dt) mod 100))%string.

(** The loop of [ask_rtc_ascii] over the lines still to be read. *)
Fixpoint ask_rtc_loop (default : string) (lines : list string)
    (out : list output) : outcome string * console :=
  let out := out ++ [Prompted "RTC time: "] in
  match lines with
  | [] => (Raised EOFError, {| stdin := []; stdout := out |})
  | line :: rest =>
      let s := Py.strip line in
      if String.eqb s "" then (Returned default, {| stdin := rest; stdout := out |})
      else match validate_rtc_ascii s with
           | Some v => (Returned v, {| stdin := rest; stdout := out |})
           | None =>
               ask_rtc_loop default rest
                 (out ++ [Printed "  ✖ Invalid format. Please use exactly HH:MM:SS|DD/MM/YY (17 chars). Try again."])
           end
  end.

Definition ask_rtc_ascii (tzname : string) : T string :=
  match ZoneInfo tzname with
  | Raise e => λ c, (Raised (Other e), c)
  | Ok tz =>
      let default := strftime_rtc (now tz) in
      do _ <: print (newline ++ "Enter the device RTC time to embed (local to installation).")%string;
      do _ <: print ("Format: HH:MM:SS|DD/MM/YY   e.g. " ++ default)%string;
      do _ <: print ("Press Enter to use computer's current local time for "
                     ++ utf8 tzname ++ ": " ++ default)%string;
      λ c, ask_rtc_loop default (stdin c) (stdout c)
  end.

End Prompts.

(** * Vocabulary of the properties *)

(** ** Rows of the schedule table *)

Definition in_day (v : Z) : Prop := 0 ≤ v ≤ 1439.

(** Adjacent entries of a row, left to right. *)
Definition adjacent (R : Z → Z → Prop) (t : list Z) : Prop :=
  ∀ (i : nat) (x y : Z), t !! i = Some x → t !! S i = Some y → R x y.

Definition strictly_increasing : list Z → Prop := adjacent Z.lt.
Definition non_decreasing : list Z → Prop := adjacent Z.le.

(** Strict, except where the left neighbour already sits at 1439. *)
Definition increasing_or_saturated : list Z → Prop :=
  adjacent (λ x y, x < y ∨ (x = 1439 ∧ y = 1439)).

(** The repair as the rule is worded, not as the loop is coded: walk the
    row from the second entry on, carrying the (already repaired) entry to
    the left. *)
Fixpoint repair_from (prev : Z) (rest : list Z) : list Z :=
  match rest with
  | [] => []
  | x :: rest' =>
      let x' := if x <=? prev then Z.min (prev + 1) 1439 else x in
      x' :: repair_from x' rest'
  end.

Definition repair_rule (t : list Z) : list Z :=
  match t with
  | [] => []
  | x :: rest => x :: repair_from x rest
  end.

(** What the builder stores for one date: a clamped, then repaired, row. *)
Definition is_row (r : list Z) : Prop :=
  ∃ a b c d e : Z, r = repair (clamp [a; b; c; d; e]).

(** The minutes of the five times of one date before clamping (lines
    154-158): each time of the oracle moved by its offset, then [to_min]. *)
Definition adjusted_minutes (offsets : gmap string Z) (pt : prayer_times)
    (raw : list Z) : Prop :=
  ∃ (o1 o2 o3 o4 o5 : Z) (t1 t2 t3 t4 t5 : datetime),
    offsets !! "Fajr" = Some o1 ∧ adj (fajr pt) o1 = Ok t1
    ∧ offsets !! "Dhuhr" = Some o2 ∧ adj (dhuhr pt) o2 = Ok t2
    ∧ offsets !! "Asr" = Some o3 ∧ adj (asr pt) o3 = Ok t3
    ∧ offsets !! "Maghrib" = Some o4 ∧ adj (maghrib pt) o4 = Ok t4
    ∧ offsets !! "Isha" = Some o5 ∧ adj (isha pt) o5 = Ok t5
    ∧ raw = [to_min t1; to_min t2; to_min t3; to_min t4; to_min t5].

(** ** Dates, bytes and the file image *)

Definition valid_date (d : date) : Prop := 1 ≤ toordinal d ≤ MAXORDINAL.

Definition is_byte (b : Z) : Prop := 0 ≤ b < 256.

Definition is_u16 (v : Z) : Prop := 0 ≤ v < 65536.

Definition is_u32 (c : Z) : Prop := 0 ≤ c < 2 ^ 32.

Definition row_bytes (t : list Z) : list Z := concat (Struct.le_bytes 2 <$> t).

(** The 64 bytes of the header, field by field (lines 204-221). *)
Definition pray2_header (year days month day flags code : Z)
    (rtc_bytes default_on : list Z) : list Z :=
  [80; 82; 65; 89; 50] ++ Struct.le_bytes 1 2 ++ Struct.le_bytes 2 64
  ++ Struct.le_bytes 2 year ++ Struct.le_bytes 2 days
  ++ Struct.le_bytes 1 month ++ Struct.le_bytes 1 day
  ++ Struct.le_bytes 1 (Z.land flags 0xFF) ++ Struct.le_bytes 1 code
  ++ rtc_bytes ++ Struct.le_bytes 1 0 ++ row_bytes default_on
  ++ Struct.le_bytes 4 64 ++ Struct.le_bytes 4 (days * 5 * 2)
  ++ Struct.le_bytes 4 0 ++ Struct.le_bytes 4 0
  ++ Struct.le_bytes 2 0 ++ Struct.le_bytes 2 0.

(** Header and table: what the checksum covers. *)
Definition pray2_body (year days month day flags code : Z)
    (rtc_bytes default_on : list Z) (rows : list (list Z)) : list Z :=
  pray2_header year days month day flags code rtc_bytes default_on
  ++ concat (row_bytes <$> rows).

(** [buf[off : off+n]] *)
Definition bytes_at (buf : list Z) (off n : nat) : list Z :=
  take n (drop off buf).

(** The little-endian 16-bit values a byte string holds, in order. *)
Fixpoint unpack_H (bs : list Z) : list Z :=
  match bs with
  | b0 :: b1 :: bs' => Struct.le_value [b0; b1] :: unpack_H bs'
  | _ => []
  end.

(** The header of section 6, field by field, and the table behind it;
    numeric fields are read back with [le_value]. *)
Definition pray2_layout (buf : list Z) (start : date) (flags code : Z)
    (rtc : string) (default_on : list Z) (rows : list (list Z)) : Prop :=
  Forall is_byte buf
  ∧ Py.encode_ascii "PRAY2" = Ok (bytes_at buf 0 5)
  ∧ bytes_at buf 5 1 = [2]
  ∧ Struct.le_value (bytes_at buf 6 2) = 64
  ∧ Struct.le_value (bytes_at buf 8 2) = year start
  ∧ Struct.le_value (bytes_at buf 10 2) = Z.of_nat (length rows)
  ∧ bytes_at buf 12 1 = [month start]
  ∧ bytes_at buf 13 1 = [day start]
  ∧ bytes_at buf 14 1 = [Z.land flags 0xFF]
  ∧ bytes_at buf 15 1 = [code]
  ∧ Py.encode_ascii rtc = Ok (bytes_at buf 16 17)
  ∧ bytes_at buf 33 1 = [0]
  ∧ unpack_H (bytes_at buf 34 10) = default_on
  ∧ Struct.le_value (bytes_at buf 44 4) = 64
  ∧ Struct.le_value (bytes_at buf 48 4) = Z.of_nat (length rows) * 10
  ∧ Struct.le_value (bytes_at buf 52 4) = 0
  ∧ Struct.le_value (bytes_at buf 56 4) = 0
  ∧ Struct.le_value (bytes_at buf 60 2) = 0
  ∧ Struct.le_value (bytes_at buf 62 2) = 0
  ∧ ∀ (i : nat) (row : list Z),
      rows !! i = Some row →
      unpack_H (bytes_at buf (64 + 10 * i) 10) = row.

(** The fixed name-to-code table. *)
Definition method_code_table : Prop :=
  METHOD_CODE !! "CUSTOM" = Some 0
  ∧ METHOD_CODE !! "KARACHI" = Some 1
  ∧ METHOD_CODE !! "MUSLIM_WORLD_LEAGUE" = Some 2
  ∧ METHOD_CODE !! "EGYPTIAN" = Some 3
  ∧ METHOD_CODE !! "UMM_AL_QURA" = Some 4
  ∧ METHOD_CODE !! "MOON_SIGHTING_COMMITTEE" = Some 5
  ∧ METHOD_CODE !! "NORTH_AMERICA" = Some 6
  ∧ size METHOD_CODE = 7%nat.

(** A run that ended in an exception, with no file touched and the oracle
    asked at most once for each date of a prefix of the span. *)
Definition aborted (w : world) (span : list date)
    (run : result unit * world) : Prop :=
  is_raise run.1
  ∧ files run.2 = files w
  ∧ ∃ k : nat, oracle_calls run.2 = oracle_calls w ++ take k (midnight <$> span).

(** A [datetime] whose time of day is one a clock can show. *)
Definition wellformed_time (dt : datetime) : Prop :=
  0 ≤ hour dt < 24 ∧ 0 ≤ minute dt < 60 ∧ 0 ≤ second dt < 60
  ∧ 0 ≤ microsecond dt < 1000000.

(** The text [f"{HH:02d}:{MM:02d}:{SS:02d}|{DD:02d}/{MO:02d}/{YY:02d}"]. *)
Definition rtc_string (HH MM SS DD MO YY : Z) : string :=
  (Py.format_02d HH ++ ":" ++ Py.format_02d MM ++ ":"
   ++ Py.format_02d SS ++ "|" ++ Py.format_02d DD ++ "/"
   ++ Py.format_02d MO ++ "/" ++ Py.format_02d YY)%string.

(** A test on all 256 characters. *)
Definition all_ascii (P : ascii → bool) : bool :=
  forallb P (ascii_of_nat <$> seq 0 256).

(** What [int] reads from two characters lies between -9 and 99. *)
Definition int2_in_range (a b : ascii) : bool :=
  match Py.int (String a (String b EmptyString)) with
  | Some v => (-9 <=? v) && (v <=? 99)
  | None => true
  end.

(** The [02d] format of [v] is two ASCII characters, neither a blank,
    that [int] reads back as [v]. *)
Definition format_02d_reads_back (v : Z) : bool :=
  match Py.format_02d v with
  | String a (String b EmptyString) =>
      negb (Py.isspace a) && negb (Py.isspace b)
      && (Py.ord a <? 128) && (Py.ord b <? 128)
      && match Py.int (String a (String b EmptyString)) with
         | Some v' => v' =? v
         | None => false
         end
  | _ => false
  end.

(** Oracle times the offsets below cannot push out of the calendar. *)
Definition usable_time (dt : datetime) : Prop :=
  wellformed_time dt ∧ 1 < toordinal (dt_date dt) < MAXORDINAL.

Definition usable_times (pt : prayer_times) : Prop :=
  usable_time (fajr pt) ∧ usable_time (dhuhr pt) ∧ usable_time (asr pt)
  ∧ usable_time (maghrib pt) ∧ usable_time (isha pt).

(** One offset per prayer, none beyond a day. *)
Definition day_offsets (offsets : gmap string Z) : Prop :=
  ∀ p, p ∈ PRAYERS → ∃ o, offsets !! p = Some o ∧ -1440 ≤ o ≤ 1440.

(** A line [ask_int] does not take: no integer, or one out of range. *)
Definition rejected (lo hi : Z) (line : string) : Prop :=
  ∀ v, Console.int (Py.strip line) = Some v → ¬ (lo ≤ v ≤ hi).

(** An integer whose decimal text the interpreter agrees to produce. *)
Definition printable (v : Z) : Prop :=
  Z.abs v < Console.MAX_STR_DIGITS_BOUND.

(** A relay duration the prompt accepts. *)
Definition is_duration (v : Z) : Prop := 0 ≤ v ≤ 36000.

(** The offset the prompt of [get_offsets] stores for a line typed. *)
Definition offset_of_line (line : string) : Z :=
  default 0 (Console.int (Py.strip line)).

(** A line [ask_timezone] does not take: no zone of that name. *)
Definition unrecognized {tzinfo} (ZoneInfo : string → result tzinfo)
    (line : string) : Prop :=
  ∃ e, ZoneInfo (Py.strip line) = Raise e.

(** A text the binary writer takes as the RTC field: a fixed point of the
    validator that encodes to 17 ASCII bytes. *)
Definition rtc_field (v : string) : Prop :=
  validate_rtc_ascii v = Some v
  ∧ ∃ bs, Py.encode_ascii v = Ok bs ∧ length bs = 17%nat.

(** ** A fixture: a fixed oracle and a small span *)

Module Fixture.

Definition at_time (d : date) (h m : Z) : datetime :=
  {| dt_date := d; hour := h; minute := m; second := 0; microsecond := 0 |}.

(** The same clock times on every date. *)
Definition times (d : date) : prayer_times :=
  {| fajr := at_time d 5 0; sunrise := at_time d 6 15;
     dhuhr := at_time d 12 0; asr := at_time d 15 30;
     maghrib := at_time d 18 0; isha := at_time d 19 30 |}.

Definition oracle (_ : unit * unit) (dt : datetime)
    (_ : CalculationMethod) (_ : unit) : result prayer_times :=
  Ok (times (dt_date dt)).

(** An oracle with no answer for 2025-08-29. *)
Definition polar_oracle (c : unit * unit) (dt : datetime)
    (m : CalculationMethod) (tz : unit) : result prayer_times :=
  if toordinal (dt_date dt) =? ymd2ord 2025 8 29
  then Raise (OracleError 1)
  else oracle c dt m tz.

Definition zoneinfo (name : string) : result unit :=
  if String.eqb name "Asia/Karachi" then Ok tt
  else Raise ZoneInfoNotFoundError.

Definition offsets (fajr dhuhr asr maghrib isha : Z) : gmap string Z :=
  list_to_map [("Fajr", fajr); ("Dhuhr", dhuhr); ("Asr", asr);
               ("Maghrib", maghrib); ("Isha", isha)].

Definition no_offsets : gmap string Z := offsets 0 0 0 0 0.

Definition aug28 : date := of_ymd 2025 8 28.
Definition aug29 : date := of_ymd 2025 8 29.

Definition world0 : world :=
  {| files := ∅; oracle_calls := []; clock := at_time aug28 9 41 |}.

Definition world1 : world :=
  {| files := {["out.bin" := [1; 2; 3]]};
     oracle_calls := [at_time aug28 0 0];
     clock := at_time aug29 23 7 |}.

Definition rtc : string := "07:15:00|01/01/25".
Definition durations : list Z := [60; 45; 45; 45; 45].

(** The table for the two days, and the run that writes it. *)
Definition table (offs : gmap string Z) : result (list (list Z)) * world :=
  compute_minutes_table zoneinfo oracle aug28 aug29 tt tt
    "Asia/Karachi" "KARACHI" offs world0.

Definition run (w : world) : result unit * world :=
  write_pray2_bin zoneinfo oracle "out.bin" aug28 aug29 tt tt
    "Asia/Karachi" "KARACHI" no_offsets durations rtc FLAG_RTC_ONE_SHOT w.

Definition image : list Z :=
  default [] (files (run world0).2 !! "out.bin").

(** A clock stopped one minute before the end of 2025-08-28. *)
Definition now (_ : unit) : datetime := at_time aug28 23 59.

End Fixture.

(** * Properties *)

(** ** Rows of the schedule table *)

Lemma adjacent_5 (R : Z → Z → Prop) (a b c d e : Z) :
  adjacent R [a; b; c; d; e] ↔ R a b ∧ R b c ∧ R c d ∧ R d e.
Proof.
  split.
  - intros H. repeat split.
    + apply (H 0%nat); reflexivity.
    + apply (H 1%nat); reflexivity.
    + apply (H 2%nat); reflexivity.
    + apply (H 3%nat); reflexivity.
  - intros (Hab & Hbc & Hcd & Hde) i x y Hx Hy.
    do 4 (destruct i as [|i]; [simpl in Hx, Hy; congruence|]).
    destruct i; simpl in Hy; discriminate.
Qed.

Lemma clamp_5 (a b c d e : Z) :
  clamp [a; b; c; d; e]
  = [Z.max 0 (Z.min 1439 a); Z.max 0 (Z.min 1439 b); Z.max 0 (Z.min 1439 c);
     Z.max 0 (Z.min 1439 d); Z.max 0 (Z.min 1439 e)].
Proof. reflexivity. Qed.

Lemma repair_at_1 (a b : Z) (l : list Z) :
  repair_at (a :: b :: l) 1
  = a :: (if b <=? a then Z.min (a + 1) 1439 else b) :: l.
Proof. unfold repair_at. cbn. destruct (b <=? a); reflexivity. Qed.

Lemma repair_at_S (x : Z) (l : list Z) (i : nat) :
  repair_at (x :: l) (S (S i)) = x :: repair_at l (S i).
Proof.
  unfold repair_at. cbn. rewrite Nat.sub_0_r.
  destruct (_ <=? _); reflexivity.
Qed.

Lemma repair_5 (a b c d e : Z) :
  repair [a; b; c; d; e] = repair_rule [a; b; c; d; e].
Proof.
  unfold repair. cbn [seq foldl].
  rewrite repair_at_1.
  rewrite !repair_at_S, repair_at_1.
  rewrite !repair_at_S, repair_at_1.
  rewrite !repair_at_S, repair_at_1.
  reflexivity.
Qed.

Lemma repair_rule_5 (a b c d e : Z) :
  repair_rule [a; b; c; d; e]
  = let b' := if b <=? a then Z.min (a + 1) 1439 else b in
    let c' := if c <=? b' then Z.min (b' + 1) 1439 else c in
    let d' := if d <=? c' then Z.min (c' + 1) 1439 else d in
    let e' := if e <=? d' then Z.min (d' + 1) 1439 else e in
    [a; b'; c'; d'; e'].
Proof. reflexivity. Qed.

Ltac leb_cases :=
  repeat match goal with
         | |- context [?x <=? ?y] => destruct (Z.leb_spec x y)
         end.

Lemma clamp_in_day (v : Z) : in_day (Z.max 0 (Z.min 1439 v)).
Proof. unfold in_day. lia. Qed.

Ltac abstract_clamped :=
  repeat match goal with
         | |- context [Z.max 0 (Z.min 1439 ?v)] =>
             generalize (clamp_in_day v);
             generalize (Z.max 0 (Z.min 1439 v));
             unfold in_day; intros ? ?
         end.

Lemma row_in_day (r : list Z) : is_row r → Forall in_day r.
Proof.
  intros (a & b & c & d & e & ->).
  rewrite clamp_5, repair_5, repair_rule_5. cbv zeta. abstract_clamped.
  repeat constructor; unfold in_day; leb_cases; lia.
Qed.

Lemma row_increasing_or_saturated (r : list Z) :
  is_row r → increasing_or_saturated r.
Proof.
  intros (a & b & c & d & e & ->).
  rewrite clamp_5, repair_5, repair_rule_5. cbv zeta. abstract_clamped.
  apply adjacent_5. repeat split; leb_cases; lia.
Qed.

Lemma row_non_decreasing (r : list Z) : is_row r → non_decreasing r.
Proof.
  intros Hr i x y Hx Hy.
  destruct (row_increasing_or_saturated r Hr i x y Hx Hy); lia.
Qed.

Lemma repair_never_decreases (a b c d e : Z) :
  Forall2 Z.le (clamp [a; b; c; d; e]) (repair (clamp [a; b; c; d; e])).
Proof.
  rewrite clamp_5, repair_5, repair_rule_5. cbv zeta. abstract_clamped.
  repeat constructor; leb_cases; lia.
Qed.

Lemma row_length (r : list Z) : is_row r → length r = 5%nat.
Proof.
  intros (a & b & c & d & e & ->).
  rewrite clamp_5, repair_5. reflexivity.
Qed.

Lemma minutes_row_is_row (offsets : gmap string Z) (pt : prayer_times)
    (r : list Z) :
  minutes_row offsets pt = Ok r → is_row r.
Proof.
  unfold minutes_row, rbind. intros H.
  repeat match type of H with
         | match ?x with _ => _ end = _ => destruct x; [|discriminate H]
         end.
  injection H as <-. unfold is_row. eauto 10.
Qed.

Lemma minutes_row_raw (offsets : gmap string Z) (pt : prayer_times)
    (r : list Z) :
  minutes_row offsets pt = Ok r →
  ∃ raw, adjusted_minutes offsets pt raw ∧ r = repair (clamp raw).
Proof.
  unfold minutes_row, getitem. intros H.
  destruct (offsets !! "Fajr") as [o1|] eqn:H1; [|discriminate H].
  cbn [rbind] in H.
  destruct (adj (fajr pt) o1) as [t1|] eqn:A1; [|discriminate H].
  cbn [rbind] in H.
  destruct (offsets !! "Dhuhr") as [o2|] eqn:H2; [|discriminate H].
  cbn [rbind] in H.
  destruct (adj (dhuhr pt) o2) as [t2|] eqn:A2; [|discriminate H].
  cbn [rbind] in H.
  destruct (offsets !! "Asr") as [o3|] eqn:H3; [|discriminate H].
  cbn [rbind] in H.
  destruct (adj (asr pt) o3) as [t3|] eqn:A3; [|discriminate H].
  cbn [rbind] in H.
  destruct (offsets !! "Maghrib") as [o4|] eqn:H4; [|discriminate H].
  cbn [rbind] in H.
  destruct (adj (maghrib pt) o4) as [t4|] eqn:A4; [|discriminate H].
  cbn [rbind] in H.
  destruct (offsets !! "Isha") as [o5|] eqn:H5; [|discriminate H].
  cbn [rbind] in H.
  destruct (adj (isha pt) o5) as [t5|] eqn:A5; [|discriminate H].
  cbn [rbind] in H. injection H as <-.
  exists [to_min t1; to_min t2; to_min t3; to_min t4; to_min t5].
  split; [|done].
  exists o1, o2, o3, o4, o5, t1, t2, t3, t4, t5. by split_and!.
Qed.

(** ** Date spans *)

Lemma add_days_1 (d : date) :
  add_days d 1
  = if (0 <? toordinal d + 1) && (toordinal d + 1 <=? MAXORDINAL)
    then Ok (Date (toordinal d + 1)) else Raise OverflowError.
Proof. reflexivity. Qed.

(** With the fuel [daterange] gives it, the loop ends on its own test;
    when no overflow stops it, it yields [count_days] dates. *)
Lemma daterange_loop_length (fuel : nat) (d e : date) (ds : list date) :
  (Z.to_nat (toordinal e - toordinal d + 2) ≤ fuel)%nat →
  daterange_loop fuel d e = (ds, None) →
  Z.of_nat (length ds) = Z.max 0 (toordinal e - toordinal d + 1).
Proof.
  revert d ds. induction fuel as [|fuel IH]; intros d ds Hfuel Hloop.
  - simpl in Hloop. injection Hloop as <-. simpl. lia.
  - simpl in Hloop. unfold Calendar.le in Hloop.
    destruct (Z.leb_spec (toordinal d) (toordinal e)).
    + rewrite add_days_1 in Hloop.
      destruct (_ && _); [|discriminate Hloop].
      destruct (daterange_loop fuel _ e) as [ds' stop] eqn:Hrec.
      injection Hloop as <- ->.
      apply IH in Hrec; [|simpl; lia].
      simpl in Hrec. rewrite length_cons. lia.
    + injection Hloop as <-. simpl. lia.
Qed.

(** More fuel than [daterange] gives changes nothing: the loop never
    ends for want of fuel. *)
Lemma daterange_loop_fuel (fuel1 fuel2 : nat) (d e : date) :
  (Z.to_nat (toordinal e - toordinal d + 2) ≤ fuel1)%nat →
  (Z.to_nat (toordinal e - toordinal d + 2) ≤ fuel2)%nat →
  daterange_loop fuel1 d e = daterange_loop fuel2 d e.
Proof.
  revert fuel2 d.
  induction fuel1 as [|fuel1 IH]; intros [|fuel2] d H1 H2; simpl;
    unfold Calendar.le; try reflexivity;
    destruct (Z.leb_spec (toordinal d) (toordinal e)); try reflexivity;
    try lia.
  rewrite add_days_1. destruct (_ && _); [|reflexivity].
  rewrite (IH fuel2); [reflexivity|simpl; lia..].
Qed.

Lemma daterange_length (start end_ : date) (ds : list date) :
  daterange start end_ = (ds, None) →
  Z.of_nat (length ds) = Z.max 0 (count_days start end_).
Proof. apply daterange_loop_length. lia. Qed.

(** Between valid dates every date of the span is yielded. *)
Lemma daterange_loop_elem (fuel : nat) (d e x : date) :
  (Z.to_nat (toordinal e - toordinal d + 2) ≤ fuel)%nat →
  1 ≤ toordinal d → toordinal e ≤ MAXORDINAL →
  toordinal d ≤ toordinal x ≤ toordinal e →
  x ∈ (daterange_loop fuel d e).1.
Proof.
  revert d. induction fuel as [|fuel IH]; intros d Hfuel Hd He Hx.
  - lia.
  - simpl. unfold Calendar.le.
    destruct (Z.leb_spec (toordinal d) (toordinal e)); [|lia].
    rewrite add_days_1.
    destruct (Z.eq_dec (toordinal x) (toordinal d)) as [Heq|Hne].
    + assert (x = d) as -> by (destruct x, d; simpl in *; congruence).
      destruct (_ && _); [destruct (daterange_loop _ _ _)|]; simpl; left.
    + destruct (Z.ltb_spec 0 (toordinal d + 1)); [|lia].
      destruct (Z.leb_spec (toordinal d + 1) MAXORDINAL); [|lia].
      simpl.
      specialize (IH (Date (toordinal d + 1))). simpl in IH.
      destruct (daterange_loop fuel _ e) as [ds' stop]. simpl in *.
      right. apply IH; lia.
Qed.

Lemma daterange_elem (start end_ x : date) :
  valid_date start → valid_date end_ →
  toordinal start ≤ toordinal x ≤ toordinal end_ →
  x ∈ (daterange start end_).1.
Proof.
  intros [Hs _] [_ He] Hx. apply daterange_loop_elem; [lia|assumption..].
Qed.

(** ** The table builder *)

Section TableFacts.

Context {float tzinfo : Type}.
Variable ZoneInfo : string → result tzinfo.
Variable PrayerTimes :
  float * float → datetime → CalculationMethod → tzinfo → result prayer_times.

(** The loop leaves the files and the clock alone, and asks the oracle
    once for each date of a prefix of its dates, in order. *)
Lemma table_loop_world lat lon tz m offsets ds acc w r w' :
  table_loop PrayerTimes lat lon tz m offsets ds acc w = (r, w') →
  files w' = files w ∧ clock w' = clock w ∧
  ∃ k : nat, oracle_calls w' = oracle_calls w ++ take k (midnight <$> ds).
Proof.
  revert acc w. induction ds as [|d ds IH]; intros acc w Hrun.
  - injection Hrun as <- <-. repeat split. exists 0%nat.
    simpl. by rewrite app_nil_r.
  - simpl in Hrun. unfold bind, call_oracle, lift in Hrun.
    destruct (PrayerTimes _ _ _ _) as [pt|e].
    + destruct (minutes_row offsets pt) as [t|e].
      * apply IH in Hrun as (Hf & Hc & k & Hk). simpl in *.
        repeat split; [done..|]. exists (S k).
        rewrite Hk, <- app_assoc. reflexivity.
      * injection Hrun as <- <-. repeat split. by exists 1%nat.
    + injection Hrun as <- <-. repeat split. by exists 1%nat.
Qed.

(** On success the loop has appended one row per date. *)
Lemma table_loop_rows lat lon tz m offsets ds acc w rows w' :
  table_loop PrayerTimes lat lon tz m offsets ds acc w = (Ok rows, w') →
  ∃ new, rows = acc ++ new ∧ length new = length ds ∧ Forall is_row new.
Proof.
  revert acc w. induction ds as [|d ds IH]; intros acc w Hrun.
  - injection Hrun as <- <-. exists []. by rewrite app_nil_r.
  - simpl in Hrun. unfold bind, call_oracle, lift in Hrun.
    destruct (PrayerTimes _ _ _ _) as [pt|e]; [|discriminate Hrun].
    destruct (minutes_row offsets pt) as [t|e] eqn:Ht; [|discriminate Hrun].
    apply IH in Hrun as (new & -> & Hlen & Hrows).
    exists (t :: new). rewrite <- app_assoc. repeat split.
    + simpl. by rewrite Hlen.
    + constructor; [by eapply minutes_row_is_row|done].
Qed.

Lemma table_loop_from lat lon tz m offsets ds acc w rows w' row :
  table_loop PrayerTimes lat lon tz m offsets ds acc w = (Ok rows, w') →
  row ∈ rows →
  row ∈ acc
  ∨ ∃ d pt, d ∈ ds ∧ PrayerTimes (lat, lon) (midnight d) m tz = Ok pt
            ∧ minutes_row offsets pt = Ok row.
Proof.
  revert acc w. induction ds as [|d ds IH]; intros acc w Hrun Hrow.
  - injection Hrun as <- <-. by left.
  - simpl in Hrun. unfold bind, call_oracle, lift in Hrun.
    destruct (PrayerTimes _ _ _ _) as [pt|e] eqn:Hpt; [|discriminate Hrun].
    destruct (minutes_row offsets pt) as [t|e] eqn:Ht; [|discriminate Hrun].
    destruct (IH _ _ Hrun Hrow) as [Hacc|(d' & pt' & Hd' & Hpt' & Hrow')].
    + apply elem_of_app in Hacc as [Hacc|Hnew]; [by left|].
      apply list_elem_of_singleton in Hnew as ->.
      right. exists d, pt. split_and!; [left|done|done].
    + right. exists d', pt'. split_and!; [by right|done|done].
Qed.

(** A date on which the oracle fails makes the loop fail. *)
Lemma table_loop_oracle_failure lat lon tz m offsets ds acc w x :
  x ∈ ds →
  is_raise (PrayerTimes (lat, lon) (midnight x) m tz) →
  is_raise (table_loop PrayerTimes lat lon tz m offsets ds acc w).1.
Proof.
  revert acc w. induction ds as [|d ds IH]; intros acc w Hx Hfail.
  - by apply elem_of_nil in Hx.
  - simpl. unfold bind, call_oracle, lift.
    destruct (PrayerTimes (lat, lon) (midnight d) m tz) as [pt|e] eqn:Hd;
      [|done].
    destruct (minutes_row offsets pt) as [t|e]; [|done].
    apply elem_of_cons in Hx as [->|Hx].
    + by rewrite Hd in Hfail.
    + by apply IH.
Qed.

End TableFacts.

(** The outcome of the loop depends on the oracle's answers for its dates
    only, not on the world it starts in. *)
Lemma table_loop_ext {float tzinfo : Type}
    (PT1 PT2 : float * float → datetime → CalculationMethod → tzinfo
               → result prayer_times)
    lat lon tz m offsets ds acc w1 w2 :
  (∀ d, d ∈ ds → PT1 (lat, lon) (midnight d) m tz
                 = PT2 (lat, lon) (midnight d) m tz) →
  (table_loop PT1 lat lon tz m offsets ds acc w1).1
  = (table_loop PT2 lat lon tz m offsets ds acc w2).1.
Proof.
  revert acc w1 w2. induction ds as [|d ds IH]; intros acc w1 w2 Hagree.
  - reflexivity.
  - simpl. unfold bind, call_oracle, lift.
    rewrite <- (Hagree d) by left.
    destruct (PT1 _ _ _ _) as [pt|e]; [|done].
    destruct (minutes_row offsets pt) as [t|e]; [|done].
    apply IH. intros d' Hd'. apply Hagree. by right.
Qed.

Lemma getitem_ok {V} (d : gmap string V) (key : string) (v : V) :
  getitem d key = Ok v ↔ d !! key = Some v.
Proof. unfold getitem. destruct (d !! key); split; congruence. Qed.

Section BuilderFacts.

Context {float tzinfo : Type}.
Variable ZoneInfo : string → result tzinfo.
Variable PrayerTimes :
  float * float → datetime → CalculationMethod → tzinfo → result prayer_times.

Lemma compute_minutes_table_world start end_ lat lon tzname key offsets w r w' :
  compute_minutes_table ZoneInfo PrayerTimes start end_ lat lon tzname key
    offsets w = (r, w') →
  files w' = files w ∧ clock w' = clock w ∧
  ∃ k : nat,
    oracle_calls w'
    = oracle_calls w ++ take k (midnight <$> (daterange start end_).1).
Proof.
  unfold compute_minutes_table, bind, lift, raise, ret. intros Hrun.
  assert (∃ k : nat, oracle_calls w = oracle_calls w
            ++ take k (midnight <$> (daterange start end_).1)) as Hnone
    by (exists 0%nat; by rewrite app_nil_r).
  destruct (ZoneInfo tzname) as [tz|e];
    [|by injection Hrun as <- <-].
  destruct (getitem METHOD_MAP key) as [m|e];
    [|by injection Hrun as <- <-].
  destruct (daterange start end_) as [ds stop]. simpl.
  destruct (table_loop _ _ _ _ _ _ _ _ _) as [[rows|e] w1] eqn:Hloop;
    apply table_loop_world in Hloop.
  - by destruct stop; injection Hrun as <- <-.
  - by injection Hrun as <- <-.
Qed.

Lemma compute_minutes_table_ok start end_ lat lon tzname key offsets w rows w' :
  compute_minutes_table ZoneInfo PrayerTimes start end_ lat lon tzname key
    offsets w = (Ok rows, w') →
  is_Some (METHOD_MAP !! key)
  ∧ Z.of_nat (length rows) = Z.max 0 (count_days start end_)
  ∧ Forall is_row rows.
Proof.
  unfold compute_minutes_table, bind, lift, raise, ret. intros Hrun.
  destruct (ZoneInfo tzname) as [tz|e]; [|discriminate Hrun].
  destruct (getitem METHOD_MAP key) as [m|e] eqn:Hm; [|discriminate Hrun].
  apply getitem_ok in Hm.
  destruct (daterange start end_) as [ds stop] eqn:Hds.
  destruct (table_loop _ _ _ _ _ _ _ _ _) as [[rows'|e] w1] eqn:Hloop;
    [|discriminate Hrun].
  destruct stop; [discriminate Hrun|]. injection Hrun as -> ->.
  apply table_loop_rows in Hloop as (new & -> & Hlen & Hrows).
  apply daterange_length in Hds.
  repeat split; [by exists m|simpl; lia|done].
Qed.

Lemma compute_minutes_table_from
    start end_ lat lon tzname key offsets w rows w' row :
  compute_minutes_table ZoneInfo PrayerTimes start end_ lat lon tzname key
    offsets w = (Ok rows, w') →
  row ∈ rows →
  ∃ d tz m pt,
    d ∈ (daterange start end_).1
    ∧ ZoneInfo tzname = Ok tz ∧ METHOD_MAP !! key = Some m
    ∧ PrayerTimes (lat, lon) (midnight d) m tz = Ok pt
    ∧ minutes_row offsets pt = Ok row.
Proof.
  unfold compute_minutes_table, bind, lift, raise, ret. intros Hrun Hrow.
  destruct (ZoneInfo tzname) as [tz|e]; [|discriminate Hrun].
  destruct (getitem METHOD_MAP key) as [m|e] eqn:Hm; [|discriminate Hrun].
  apply getitem_ok in Hm.
  destruct (daterange start end_) as [ds stop] eqn:Hds.
  destruct (table_loop _ _ _ _ _ _ _ _ _) as [[rows'|e] w1] eqn:Hloop;
    [|discriminate Hrun].
  destruct stop; [discriminate Hrun|]. injection Hrun as -> ->.
  destruct (table_loop_from _ _ _ _ _ _ _ _ _ _ _ _ Hloop Hrow)
    as [Hnil|(d & pt & Hd & Hpt & Hmin)].
  - by apply elem_of_nil in Hnil.
  - by exists d, tz, m, pt.
Qed.

Lemma compute_minutes_table_oracle_failure
    start end_ lat lon tzname key offsets w x :
  x ∈ (daterange start end_).1 →
  (∀ tz m, ZoneInfo tzname = Ok tz → METHOD_MAP !! key = Some m →
           is_raise (PrayerTimes (lat, lon) (midnight x) m tz)) →
  is_raise (compute_minutes_table ZoneInfo PrayerTimes start end_ lat lon
              tzname key offsets w).1.
Proof.
  intros Hx Hfail.
  unfold compute_minutes_table, bind, lift, raise, ret.
  destruct (ZoneInfo tzname) as [tz|e]; [|done].
  destruct (getitem METHOD_MAP key) as [m|e] eqn:Hm; [|done].
  apply getitem_ok in Hm.
  destruct (daterange start end_) as [ds stop]. simpl in Hx.
  pose proof (table_loop_oracle_failure PrayerTimes lat lon tz m offsets
                ds [] w x Hx (Hfail tz m eq_refl Hm)) as Hloop.
  destruct (table_loop _ _ _ _ _ _ _ _ _) as [[rows|e] w1]; [done|done].
Qed.

End BuilderFacts.

Lemma compute_minutes_table_ext {float tzinfo : Type}
    (ZI : string → result tzinfo)
    (PT1 PT2 : float * float → datetime → CalculationMethod → tzinfo
               → result prayer_times)
    start end_ lat lon tzname key offsets w1 w2 :
  (∀ d tz m, d ∈ (daterange start end_).1 →
     PT1 (lat, lon) (midnight d) m tz = PT2 (lat, lon) (midnight d) m tz) →
  (compute_minutes_table ZI PT1 start end_ lat lon tzname key offsets w1).1
  = (compute_minutes_table ZI PT2 start end_ lat lon tzname key offsets w2).1.
Proof.
  intros Hagree.
  unfold compute_minutes_table, bind, lift, raise, ret.
  destruct (ZI tzname) as [tz|e]; [|done].
  destruct (getitem METHOD_MAP key) as [m|e]; [|done].
  destruct (daterange start end_) as [ds stop]. simpl in Hagree.
  pose proof (table_loop_ext PT1 PT2 lat lon tz m offsets ds [] w1 w2
                (λ d Hd, Hagree d tz m Hd)) as Hloop.
  destruct (table_loop PT1 _ _ _ _ _ _ _ _) as [r1 w1'].
  destruct (table_loop PT2 _ _ _ _ _ _ _ _) as [r2 w2'].
  simpl in Hloop. subst r2.
  destruct r1; [by destruct stop|done].
Qed.

(** ** Packing and the checksum *)

Lemma rbind_ok {A B} (r : result A) (k : A → result B) (b : B) :
  rbind r k = Ok b → ∃ a, r = Ok a ∧ k a = Ok b.
Proof. destruct r as [a|e]; [by exists a|discriminate]. Qed.

Section StructFacts.

Import Struct.

Lemma le_bytes_length (n : nat) (v : Z) : length (le_bytes n v) = n.
Proof. revert v. induction n; intros v; simpl; [done|by rewrite IHn]. Qed.

Lemma le_bytes_bytes (n : nat) (v : Z) : Forall is_byte (le_bytes n v).
Proof.
  revert v. induction n; intros v; simpl; constructor; [|done].
  unfold is_byte. apply Z.mod_pos_bound. lia.
Qed.

Lemma le_value_le_bytes (n : nat) (v : Z) :
  0 ≤ v < 2 ^ (8 * Z.of_nat n) → le_value (le_bytes n v) = v.
Proof.
  revert v. induction n as [|n IH]; intros v Hv.
  - simpl in *. lia.
  - cbn [le_bytes le_value]. rewrite IH.
    + pose proof (Z.div_mod v 256). lia.
    + replace (8 * Z.of_nat (S n)) with (8 + 8 * Z.of_nat n) in Hv by lia.
      rewrite Z.pow_add_r in Hv by lia.
      change (2 ^ 8) with 256 in Hv. split.
      * apply Z.div_pos; lia.
      * apply Z.div_lt_upper_bound; lia.
Qed.

Lemma pack_uint_ok (n : nat) (v : Z) (b : list Z) :
  pack_uint n v = Ok b → 0 ≤ v < 2 ^ (8 * Z.of_nat n) ∧ b = le_bytes n v.
Proof.
  unfold pack_uint.
  destruct (Z.leb_spec 0 v) as [Hlo|Hlo],
           (Z.ltb_spec v (2 ^ (8 * Z.of_nat n))) as [Hhi|Hhi];
    simpl; intros Hb; [|discriminate Hb..].
  injection Hb as <-. done.
Qed.

Lemma pack_all_ok (vs bs : list Z) :
  pack_all 2 vs = Ok bs →
  Forall (λ v, 0 ≤ v < 65536) vs ∧ bs = row_bytes vs.
Proof.
  revert bs. induction vs as [|v vs IH]; intros bs H; simpl in H.
  - injection H as <-. done.
  - apply rbind_ok in H as (b & Hb & H).
    apply rbind_ok in H as (bs' & Hbs & H). injection H as <-.
    apply pack_uint_ok in Hb as [Hv ->]. apply IH in Hbs as [Hvs ->].
    split; [constructor; [exact Hv|done]|done].
Qed.

Lemma pack_5H_ok (vs bs : list Z) :
  pack_5H vs = Ok bs →
  length vs = 5%nat ∧ Forall (λ v, 0 ≤ v < 65536) vs ∧ bs = row_bytes vs.
Proof.
  unfold pack_5H. destruct (Nat.eqb_spec (length vs) 5); [|discriminate].
  intros H. apply pack_all_ok in H. tauto.
Qed.

Lemma row_bytes_length (t : list Z) :
  length (row_bytes t) = (2 * length t)%nat.
Proof.
  unfold row_bytes. induction t as [|v t IH]; [done|].
  rewrite fmap_cons. cbn [concat].
  rewrite length_app, le_bytes_length, IH. simpl. lia.
Qed.

Lemma row_bytes_bytes (t : list Z) : Forall is_byte (row_bytes t).
Proof.
  unfold row_bytes. induction t as [|v t IH]; [constructor|].
  rewrite fmap_cons. cbn [concat].
  apply Forall_app. split; [apply le_bytes_bytes|done].
Qed.

End StructFacts.

Lemma extend_ok (buf : list Z) (packed : result (list Z)) (buf' : list Z) :
  extend buf packed = Ok buf' → ∃ b, packed = Ok b ∧ buf' = buf ++ b.
Proof.
  unfold extend. intros H. apply rbind_ok in H as (b & Hb & H).
  injection H as <-. eauto.
Qed.

Lemma extend_rows_ok (buf : list Z) (rows : list (list Z)) (buf' : list Z) :
  extend_rows buf rows = Ok buf' →
  buf' = buf ++ concat (row_bytes <$> rows)
  ∧ Forall (λ t, length t = 5%nat ∧ Forall (λ v, 0 ≤ v < 65536) t) rows.
Proof.
  revert buf. induction rows as [|t rows IH]; intros buf H; simpl in H.
  - injection H as <-. by rewrite app_nil_r.
  - apply rbind_ok in H as (buf1 & H1 & H).
    apply extend_ok in H1 as (b & Hb & ->).
    apply pack_5H_ok in Hb as (Hlen & Hrange & ->).
    apply IH in H as [-> Hrows]. split.
    + simpl. by rewrite <- app_assoc.
    + by constructor.
Qed.

Section CrcFacts.

Import Zlib.

Lemma lxor_u32 (a b : Z) : is_u32 a → is_u32 b → is_u32 (Z.lxor a b).
Proof.
  unfold is_u32. intros [Ha Ha'] [Hb Hb'].
  assert (0 ≤ Z.lxor a b) as Hnn by (apply Z.lxor_nonneg; tauto).
  split; [done|].
  destruct (Z.eq_dec (Z.lxor a b) 0) as [->|Hne]; [lia|].
  apply Z.log2_lt_pow2; [lia|].
  pose proof (Z.log2_lxor a b Ha Hb) as Hlog.
  assert (Z.log2 a < 32) as Hla.
  { destruct (Z.eq_dec a 0) as [->|]; [simpl; lia|].
    apply Z.log2_lt_pow2; lia. }
  assert (Z.log2 b < 32) as Hlb.
  { destruct (Z.eq_dec b 0) as [->|]; [simpl; lia|].
    apply Z.log2_lt_pow2; lia. }
  lia.
Qed.

Lemma crc_shift_u32 (c : Z) : is_u32 c → is_u32 (crc_shift c).
Proof.
  intros Hc. unfold crc_shift.
  assert (is_u32 (Z.shiftr c 1)) as Hs.
  { unfold is_u32 in *. rewrite Z.shiftr_div_pow2 by lia.
    change (2 ^ 1) with 2. split.
    - apply Z.div_pos; lia.
    - apply Z.div_lt_upper_bound; lia. }
  destruct (Z.testbit c 0); [|done].
  apply lxor_u32; [done|]. unfold is_u32. lia.
Qed.

Lemma crc_byte_u32 (c b : Z) : is_u32 c → is_byte b → is_u32 (crc_byte c b).
Proof.
  intros Hc Hb. unfold crc_byte.
  assert (is_u32 (Z.lxor c b)) as H.
  { apply lxor_u32; [done|]. unfold is_u32, is_byte in *. lia. }
  simpl. by do 8 apply crc_shift_u32.
Qed.

Lemma crc32_u32 (data : list Z) : Forall is_byte data → is_u32 (crc32 data).
Proof.
  intros Hdata. unfold crc32.
  apply lxor_u32; [|unfold is_u32; lia].
  assert (is_u32 0xFFFFFFFF) as Hinit by (unfold is_u32; lia).
  revert Hinit. generalize 0xFFFFFFFF.
  induction Hdata as [|b data Hb Hdata IH]; intros c Hc; simpl; [done|].
  apply IH. by apply crc_byte_u32.
Qed.

Lemma land_u32 (c : Z) : is_u32 c → Z.land c 0xFFFFFFFF = c.
Proof.
  unfold is_u32. intros Hc. change 0xFFFFFFFF with (Z.ones 32).
  rewrite Z.land_ones by lia. apply Z.mod_small. lia.
Qed.

End CrcFacts.

(** ** The binary writer *)

Section WriterFacts.

Context {float tzinfo : Type}.
Variable ZoneInfo : string → result tzinfo.
Variable PrayerTimes :
  float * float → datetime → CalculationMethod → tzinfo → result prayer_times.

(** What a successful run has gone through, and what it has written. *)
Lemma write_pray2_bin_ok path start end_ lat lon tzname key offsets
    default_on rtc flags w w' :
  write_pray2_bin ZoneInfo PrayerTimes path start end_ lat lon tzname key
    offsets default_on rtc flags w = (Ok tt, w') →
  ∃ rows w1 code rtc_bytes,
    compute_minutes_table ZoneInfo PrayerTimes start end_ lat lon tzname key
      offsets w = (Ok rows, w1)
    ∧ METHOD_CODE !! key = Some code
    ∧ Py.encode_ascii rtc = Ok rtc_bytes
    ∧ length rtc_bytes = 17%nat
    ∧ (is_u16 (year start) ∧ is_u16 (Z.of_nat (length rows))
       ∧ is_byte (month start) ∧ is_byte (day start) ∧ is_byte code)
    ∧ (length default_on = 5%nat ∧ Forall is_u16 default_on)
    ∧ Forall (λ t, length t = 5%nat ∧ Forall is_u16 t) rows
    ∧ let body :=
        pray2_body (year start) (Z.of_nat (length rows)) (month start)
          (day start) flags code rtc_bytes default_on rows in
      files w'
      = <[path := body ++ Struct.le_bytes 4 (Z.land (Zlib.crc32 body) 0xFFFFFFFF)]>
          (files w1)
      ∧ oracle_calls w' = oracle_calls w1 ∧ clock w' = clock w1.
Proof.
  unfold write_pray2_bin, bind, lift, raise. intros Hrun.
  destruct (compute_minutes_table _ _ _ _ _ _ _ _ _ _) as [[rows|e] w1];
    [|discriminate Hrun].
  destruct (getitem METHOD_CODE key) as [code|e] eqn:Hcode;
    [|discriminate Hrun].
  apply getitem_ok in Hcode.
  destruct (Py.encode_ascii rtc) as [rtc_bytes|e]; [|discriminate Hrun].
  destruct (Nat.eqb_spec (length rtc_bytes) 17) as [Hlen|Hlen];
    cbn [negb] in Hrun; cbv iota beta in Hrun; [|discriminate Hrun].
  match type of Hrun with
  | match ?e with _ => _ end = _ =>
      destruct e as [buf|e'] eqn:Hbuf; [|discriminate Hrun]
  end.
  unfold write_file in Hrun. injection Hrun as <-.
  exists rows, w1, code, rtc_bytes.
  do 8 (apply rbind_ok in Hbuf as (? & Hstep & Hbuf);
        apply extend_ok in Hstep as (? & Hpack & ->);
        apply pack_uint_ok in Hpack as [? ->]).
  apply rbind_ok in Hbuf as (? & Hstep & Hbuf).
  apply extend_ok in Hstep as (? & Hpack & ->).
  apply pack_uint_ok in Hpack as [_ ->].
  apply rbind_ok in Hbuf as (? & Hstep & Hbuf).
  apply extend_ok in Hstep as (? & Hpack & ->).
  apply pack_5H_ok in Hpack as (Hdlen & Hdur & ->).
  do 6 (apply rbind_ok in Hbuf as (? & Hstep & Hbuf);
        apply extend_ok in Hstep as (? & Hpack & ->);
        apply pack_uint_ok in Hpack as [_ ->]).
  destruct (negb _); [discriminate Hbuf|].
  apply rbind_ok in Hbuf as (? & Hrows & Hbuf).
  apply extend_rows_ok in Hrows as [-> Hrows].
  apply extend_ok in Hbuf as (? & Hpack & ->).
  apply pack_uint_ok in Hpack as [_ ->].
  change (2 ^ (8 * Z.of_nat 1)) with 256 in *.
  change (2 ^ (8 * Z.of_nat 2)) with 65536 in *.
  do 4 (split; [assumption || reflexivity|]).
  split; [unfold is_u16, is_byte; lia|].
  split; [split; assumption|].
  split; [assumption|].
  cbv zeta. split; [|split; reflexivity].
  cbn [files]. f_equal. unfold pray2_body, pray2_header.
  rewrite <- !app_assoc. reflexivity.
Qed.

End WriterFacts.

Section WriterWorld.

Context {float tzinfo : Type}.
Variable ZoneInfo : string → result tzinfo.
Variable PrayerTimes :
  float * float → datetime → CalculationMethod → tzinfo → result prayer_times.

(** Whatever the outcome, the clock is untouched and the oracle has been
    asked once for each date of a prefix of the span; when the run ends
    in an exception no file has been touched. *)
Lemma write_pray2_bin_world path start end_ lat lon tzname key offsets
    default_on rtc flags w r w' :
  write_pray2_bin ZoneInfo PrayerTimes path start end_ lat lon tzname key
    offsets default_on rtc flags w = (r, w') →
  clock w' = clock w
  ∧ (∃ k : nat,
       oracle_calls w'
       = oracle_calls w ++ take k (midnight <$> (daterange start end_).1))
  ∧ (is_raise r → files w' = files w).
Proof.
  unfold write_pray2_bin, bind, lift, raise. intros Hrun.
  destruct (compute_minutes_table _ _ _ _ _ _ _ _ _ _) as [r1 w1] eqn:Htab.
  apply compute_minutes_table_world in Htab as (Hf & Hc & Hk).
  destruct r1 as [rows|e]; [|by injection Hrun as <- <-].
  destruct (getitem METHOD_CODE key) as [code|e];
    [|by injection Hrun as <- <-].
  destruct (Py.encode_ascii rtc) as [rtc_bytes|e];
    [|by injection Hrun as <- <-].
  destruct (negb _); [by injection Hrun as <- <-|].
  match type of Hrun with
  | match ?e with _ => _ end = _ => destruct e as [buf|e']
  end.
  - unfold write_file in Hrun. injection Hrun as <- <-. simpl.
    split_and!; [done..|]. intros [].
  - by injection Hrun as <- <-.
Qed.

End WriterWorld.

(** Two runs whose oracles answer alike on the dates of the span end alike,
    whatever the worlds they start in. *)
Lemma write_pray2_bin_ext {float tzinfo : Type}
    (ZI : string → result tzinfo)
    (PT1 PT2 : float * float → datetime → CalculationMethod → tzinfo
               → result prayer_times)
    path start end_ lat lon tzname key offsets default_on rtc flags w1 w2 :
  (∀ d tz m, d ∈ (daterange start end_).1 →
     PT1 (lat, lon) (midnight d) m tz = PT2 (lat, lon) (midnight d) m tz) →
  let run1 := write_pray2_bin ZI PT1 path start end_ lat lon tzname key
                offsets default_on rtc flags w1 in
  let run2 := write_pray2_bin ZI PT2 path start end_ lat lon tzname key
                offsets default_on rtc flags w2 in
  run1.1 = run2.1
  ∧ (run1.1 = Ok tt →
     ∃ buf, files run1.2 !! path = Some buf ∧ files run2.2 !! path = Some buf).
Proof.
  intros Hagree. cbv zeta.
  pose proof (compute_minutes_table_ext ZI PT1 PT2 start end_ lat lon tzname
                key offsets w1 w2 Hagree) as Htab.
  unfold write_pray2_bin, bind, lift, raise.
  destruct (compute_minutes_table ZI PT1 _ _ _ _ _ _ _ _) as [r1 w1'].
  destruct (compute_minutes_table ZI PT2 _ _ _ _ _ _ _ _) as [r2 w2'].
  simpl in Htab. subst r2.
  destruct r1 as [rows|e]; [|by split].
  destruct (getitem METHOD_CODE key) as [code|e]; [|by split].
  destruct (Py.encode_ascii rtc) as [rtc_bytes|e]; [|by split].
  destruct (negb _); [by split|].
  match goal with
  | |- context [match ?e with Ok _ => _ | Raise _ => _ end] =>
      destruct e as [buf|e']
  end; [|by split].
  unfold write_file. simpl. split; [done|]. intros _.
  exists buf. by rewrite !lookup_insert_eq.
Qed.

(** * The claims *)

(** ** The schedule rows *)

(** C1, as stated, fails: with Maghrib shifted by 359 minutes to 23:59 the
    repair of Isha saturates at 1439 and the row ends in two equal values. *)
Lemma C1_not_strictly_increasing :
  (Fixture.table (Fixture.offsets 0 0 0 359 0)).1
  = Ok [[300; 720; 930; 1439; 1439]; [300; 720; 930; 1439; 1439]]
  ∧ ¬ strictly_increasing [300; 720; 930; 1439; 1439].
Proof.
  split; [vm_compute; reflexivity|].
  intros H. specialize (H 3%nat 1439 1439 eq_refl eq_refl). lia.
Qed.

Section RowClaims.

Context {float tzinfo : Type}.
Variable ZoneInfo : string → result tzinfo.
Variable PrayerTimes :
  float * float → datetime → CalculationMethod → tzinfo → result prayer_times.

(** C1 (amended): every row of the table has its five values in
    [0,1439], and each value is strictly above its left neighbour unless
    both sit at 1439. *)
Theorem C1_rows_increasing_or_saturated
    start end_ lat lon tzname key offsets w rows w' row :
  compute_minutes_table ZoneInfo PrayerTimes start end_ lat lon tzname key
    offsets w = (Ok rows, w') →
  row ∈ rows →
  length row = 5%nat ∧ Forall in_day row ∧ increasing_or_saturated row.
Proof.
  intros Htab Hrow.
  apply compute_minutes_table_ok in Htab as (_ & _ & Hrows).
  rewrite Forall_forall in Hrows. specialize (Hrows row Hrow).
  split_and!.
  - by apply row_length.
  - by apply row_in_day.
  - by apply row_increasing_or_saturated.
Qed.

(** C10: every row of the table is non-decreasing with its five values
    in [0,1439], also where the repair saturates.  The row comes from a
    date the span yields: it is the repair of the clamped minutes of the
    five times the oracle gave for that date, each moved by its offset,
    and the repair lowers none of these clamped values. *)
Theorem C10_rows_non_decreasing
    start end_ lat lon tzname key offsets w rows w' row :
  compute_minutes_table ZoneInfo PrayerTimes start end_ lat lon tzname key
    offsets w = (Ok rows, w') →
  row ∈ rows →
  Forall in_day row ∧ non_decreasing row
  ∧ ∃ d tz m pt raw,
      d ∈ (daterange start end_).1
      ∧ ZoneInfo tzname = Ok tz ∧ METHOD_MAP !! key = Some m
      ∧ PrayerTimes (lat, lon) (midnight d) m tz = Ok pt
      ∧ adjusted_minutes offsets pt raw
      ∧ row = repair (clamp raw)
      ∧ Forall2 Z.le (clamp raw) row.
Proof.
  intros Htab Hrow.
  pose proof (compute_minutes_table_from _ _ _ _ _ _ _ _ _ _ _ _ _ Htab Hrow)
    as (d & tz & m & pt & Hd & Hz & Hm & Hpt & Hmin).
  apply compute_minutes_table_ok in Htab as (_ & _ & Hrows).
  rewrite Forall_forall in Hrows. specialize (Hrows row Hrow).
  split_and!.
  - by apply row_in_day.
  - by apply row_non_decreasing.
  - apply minutes_row_raw in Hmin as (raw & Hraw & ->).
    exists d, tz, m, pt, raw. split_and!; try done.
    destruct Hraw as (o1 & o2 & o3 & o4 & o5 & t1 & t2 & t3 & t4 & t5 & Hraw).
    destruct Hraw as (_ & _ & _ & _ & _ & _ & _ & _ & _ & _ & ->).
    apply repair_never_decreases.
Qed.

End RowClaims.

Lemma C1_rows_increasing_or_saturated_witness :
  length [300; 720; 930; 1439; 1439] = 5%nat
  ∧ Forall in_day [300; 720; 930; 1439; 1439]
  ∧ increasing_or_saturated [300; 720; 930; 1439; 1439].
Proof.
  apply (C1_rows_increasing_or_saturated Fixture.zoneinfo Fixture.oracle
           Fixture.aug28 Fixture.aug29 tt tt "Asia/Karachi" "KARACHI"
           (Fixture.offsets 0 0 0 359 0) Fixture.world0
           [[300; 720; 930; 1439; 1439]; [300; 720; 930; 1439; 1439]]
           (Fixture.table (Fixture.offsets 0 0 0 359 0)).2).
  - vm_compute. reflexivity.
  - left.
Defined.

Lemma C10_rows_non_decreasing_witness :
  Forall in_day [300; 720; 930; 1439; 1439]
  ∧ non_decreasing [300; 720; 930; 1439; 1439]
  ∧ ∃ d tz m pt raw,
      d ∈ (daterange Fixture.aug28 Fixture.aug29).1
      ∧ Fixture.zoneinfo "Asia/Karachi" = Ok tz
      ∧ METHOD_MAP !! "KARACHI" = Some m
      ∧ Fixture.oracle (tt, tt) (midnight d) m tz = Ok pt
      ∧ adjusted_minutes (Fixture.offsets 0 0 0 359 0) pt raw
      ∧ [300; 720; 930; 1439; 1439] = repair (clamp raw)
      ∧ Forall2 Z.le (clamp raw) [300; 720; 930; 1439; 1439].
Proof.
  apply (C10_rows_non_decreasing Fixture.zoneinfo Fixture.oracle
           Fixture.aug28 Fixture.aug29 tt tt "Asia/Karachi" "KARACHI"
           (Fixture.offsets 0 0 0 359 0) Fixture.world0
           [[300; 720; 930; 1439; 1439]; [300; 720; 930; 1439; 1439]]
           (Fixture.table (Fixture.offsets 0 0 0 359 0)).2).
  - vm_compute. reflexivity.
  - left.
Defined.

(** C5: the repair loop is the stated rule, for i = 1..4 in order: a value
    not above its (already repaired) left neighbour becomes that neighbour
    plus one, capped at 1439; the builder applies it to the clamped row, and
    [300,300,500,600,700] is repaired to [300,301,500,600,700]. *)
Theorem C5_repair_rule :
  (∀ a b c d e : Z,
     repair [a; b; c; d; e] = repair_rule [a; b; c; d; e]
     ∧ repair [a; b; c; d; e]
       = let b' := if b <=? a then Z.min (a + 1) 1439 else b in
         let c' := if c <=? b' then Z.min (b' + 1) 1439 else c in
         let d' := if d <=? c' then Z.min (c' + 1) 1439 else d in
         let e' := if e <=? d' then Z.min (d' + 1) 1439 else e in
         [a; b'; c'; d'; e'])
  ∧ (∀ offsets pt,
       match minutes_row offsets pt with
       | Ok row => ∃ a b c d e : Z, row = repair (clamp [a; b; c; d; e])
       | Raise _ => True
       end)
  ∧ repair (clamp [300; 300; 500; 600; 700]) = [300; 301; 500; 600; 700].
Proof.
  split_and!.
  - intros a b c d e. by rewrite repair_5, repair_rule_5.
  - intros offsets pt.
    destruct (minutes_row offsets pt) as [row|e] eqn:Hrow; [|done].
    by apply minutes_row_is_row in Hrow.
  - reflexivity.
Qed.

(** ** The RTC validator *)

Lemma char_is_get (s : string) (i : nat) (c : ascii) :
  Py.char_is s i c = true → String.get i s = Some c.
Proof.
  unfold Py.char_is. destruct (String.get i s) as [c'|]; [|discriminate].
  intros H. apply Ascii.eqb_eq in H. by subst.
Qed.

(** C6, as stated, fails: an 18-character input with a leading blank is
    accepted, because the validator strips the input before measuring it. *)
Lemma C6_accepts_padded_input :
  String.length " 07:15:00|01/01/25" = 18%nat
  ∧ validate_rtc_ascii " 07:15:00|01/01/25" = Some "07:15:00|01/01/25".
Proof. split; vm_compute; reflexivity. Qed.

(** C6 (amended): the validator accepts an input only if the input, with
    leading and trailing whitespace stripped, is exactly 17 characters long,
    has ':' at positions 2 and 5, '|' at position 8 and '/' at positions 11
    and 14, and each of its six two-character fields is read as an integer by
    [int]; an input whose stripped form is not 17 characters long is
    rejected. *)
Theorem C6_accepts_only_stripped_17 (s : string) :
  let s' := Py.strip s in
  (String.length s' ≠ 17%nat → validate_rtc_ascii s = None)
  ∧ (∀ r, validate_rtc_ascii s = Some r →
       String.length s' = 17%nat
       ∧ String.get 2 s' = Some ":"%char ∧ String.get 5 s' = Some ":"%char
       ∧ String.get 8 s' = Some "|"%char
       ∧ String.get 11 s' = Some "/"%char ∧ String.get 14 s' = Some "/"%char
       ∧ is_Some (Py.int (Py.slice s' 0 2)) ∧ is_Some (Py.int (Py.slice s' 3 5))
       ∧ is_Some (Py.int (Py.slice s' 6 8)) ∧ is_Some (Py.int (Py.slice s' 9 11))
       ∧ is_Some (Py.int (Py.slice s' 12 14))
       ∧ is_Some (Py.int (Py.slice s' 15 17))).
Proof.
  cbv zeta. unfold validate_rtc_ascii, Py.len. split.
  - intros Hlen.
    destruct (Z.eqb_spec (Z.of_nat (String.length (Py.strip s))) 17); [lia|done].
  - intros r Hr.
    destruct (Z.eqb_spec (Z.of_nat (String.length (Py.strip s))) 17) as [Hlen|];
      [|discriminate Hr].
    cbn [negb] in Hr.
    destruct (Py.char_is _ 2 _) eqn:H2; [|discriminate Hr].
    destruct (Py.char_is _ 5 _) eqn:H5; [|discriminate Hr].
    destruct (Py.char_is _ 8 _) eqn:H8; [|discriminate Hr].
    destruct (Py.char_is _ 11 _) eqn:H11; [|discriminate Hr].
    destruct (Py.char_is _ 14 _) eqn:H14; [|discriminate Hr].
    cbn [andb negb] in Hr.
    destruct (Py.int (Py.slice _ 0 2)) as [HH|]; [|discriminate Hr].
    destruct (Py.int (Py.slice _ 3 5)) as [MM|]; [|discriminate Hr].
    destruct (Py.int (Py.slice _ 6 8)) as [SS|]; [|discriminate Hr].
    destruct (Py.int (Py.slice _ 9 11)) as [DD|]; [|discriminate Hr].
    destruct (Py.int (Py.slice _ 12 14)) as [MO|]; [|discriminate Hr].
    destruct (Py.int (Py.slice _ 15 17)) as [YY|]; [|discriminate Hr].
    split_and!; try (by apply char_is_get); try (by eexists). lia.
Qed.

Lemma C6_accepts_only_stripped_17_witness :
  validate_rtc_ascii "7:15:00|1/1/25" = None
  ∧ String.length (Py.strip "  23:59:58|31/12/99 ") = 17%nat.
Proof.
  split.
  - apply (C6_accepts_only_stripped_17 "7:15:00|1/1/25").
    vm_compute. discriminate.
  - apply (C6_accepts_only_stripped_17 "  23:59:58|31/12/99 ")
      with (r := "23:59:58|31/12/99").
    vm_compute. reflexivity.
Defined.

(** C7, as stated, fails: "07:15:00|32/01/25" is rejected, the day 32 being
    outside 1..31. *)
Lemma C7_day_32_rejected : validate_rtc_ascii "07:15:00|32/01/25" = None.
Proof. vm_compute. reflexivity. Qed.

(** C7 (amended): the validator accepts "07:15:00|01/01/25" and returns it
    unchanged, rejects "7:15:00|1/1/25" (wrong width), "25:00:00|01/01/25"
    (hour out of range) and "07:15:00|32/01/25" (day out of 1..31), and
    accepts "07:15:00|31/02/25", the day not being checked against the
    month. *)
Theorem C7_validator_examples :
  validate_rtc_ascii "07:15:00|01/01/25" = Some "07:15:00|01/01/25"
  ∧ validate_rtc_ascii "7:15:00|1/1/25" = None
  ∧ validate_rtc_ascii "25:00:00|01/01/25" = None
  ∧ validate_rtc_ascii "07:15:00|32/01/25" = None
  ∧ validate_rtc_ascii "07:15:00|31/02/25" = Some "07:15:00|31/02/25".
Proof. split_and!; vm_compute; reflexivity. Qed.

(** ** The file image *)

Lemma bytes_at_app_l (l k : list Z) (off n : nat) :
  (off + n ≤ length l)%nat → bytes_at (l ++ k) off n = bytes_at l off n.
Proof.
  intros Hle. unfold bytes_at.
  rewrite drop_app_le by lia. apply take_app_le. rewrite length_drop. lia.
Qed.

Lemma bytes_at_app_r (l k : list Z) (m off n : nat) :
  m = length l → bytes_at (l ++ k) (m + off) n = bytes_at k off n.
Proof. intros ->. unfold bytes_at. by rewrite drop_app_add'. Qed.

Lemma encode_ascii_ok (s : string) (bs : list Z) :
  Py.encode_ascii s = Ok bs →
  length bs = String.length s ∧ Forall is_byte bs.
Proof.
  revert bs. induction s as [|c s IH]; intros bs H; simpl in H.
  - injection H as <-. done.
  - destruct (Z.ltb_spec (Py.ord c) 128) as [Hc|]; [|discriminate H].
    apply rbind_ok in H as (bs' & Hbs' & H). injection H as <-.
    apply IH in Hbs' as [Hlen Hbytes]. split; [simpl; by rewrite Hlen|].
    constructor; [|done]. unfold is_byte, Py.ord in *. lia.
Qed.

Lemma unpack_H_row_bytes (t : list Z) :
  Forall is_u16 t → unpack_H (row_bytes t) = t.
Proof.
  induction 1 as [|v t Hv Ht IH]; [done|].
  change (row_bytes (v :: t))
    with (v mod 256 :: (v / 256) mod 256 :: row_bytes t).
  cbn [unpack_H]. rewrite IH. f_equal.
  apply (le_value_le_bytes 2 v). exact Hv.
Qed.

Lemma pray2_header_length year days month day flags code rtc_bytes default_on :
  length rtc_bytes = 17%nat → length default_on = 5%nat →
  length (pray2_header year days month day flags code rtc_bytes default_on)
  = 64%nat.
Proof.
  intros Hrtc Hdur. unfold pray2_header.
  rewrite !length_app, !le_bytes_length, row_bytes_length, Hrtc, Hdur.
  reflexivity.
Qed.

Lemma pray2_header_fields year days month day flags code rtc_bytes default_on :
  length rtc_bytes = 17%nat → length default_on = 5%nat →
  let h := pray2_header year days month day flags code rtc_bytes default_on in
  bytes_at h 0 5 = [80; 82; 65; 89; 50]
  ∧ bytes_at h 5 1 = [2]
  ∧ bytes_at h 6 2 = Struct.le_bytes 2 64
  ∧ bytes_at h 8 2 = Struct.le_bytes 2 year
  ∧ bytes_at h 10 2 = Struct.le_bytes 2 days
  ∧ bytes_at h 12 1 = Struct.le_bytes 1 month
  ∧ bytes_at h 13 1 = Struct.le_bytes 1 day
  ∧ bytes_at h 14 1 = Struct.le_bytes 1 (Z.land flags 0xFF)
  ∧ bytes_at h 15 1 = Struct.le_bytes 1 code
  ∧ bytes_at h 16 17 = rtc_bytes
  ∧ bytes_at h 33 1 = [0]
  ∧ bytes_at h 34 10 = row_bytes default_on
  ∧ bytes_at h 44 4 = Struct.le_bytes 4 64
  ∧ bytes_at h 48 4 = Struct.le_bytes 4 (days * 5 * 2)
  ∧ bytes_at h 52 4 = Struct.le_bytes 4 0
  ∧ bytes_at h 56 4 = Struct.le_bytes 4 0
  ∧ bytes_at h 60 2 = Struct.le_bytes 2 0
  ∧ bytes_at h 62 2 = Struct.le_bytes 2 0.
Proof.
  intros Hrtc Hdur.
  do 18 (destruct rtc_bytes as [|? rtc_bytes]; try discriminate Hrtc).
  do 6 (destruct default_on as [|? default_on]; try discriminate Hdur).
  cbv zeta. split_and!; reflexivity.
Qed.

Lemma table_row_at (rows : list (list Z)) (rest : list Z) (i : nat)
    (row : list Z) :
  Forall (λ t, length t = 5%nat) rows →
  rows !! i = Some row →
  bytes_at (concat (row_bytes <$> rows) ++ rest) (10 * i) 10 = row_bytes row.
Proof.
  intros Hrows. revert i.
  induction Hrows as [|t rows Ht Hrows IH]; intros i Hi; [done|].
  rewrite fmap_cons. cbn [concat]. rewrite <- app_assoc.
  assert (length (row_bytes t) = 10%nat) as Hlen
    by (rewrite row_bytes_length, Ht; reflexivity).
  destruct i as [|i].
  - injection Hi as ->. unfold bytes_at. simpl drop.
    by apply take_app_length'.
  - replace (10 * S i)%nat with (10 + 10 * i)%nat by lia.
    rewrite bytes_at_app_r by done. by apply IH.
Qed.

Lemma pray2_body_bytes year days month day flags code rtc_bytes default_on rows :
  Forall is_byte rtc_bytes →
  Forall is_byte
    (pray2_body year days month day flags code rtc_bytes default_on rows).
Proof.
  intros Hrtc. unfold pray2_body, pray2_header.
  repeat (apply Forall_app; split);
    try apply le_bytes_bytes; try apply row_bytes_bytes; try assumption.
  - repeat constructor; unfold is_byte; lia.
  - apply Forall_concat, Forall_fmap, Forall_forall.
    intros t _. apply row_bytes_bytes.
Qed.

Lemma pray2_body_length year days month day flags code rtc_bytes default_on rows :
  length rtc_bytes = 17%nat → length default_on = 5%nat →
  Forall (λ t, length t = 5%nat) rows →
  length (pray2_body year days month day flags code rtc_bytes default_on rows)
  = (64 + 10 * length rows)%nat.
Proof.
  intros Hrtc Hdur Hrows. unfold pray2_body.
  rewrite length_app, pray2_header_length by done. f_equal.
  induction Hrows as [|t rows Ht Hrows IH]; [done|].
  rewrite fmap_cons. cbn [concat].
  rewrite length_app, row_bytes_length, Ht, IH. simpl. lia.
Qed.

(** ** The binary image: layout, checksum, length *)

Lemma byte_mod (v : Z) : is_byte v → Struct.le_bytes 1 v = [v].
Proof. unfold is_byte. intros Hv. simpl. by rewrite Z.mod_small. Qed.

Lemma land_byte (v : Z) : is_byte (Z.land v 0xFF).
Proof.
  unfold is_byte. change 0xFF with (Z.ones 8).
  rewrite Z.land_ones by lia. apply Z.mod_pos_bound. lia.
Qed.

Section ImageClaims.

Context {float tzinfo : Type}.
Variable ZoneInfo : string → result tzinfo.
Variable PrayerTimes :
  float * float → datetime → CalculationMethod → tzinfo → result prayer_times.

(** The image a successful run leaves in the file. *)
Lemma write_pray2_bin_layout path start end_ lat lon tzname key offsets
    default_on rtc flags w w' :
  write_pray2_bin ZoneInfo PrayerTimes path start end_ lat lon tzname key
    offsets default_on rtc flags w = (Ok tt, w') →
  method_code_table
  ∧ ∃ buf rows w1 code,
      files w' !! path = Some buf
      ∧ compute_minutes_table ZoneInfo PrayerTimes start end_ lat lon tzname
          key offsets w = (Ok rows, w1)
      ∧ METHOD_CODE !! key = Some code
      ∧ pray2_layout buf start flags code rtc default_on rows.
Proof.
  intros Hrun. split; [by vm_compute|].
  apply write_pray2_bin_ok in Hrun
    as (rows & w1 & code & rtc_bytes & Htab & Hcode & Hrtc & Hlen
        & (Hy & Hd & Hmo & Hda & Hco) & (Hdlen & Hdur) & Hrows & Hfiles & _).
  cbv zeta in Hfiles.
  eexists _, rows, w1, code. split_and!; [|done..|].
  { rewrite Hfiles. apply lookup_insert_eq. }
  pose proof (encode_ascii_ok _ _ Hrtc) as [_ Hrtcb].
  pose proof (pray2_header_fields (year start) (Z.of_nat (length rows))
                (month start) (day start) flags code rtc_bytes default_on
                Hlen Hdlen) as Hh.
  cbv zeta in Hh.
  destruct Hh as (F0 & F5 & F6 & F8 & F10 & F12 & F13 & F14 & F15 & F16
                  & F33 & F34 & F44 & F48 & F52 & F56 & F60 & F62).
  pose proof (pray2_header_length (year start) (Z.of_nat (length rows))
                (month start) (day start) flags code rtc_bytes default_on
                Hlen Hdlen) as Hhlen.
  unfold pray2_body. rewrite <- app_assoc.
  unfold pray2_layout.
  rewrite !bytes_at_app_l by (rewrite Hhlen; simpl; lia).
  rewrite F0, F5, F6, F8, F10, F12, F13, F14, F15, F16, F33, F34, F44, F48,
    F52, F56, F60, F62.
  rewrite !byte_mod by (done || apply land_byte).
  assert (is_u16 (Z.of_nat (length rows)) → 0 ≤ Z.of_nat (length rows) * 5 * 2
            < 2 ^ (8 * Z.of_nat 4)) as Hsize
    by (unfold is_u16; change (2 ^ (8 * Z.of_nat 4)) with 4294967296; lia).
  rewrite !le_value_le_bytes
    by (done || (by apply Hsize) || (by vm_compute)).
  rewrite unpack_H_row_bytes by done.
  split_and!; try done; try lia.
  - rewrite app_assoc. apply Forall_app. split.
    + by apply pray2_body_bytes.
    + apply le_bytes_bytes.
  - intros i row Hi.
    rewrite bytes_at_app_r by done.
    rewrite table_row_at with (row := row); [|by eapply Forall_impl; [exact Hrows|intros ? []]|done].
    apply unpack_H_row_bytes.
    rewrite Forall_forall in Hrows.
    apply (Hrows row). by eapply list_elem_of_lookup_2.
Qed.

(** C3: after a successful run the last four bytes of the file are the
    little-endian CRC-32 (reflected, as [zlib.crc32]) of all the bytes
    before them, the header and the table. *)
Theorem C3_crc_trailer path start end_ lat lon tzname key offsets
    default_on rtc flags w w' :
  write_pray2_bin ZoneInfo PrayerTimes path start end_ lat lon tzname key
    offsets default_on rtc flags w = (Ok tt, w') →
  ∃ buf body trailer,
    files w' !! path = Some buf
    ∧ buf = body ++ trailer
    ∧ length trailer = 4%nat
    ∧ Forall is_byte trailer
    ∧ Struct.le_value trailer = Zlib.crc32 body
    ∧ trailer = Struct.le_bytes 4 (Zlib.crc32 body)
    ∧ (64 ≤ length body)%nat.
Proof.
  intros Hrun.
  apply write_pray2_bin_ok in Hrun
    as (rows & w1 & code & rtc_bytes & Htab & Hcode & Hrtc & Hlen
        & _ & (Hdlen & Hdur) & Hrows & Hfiles & _).
  cbv zeta in Hfiles.
  pose proof (encode_ascii_ok _ _ Hrtc) as [_ Hrtcb].
  set (body := pray2_body _ _ _ _ _ _ _ _ _) in Hfiles.
  assert (is_u32 (Zlib.crc32 body)) as Hcrc
    by (apply crc32_u32; by apply pray2_body_bytes).
  rewrite land_u32 in Hfiles by done.
  exists (body ++ Struct.le_bytes 4 (Zlib.crc32 body)), body,
    (Struct.le_bytes 4 (Zlib.crc32 body)).
  split_and!; try done.
  - rewrite Hfiles. apply lookup_insert_eq.
  - apply le_bytes_bytes.
  - by apply le_value_le_bytes.
  - unfold body, pray2_body.
    rewrite length_app, pray2_header_length by done. lia.
Qed.

(** For a span of D days, start not after end, the file written by a
    successful run is 64 + 10 D + 4 bytes long. *)
Lemma image_length path start end_ lat lon tzname key offsets
    default_on rtc flags w w' :
  write_pray2_bin ZoneInfo PrayerTimes path start end_ lat lon tzname key
    offsets default_on rtc flags w = (Ok tt, w') →
  toordinal start ≤ toordinal end_ →
  ∃ buf, files w' !! path = Some buf
         ∧ Z.of_nat (length buf) = 64 + 10 * count_days start end_ + 4.
Proof.
  intros Hrun Hspan.
  apply write_pray2_bin_ok in Hrun
    as (rows & w1 & code & rtc_bytes & Htab & Hcode & Hrtc & Hlen
        & _ & (Hdlen & Hdur) & Hrows & Hfiles & _).
  cbv zeta in Hfiles.
  apply compute_minutes_table_ok in Htab as (_ & Hdays & _).
  eexists. split; [rewrite Hfiles; apply lookup_insert_eq|].
  rewrite length_app, le_bytes_length, pray2_body_length; [|done..|].
  - unfold count_days in *. lia.
  - eapply Forall_impl; [exact Hrows|]. by intros ? [].
Qed.

(** C2: after a successful run the file holds the 64-byte little-endian
    header laid out as PRAY2, version 2, header size 64, year, day count,
    start month, start day, flags, method code from the fixed table, the
    17 RTC bytes, a zero pad, the five relay durations, table offset 64,
    table size 10 times the day count, two zero reserved words of 32 bits
    and two of 16 bits, followed by one row of five 16-bit minute values
    per day. *)
Theorem C2_header_and_table_layout path start end_ lat lon tzname key offsets
    default_on rtc flags w w' :
  write_pray2_bin ZoneInfo PrayerTimes path start end_ lat lon tzname key
    offsets default_on rtc flags w = (Ok tt, w') →
  method_code_table
  ∧ ∃ buf rows w1 code,
      files w' !! path = Some buf
      ∧ compute_minutes_table ZoneInfo PrayerTimes start end_ lat lon tzname
          key offsets w = (Ok rows, w1)
      ∧ METHOD_CODE !! key = Some code
      ∧ pray2_layout buf start flags code rtc default_on rows.
Proof. apply write_pray2_bin_layout. Qed.

End ImageClaims.

Lemma C2_header_and_table_layout_witness :
  method_code_table
  ∧ ∃ buf rows w1 code,
      files (Fixture.run Fixture.world0).2 !! "out.bin" = Some buf
      ∧ Fixture.table Fixture.no_offsets = (Ok rows, w1)
      ∧ METHOD_CODE !! "KARACHI" = Some code
      ∧ pray2_layout buf Fixture.aug28 FLAG_RTC_ONE_SHOT code Fixture.rtc
          Fixture.durations rows.
Proof.
  apply (C2_header_and_table_layout Fixture.zoneinfo Fixture.oracle "out.bin"
           Fixture.aug28 Fixture.aug29 tt tt "Asia/Karachi" "KARACHI"
           Fixture.no_offsets Fixture.durations Fixture.rtc FLAG_RTC_ONE_SHOT
           Fixture.world0 (Fixture.run Fixture.world0).2).
  vm_compute. reflexivity.
Defined.

Lemma C3_crc_trailer_witness :
  ∃ buf body trailer,
    files (Fixture.run Fixture.world0).2 !! "out.bin" = Some buf
    ∧ buf = body ++ trailer
    ∧ length trailer = 4%nat
    ∧ Forall is_byte trailer
    ∧ Struct.le_value trailer = Zlib.crc32 body
    ∧ trailer = Struct.le_bytes 4 (Zlib.crc32 body)
    ∧ (64 ≤ length body)%nat.
Proof.
  apply (C3_crc_trailer Fixture.zoneinfo Fixture.oracle "out.bin"
           Fixture.aug28 Fixture.aug29 tt tt "Asia/Karachi" "KARACHI"
           Fixture.no_offsets Fixture.durations Fixture.rtc FLAG_RTC_ONE_SHOT
           Fixture.world0 (Fixture.run Fixture.world0).2).
  vm_compute. reflexivity.
Defined.

(** C4: for a span of D days the file a successful run writes is
    64 + 10 D + 4 bytes long, its day count is D and its table size 10 D;
    the two days 2025-08-28..2025-08-29 give day count 2, table size 20 and
    88 bytes. *)
Theorem C4_image_length :
  (∀ (float tzinfo : Type) (ZoneInfo : string → result tzinfo)
     (PrayerTimes : float * float → datetime → CalculationMethod → tzinfo
                    → result prayer_times)
     path start end_ lat lon tzname key offsets default_on rtc flags w w',
     write_pray2_bin ZoneInfo PrayerTimes path start end_ lat lon tzname key
       offsets default_on rtc flags w = (Ok tt, w') →
     toordinal start ≤ toordinal end_ →
     ∃ buf, files w' !! path = Some buf
            ∧ Z.of_nat (length buf) = 64 + 10 * count_days start end_ + 4
            ∧ Struct.le_value (bytes_at buf 10 2) = count_days start end_
            ∧ Struct.le_value (bytes_at buf 48 4) = 10 * count_days start end_)
  ∧ (Fixture.run Fixture.world0).1 = Ok tt
  ∧ count_days Fixture.aug28 Fixture.aug29 = 2
  ∧ Struct.le_value (bytes_at Fixture.image 10 2) = 2
  ∧ Struct.le_value (bytes_at Fixture.image 48 4) = 20
  ∧ length Fixture.image = 88%nat.
Proof.
  split; [|by vm_compute].
  intros float tzinfo ZI PT path start end_ lat lon tzname key offsets
    default_on rtc flags w w' Hrun Hspan.
  destruct (image_length _ _ _ _ _ _ _ _ _ _ _ _ _ _ _ Hrun Hspan)
    as (buf & Hbuf & Hlen).
  destruct (write_pray2_bin_layout _ _ _ _ _ _ _ _ _ _ _ _ _ _ _ Hrun)
    as (_ & buf' & rows & w1 & code & Hbuf' & Htab & _ & Hlayout).
  assert (buf' = buf) as -> by congruence.
  apply compute_minutes_table_ok in Htab as (_ & Hdays & _).
  destruct Hlayout as (_ & _ & _ & _ & _ & Hcount & _ & _ & _ & _ & _ & _ & _
                       & _ & Hsize & _).
  exists buf. unfold count_days in *. split_and!; [done|done|lia|lia].
Qed.

Lemma C4_image_length_witness :
  ∃ buf, files (Fixture.run Fixture.world0).2 !! "out.bin" = Some buf
         ∧ Z.of_nat (length buf) = 64 + 10 * 2 + 4
         ∧ Struct.le_value (bytes_at buf 10 2) = 2
         ∧ Struct.le_value (bytes_at buf 48 4) = 10 * 2.
Proof.
  apply (proj1 C4_image_length unit unit Fixture.zoneinfo Fixture.oracle
           "out.bin" Fixture.aug28 Fixture.aug29 tt tt "Asia/Karachi"
           "KARACHI" Fixture.no_offsets Fixture.durations Fixture.rtc
           FLAG_RTC_ONE_SHOT Fixture.world0 (Fixture.run Fixture.world0).2).
  - vm_compute. reflexivity.
  - vm_compute. discriminate.
Defined.

(** ** Determinism *)

(** C8: two runs on the same arguments, with oracles that answer alike on
    the dates of the span, end alike and, when they succeed, leave the same
    bytes in the file, whatever the files, the oracle log and the clock of
    the worlds they start in. *)
Theorem C8_deterministic {float tzinfo : Type}
    (ZoneInfo : string → result tzinfo)
    (PT1 PT2 : float * float → datetime → CalculationMethod → tzinfo
               → result prayer_times)
    path start end_ lat lon tzname key offsets default_on rtc flags
    (w1 w2 : world) :
  (∀ d tz m, d ∈ (daterange start end_).1 →
     PT1 (lat, lon) (midnight d) m tz = PT2 (lat, lon) (midnight d) m tz) →
  let run1 := write_pray2_bin ZoneInfo PT1 path start end_ lat lon tzname key
                offsets default_on rtc flags w1 in
  let run2 := write_pray2_bin ZoneInfo PT2 path start end_ lat lon tzname key
                offsets default_on rtc flags w2 in
  run1.1 = run2.1
  ∧ (run1.1 = Ok tt →
     ∃ buf, files run1.2 !! path = Some buf ∧ files run2.2 !! path = Some buf).
Proof. apply write_pray2_bin_ext. Qed.

Lemma C8_deterministic_witness :
  (Fixture.run Fixture.world0).1 = (Fixture.run Fixture.world1).1
  ∧ ((Fixture.run Fixture.world0).1 = Ok tt →
     ∃ buf, files (Fixture.run Fixture.world0).2 !! "out.bin" = Some buf
            ∧ files (Fixture.run Fixture.world1).2 !! "out.bin" = Some buf).
Proof.
  apply (C8_deterministic Fixture.zoneinfo Fixture.oracle Fixture.oracle
           "out.bin" Fixture.aug28 Fixture.aug29 tt tt "Asia/Karachi"
           "KARACHI" Fixture.no_offsets Fixture.durations Fixture.rtc
           FLAG_RTC_ONE_SHOT Fixture.world0 Fixture.world1).
  intros d tz m _. reflexivity.
Defined.

(** ** Failures *)

(** C9: when the oracle fails for a date of the span, or the span has more
    than 65535 days, or the RTC string is not 17 characters long, or the
    method name is not in the code table, the run raises, no file is
    written or changed, and no date is asked of the oracle twice. *)
Theorem C9_failures_write_nothing {float tzinfo : Type}
    (ZoneInfo : string → result tzinfo)
    (PrayerTimes : float * float → datetime → CalculationMethod → tzinfo
                   → result prayer_times)
    path start end_ lat lon tzname key offsets default_on rtc flags w :
  valid_date start → valid_date end_ →
  (∃ d, toordinal start ≤ toordinal d ≤ toordinal end_
        ∧ ∀ tz m, ZoneInfo tzname = Ok tz → METHOD_MAP !! key = Some m →
                  is_raise (PrayerTimes (lat, lon) (midnight d) m tz))
  ∨ 65535 < count_days start end_
  ∨ String.length rtc ≠ 17%nat
  ∨ METHOD_CODE !! key = None →
  aborted w (daterange start end_).1
    (write_pray2_bin ZoneInfo PrayerTimes path start end_ lat lon tzname key
       offsets default_on rtc flags w).
Proof.
  intros Hstart Hend Hfail. unfold aborted.
  destruct (write_pray2_bin _ _ _ _ _ _ _ _ _ _ _ _ _ _) as [r w'] eqn:Hrun.
  pose proof (write_pray2_bin_world _ _ _ _ _ _ _ _ _ _ _ _ _ _ _ _ Hrun)
    as (_ & Hcalls & Hfiles).
  simpl. assert (is_raise r) as Hr; [|by auto].
  destruct r as [[]|e]; [exfalso|done].
  apply write_pray2_bin_ok in Hrun
    as (rows & w1 & code & rtc_bytes & Htab & Hcode & Hrtc & Hlen
        & (_ & Hdays & _) & _).
  destruct Hfail as [(d & Hd & Horacle)|[Hmany|[Hrtclen|Hkey]]].
  - pose proof (compute_minutes_table_oracle_failure ZoneInfo PrayerTimes
                  start end_ lat lon tzname key offsets w d
                  (daterange_elem start end_ d Hstart Hend Hd) Horacle) as Hx.
    by rewrite Htab in Hx.
  - apply compute_minutes_table_ok in Htab as (_ & Hcount & _).
    unfold is_u16 in Hdays. lia.
  - apply encode_ascii_ok in Hrtc as [Hsame _]. congruence.
  - congruence.
Qed.

Lemma C9_failures_write_nothing_witness :
  aborted Fixture.world1 (daterange Fixture.aug28 Fixture.aug29).1
    (write_pray2_bin Fixture.zoneinfo Fixture.polar_oracle "out.bin"
       Fixture.aug28 Fixture.aug29 tt tt "Asia/Karachi" "KARACHI"
       Fixture.no_offsets Fixture.durations Fixture.rtc FLAG_RTC_ONE_SHOT
       Fixture.world1)
  ∧ aborted Fixture.world1 (daterange Fixture.aug28 (of_ymd 2300 1 1)).1
      (write_pray2_bin Fixture.zoneinfo Fixture.oracle "out.bin"
         Fixture.aug28 (of_ymd 2300 1 1) tt tt "Asia/Karachi" "KARACHI"
         Fixture.no_offsets Fixture.durations Fixture.rtc FLAG_RTC_ONE_SHOT
         Fixture.world1)
  ∧ aborted Fixture.world1 (daterange Fixture.aug28 Fixture.aug29).1
      (write_pray2_bin Fixture.zoneinfo Fixture.oracle "out.bin"
         Fixture.aug28 Fixture.aug29 tt tt "Asia/Karachi" "KARACHI"
         Fixture.no_offsets Fixture.durations "7:15:00|1/1/25"
         FLAG_RTC_ONE_SHOT Fixture.world1)
  ∧ aborted Fixture.world1 (daterange Fixture.aug28 Fixture.aug29).1
      (write_pray2_bin Fixture.zoneinfo Fixture.oracle "out.bin"
         Fixture.aug28 Fixture.aug29 tt tt "Asia/Karachi" "TEHRAN"
         Fixture.no_offsets Fixture.durations Fixture.rtc FLAG_RTC_ONE_SHOT
         Fixture.world1).
Proof.
  assert (valid_date Fixture.aug28) as H28 by (vm_compute; split; discriminate).
  assert (valid_date Fixture.aug29) as H29 by (vm_compute; split; discriminate).
  assert (valid_date (of_ymd 2300 1 1)) as H2300
    by (vm_compute; split; discriminate).
  split_and!; apply C9_failures_write_nothing; try assumption.
  - left. exists Fixture.aug29. split.
    + vm_compute. split; discriminate.
    + intros tz m _ _. vm_compute. exact I.
  - right. left. vm_compute. reflexivity.
  - right. right. left. vm_compute. discriminate.
  - right. right. right. vm_compute. reflexivity.
Defined.

(** ** Checks of the runtime model against known values *)

(** The CRC-32 check value of the ASCII digits "123456789". *)
Example crc32_check_value :
  Zlib.crc32 [49; 50; 51; 52; 53; 54; 55; 56; 57] = 0xCBF43926.
Proof. vm_compute. reflexivity. Qed.

Example date_fields_2025_08_28 :
  toordinal Fixture.aug28 = 739491
  ∧ (year Fixture.aug28, month Fixture.aug28, day Fixture.aug28) = (2025, 8, 28)
  ∧ ord2ymd MAXORDINAL = (9999, 12, 31)
  ∧ ord2ymd (ymd2ord 2024 2 29) = (2024, 2, 29).
Proof. by vm_compute. Qed.

(** Stepping past 9999-12-31 ends the iteration with an overflow, after
    the last date has been yielded. *)
Example daterange_at_the_last_day :
  daterange (of_ymd 9999 12 31) (of_ymd 9999 12 31)
  = ([Date MAXORDINAL], Some OverflowError).
Proof. by vm_compute. Qed.

(** A field that is a sign or a blank next to one digit is read by [int]
    and rewritten by the [02d] format; a negative year keeps its sign. *)
Example validator_reads_signed_and_blank_fields :
  validate_rtc_ascii "+7: 5:0 |01/01/-5" = Some "07:05:00|01/01/-5".
Proof. by vm_compute. Qed.

(** The run against the oracle that has no answer for 2025-08-29: the
    exception of the oracle comes out, the file is as it was, and the
    oracle has been asked for the two dates, once each. *)
Example polar_run :
  let run := write_pray2_bin Fixture.zoneinfo Fixture.polar_oracle "out.bin"
               Fixture.aug28 Fixture.aug29 tt tt "Asia/Karachi" "KARACHI"
               Fixture.no_offsets Fixture.durations Fixture.rtc
               FLAG_RTC_ONE_SHOT Fixture.world1 in
  run.1 = Raise (OracleError 1)
  ∧ files run.2 !! "out.bin" = Some [1; 2; 3]
  ∧ oracle_calls run.2
    = oracle_calls Fixture.world1
      ++ [midnight Fixture.aug28; midnight Fixture.aug29].
Proof. by vm_compute. Qed.

(** The 88 bytes written for the two days of the fixture. *)
Example fixture_image :
  Fixture.image
  = [80; 82; 65; 89; 50; 2; 64; 0; 233; 7; 2; 0; 8; 28; 16; 1;
     48; 55; 58; 49; 53; 58; 48; 48; 124; 48; 49; 47; 48; 49; 47; 50; 53; 0;
     60; 0; 45; 0; 45; 0; 45; 0; 45; 0;
     64; 0; 0; 0; 20; 0; 0; 0; 0; 0; 0; 0; 0; 0; 0; 0; 0; 0; 0; 0]
    ++ [44; 1; 208; 2; 162; 3; 56; 4; 146; 4]
    ++ [44; 1; 208; 2; 162; 3; 56; 4; 146; 4]
    ++ Struct.le_bytes 4 (Zlib.crc32 (take 84 Fixture.image)).
Proof. by vm_compute. Qed.

(** * Further properties of the code *)

(** ** [daterange] and [count_days] (lines 83-86) *)

Lemma daterange_loop_span (fuel : nat) (d e : date) :
  (Z.to_nat (toordinal e - toordinal d + 2) ≤ fuel)%nat →
  1 ≤ toordinal d → toordinal e < MAXORDINAL →
  daterange_loop fuel d e
  = (Date <$> seqZ (toordinal d) (toordinal e - toordinal d + 1), None).
Proof.
  revert d. induction fuel as [|fuel IH]; intros d Hfuel Hd He.
  - simpl. rewrite seqZ_nil by lia. reflexivity.
  - simpl. unfold Calendar.le.
    destruct (Z.leb_spec (toordinal d) (toordinal e)) as [Hle|Hgt].
    + rewrite add_days_1.
      destruct (Z.ltb_spec 0 (toordinal d + 1)); [|lia].
      destruct (Z.leb_spec (toordinal d + 1) MAXORDINAL); [|lia].
      simpl. rewrite (IH (Date (toordinal d + 1))) by (simpl; lia).
      simpl. rewrite (seqZ_cons (toordinal d)) by lia.
      rewrite fmap_cons. destruct d as [o]. simpl.
      repeat f_equal; lia.
    + rewrite seqZ_nil by lia. reflexivity.
Qed.

(** X1: between a valid start and an end before 9999-12-31, [daterange]
    yields the dates start, start+1, ..., end in this order, [count_days]
    of them when start is not after end and none otherwise, and ends
    without an exception. *)
Theorem X1_daterange_yields_the_span (start end_ : date) :
  valid_date start → toordinal end_ < MAXORDINAL →
  daterange start end_
  = (Date <$> seqZ (toordinal start) (count_days start end_), None)
  ∧ Z.of_nat (length (daterange start end_).1) = Z.max 0 (count_days start end_).
Proof.
  intros [Hs _] He.
  assert (daterange start end_
          = (Date <$> seqZ (toordinal start) (count_days start end_), None))
    as Hspan by (apply daterange_loop_span; [lia|done..]).
  split; [done|]. rewrite Hspan. exact (daterange_length _ _ _ Hspan).
Qed.

Lemma X1_daterange_yields_the_span_witness :
  daterange Fixture.aug28 Fixture.aug29
  = (Date <$> seqZ (toordinal Fixture.aug28)
                (count_days Fixture.aug28 Fixture.aug29), None)
  ∧ Z.of_nat (length (daterange Fixture.aug28 Fixture.aug29).1)
    = Z.max 0 (count_days Fixture.aug28 Fixture.aug29).
Proof.
  apply (X1_daterange_yields_the_span Fixture.aug28 Fixture.aug29).
  - vm_compute. split; discriminate.
  - vm_compute. reflexivity.
Defined.

Lemma daterange_loop_overflow (fuel : nat) (d e : date) :
  (Z.to_nat (toordinal e - toordinal d + 2) ≤ fuel)%nat →
  1 ≤ toordinal d → toordinal d ≤ toordinal e → toordinal e = MAXORDINAL →
  (daterange_loop fuel d e).2 = Some OverflowError.
Proof.
  revert d. induction fuel as [|fuel IH]; intros d Hfuel Hd Hle He.
  - lia.
  - simpl. unfold Calendar.le.
    destruct (Z.leb_spec (toordinal d) (toordinal e)); [|lia].
    rewrite add_days_1.
    destruct (Z.ltb_spec 0 (toordinal d + 1)); [|lia].
    destruct (Z.leb_spec (toordinal d + 1) MAXORDINAL) as [Hnext|Hlast];
      simpl; [|reflexivity].
    specialize (IH (Date (toordinal d + 1))). simpl in IH.
    destruct (daterange_loop fuel _ e) as [ds stop]. simpl in *.
    apply IH; lia.
Qed.

Section SpanEdge.

Context {float tzinfo : Type}.
Variable ZoneInfo : string → result tzinfo.
Variable PrayerTimes :
  float * float → datetime → CalculationMethod → tzinfo → result prayer_times.

Lemma compute_minutes_table_stop start end_ lat lon tzname key offsets w rows w' :
  compute_minutes_table ZoneInfo PrayerTimes start end_ lat lon tzname key
    offsets w = (Ok rows, w') →
  (daterange start end_).2 = None.
Proof.
  unfold compute_minutes_table, bind, lift, raise, ret. intros Hrun.
  destruct (ZoneInfo tzname) as [tz|e]; [|discriminate Hrun].
  destruct (getitem METHOD_MAP key) as [m|e]; [|discriminate Hrun].
  destruct (daterange start end_) as [ds stop].
  destruct (table_loop _ _ _ _ _ _ _ _ _) as [[rows'|e] w1];
    [|discriminate Hrun].
  by destruct stop.
Qed.

(** X2: a span that ends on 9999-12-31 cannot be encoded: stepping past
    the last date overflows, so the run raises and no file is written or
    changed, whatever the oracle answers. *)
Theorem X2_span_ending_on_the_last_day_fails
    path start end_ lat lon tzname key offsets default_on rtc flags w :
  valid_date start → toordinal start ≤ toordinal end_ →
  toordinal end_ = MAXORDINAL →
  (daterange start end_).2 = Some OverflowError
  ∧ aborted w (daterange start end_).1
      (write_pray2_bin ZoneInfo PrayerTimes path start end_ lat lon tzname key
         offsets default_on rtc flags w).
Proof.
  intros [Hs _] Hle He.
  assert ((daterange start end_).2 = Some OverflowError) as Hstop
    by (apply daterange_loop_overflow; [lia|done..]).
  split; [done|]. unfold aborted.
  destruct (write_pray2_bin _ _ _ _ _ _ _ _ _ _ _ _ _ _) as [r w'] eqn:Hrun.
  pose proof (write_pray2_bin_world _ _ _ _ _ _ _ _ _ _ _ _ _ _ _ _ Hrun)
    as (_ & Hcalls & Hfiles).
  simpl. assert (is_raise r) as Hr; [|by auto].
  destruct r as [[]|e]; [exfalso|done].
  apply write_pray2_bin_ok in Hrun as (rows & w1 & _ & _ & Htab & _).
  apply compute_minutes_table_stop in Htab. congruence.
Qed.

End SpanEdge.

Lemma X2_span_ending_on_the_last_day_fails_witness :
  (daterange (of_ymd 9999 12 30) (of_ymd 9999 12 31)).2 = Some OverflowError
  ∧ aborted Fixture.world1 (daterange (of_ymd 9999 12 30) (of_ymd 9999 12 31)).1
      (write_pray2_bin Fixture.zoneinfo Fixture.oracle "out.bin"
         (of_ymd 9999 12 30) (of_ymd 9999 12 31) tt tt "Asia/Karachi"
         "KARACHI" Fixture.no_offsets Fixture.durations Fixture.rtc
         FLAG_RTC_ONE_SHOT Fixture.world1).
Proof.
  apply X2_span_ending_on_the_last_day_fails.
  - vm_compute. split; discriminate.
  - vm_compute. discriminate.
  - vm_compute. reflexivity.
Defined.

(** ** [compute_minutes_table] (lines 149-163) *)

Section BuilderExtras.

Context {float tzinfo : Type}.
Variable ZoneInfo : string → result tzinfo.
Variable PrayerTimes :
  float * float → datetime → CalculationMethod → tzinfo → result prayer_times.

Lemma table_loop_calls lat lon tz m offsets ds acc w rows w' :
  table_loop PrayerTimes lat lon tz m offsets ds acc w = (Ok rows, w') →
  oracle_calls w' = oracle_calls w ++ (midnight <$> ds).
Proof.
  revert acc w. induction ds as [|d ds IH]; intros acc w Hrun.
  - injection Hrun as <- <-. simpl. by rewrite app_nil_r.
  - simpl in Hrun. unfold bind, call_oracle, lift in Hrun.
    destruct (PrayerTimes _ _ _ _) as [pt|e]; [|discriminate Hrun].
    destruct (minutes_row offsets pt) as [t|e]; [|discriminate Hrun].
    apply IH in Hrun. rewrite Hrun. simpl. by rewrite <- app_assoc.
Qed.

(** X3: a table that is built has exactly one row per date of the span,
    and the oracle has been asked exactly once for each date, in
    chronological order, for midnight of that date; no file is touched. *)
Theorem X3_one_oracle_call_and_one_row_per_date
    start end_ lat lon tzname key offsets w rows w' :
  compute_minutes_table ZoneInfo PrayerTimes start end_ lat lon tzname key
    offsets w = (Ok rows, w') →
  length rows = length (daterange start end_).1
  ∧ oracle_calls w'
    = oracle_calls w ++ (midnight <$> (daterange start end_).1)
  ∧ files w' = files w.
Proof.
  unfold compute_minutes_table, bind, lift, raise, ret. intros Hrun.
  destruct (ZoneInfo tzname) as [tz|e]; [|discriminate Hrun].
  destruct (getitem METHOD_MAP key) as [m|e]; [|discriminate Hrun].
  destruct (daterange start end_) as [ds stop].
  destruct (table_loop _ _ _ _ _ _ _ _ _) as [[rows'|e] w1] eqn:Hloop;
    [|discriminate Hrun].
  destruct stop; [discriminate Hrun|]. injection Hrun as -> ->. simpl.
  pose proof (table_loop_calls _ _ _ _ _ _ _ _ _ _ Hloop) as Hcalls.
  pose proof (table_loop_world _ _ _ _ _ _ _ _ _ _ _ Hloop) as (Hfiles & _).
  apply table_loop_rows in Hloop as (new & -> & Hlen & _).
  by rewrite app_nil_l.
Qed.

End BuilderExtras.

Lemma X3_one_oracle_call_and_one_row_per_date_witness :
  length [[300; 720; 930; 1080; 1170]; [300; 720; 930; 1080; 1170]]
  = length (daterange Fixture.aug28 Fixture.aug29).1
  ∧ oracle_calls (Fixture.table Fixture.no_offsets).2
    = oracle_calls Fixture.world0
      ++ (midnight <$> (daterange Fixture.aug28 Fixture.aug29).1)
  ∧ files (Fixture.table Fixture.no_offsets).2 = files Fixture.world0.
Proof.
  apply (X3_one_oracle_call_and_one_row_per_date Fixture.zoneinfo
           Fixture.oracle Fixture.aug28 Fixture.aug29 tt tt "Asia/Karachi"
           "KARACHI" Fixture.no_offsets Fixture.world0).
  vm_compute. reflexivity.
Defined.

(** X4: an offset moves a time around the clock: for a well-formed time
    of day, the minute of day after [adj] is the old minute of day plus the
    offset, taken modulo 1440 (a time pushed past midnight comes back as a
    small value, on the neighbouring date), and the time stays well formed. *)
Theorem X4_offset_wraps_around_midnight (dt dt' : datetime) (mins : Z) :
  wellformed_time dt →
  adj dt mins = Ok dt' →
  to_min dt' = (to_min dt + mins) mod 1440
  ∧ toordinal (dt_date dt')
    = toordinal (dt_date dt) + (to_min dt + mins) / 1440
  ∧ second dt' = second dt ∧ microsecond dt' = microsecond dt
  ∧ wellformed_time dt'.
Proof.
  unfold wellformed_time, adj, timedelta_minutes, datetime_add, rbind, to_min.
  intros (Hh & Hm & Hs & Hu) Hadj.
  destruct (Z.abs _ <=? 999999999); [|discriminate Hadj].
  cbn [td_days td_seconds td_microseconds] in Hadj.
  destruct (_ && _); [|discriminate Hadj].
  injection Hadj as <-. cbn [hour minute second microsecond dt_date toordinal].
  rewrite Z.add_0_r, (Z.div_small (microsecond dt)), (Z.mod_small (microsecond dt))
    by lia.
  rewrite Z.add_0_r.
  set (T := hour dt * 60 + minute dt) in *.
  assert ((hour dt * 3600 + minute dt * 60 + second dt + (mins * 60) mod 86400)
          = 60 * (T + mins) + second dt - 86400 * ((mins * 60) / 86400)) as ->.
  { pose proof (Z.div_mod (mins * 60) 86400). unfold T. lia. }
  set (q := (mins * 60) / 86400).
  set (x := T + mins).
  assert ((60 * x + second dt - 86400 * q) mod 86400
          = 60 * (x mod 1440) + second dt) as Hmod.
  { replace (60 * x + second dt - 86400 * q)
      with (60 * (x mod 1440) + second dt + (x / 1440 - q) * 86400)
      by (pose proof (Z.div_mod x 1440); lia).
    rewrite Z.mod_add by lia. apply Z.mod_small.
    pose proof (Z.mod_pos_bound x 1440). lia. }
  assert ((60 * x + second dt - 86400 * q) / 86400 = x / 1440 - q) as Hdiv.
  { replace (60 * x + second dt - 86400 * q)
      with (60 * (x mod 1440) + second dt + (x / 1440 - q) * 86400)
      by (pose proof (Z.div_mod x 1440); lia).
    rewrite Z.div_add by lia. rewrite Z.div_small; [lia|].
    pose proof (Z.mod_pos_bound x 1440). lia. }
  rewrite Hmod, Hdiv.
  set (y := x mod 1440).
  assert (0 ≤ y < 1440) as Hy by (apply Z.mod_pos_bound; lia).
  assert ((60 * y + second dt) / 3600 = y / 60) as Hhour.
  { symmetry. apply Z.div_unique with (r := 60 * (y mod 60) + second dt).
    - pose proof (Z.mod_pos_bound y 60). lia.
    - pose proof (Z.div_mod y 60). lia. }
  assert ((60 * y + second dt) mod 3600 = 60 * (y mod 60) + second dt) as Hrem.
  { symmetry. apply Z.mod_unique with (q := y / 60).
    - pose proof (Z.mod_pos_bound y 60). lia.
    - pose proof (Z.div_mod y 60). lia. }
  rewrite Hhour, Hrem.
  assert ((60 * (y mod 60) + second dt) / 60 = y mod 60) as Hmin.
  { symmetry. apply Z.div_unique with (r := second dt); lia. }
  assert ((60 * (y mod 60) + second dt) mod 60 = second dt) as Hsec.
  { symmetry. apply Z.mod_unique with (q := y mod 60); lia. }
  rewrite Hmin, Hsec.
  pose proof (Z.div_mod y 60). pose proof (Z.mod_pos_bound y 60).
  assert (0 ≤ y / 60 < 24).
  { split; [apply Z.div_pos; lia|apply Z.div_lt_upper_bound; lia]. }
  split_and!; lia.
Qed.

Lemma X4_offset_wraps_around_midnight_witness :
  to_min (Fixture.at_time Fixture.aug29 0 30)
  = (to_min (Fixture.at_time Fixture.aug28 19 30) + 300) mod 1440
  ∧ toordinal (dt_date (Fixture.at_time Fixture.aug29 0 30))
    = toordinal (dt_date (Fixture.at_time Fixture.aug28 19 30))
      + (to_min (Fixture.at_time Fixture.aug28 19 30) + 300) / 1440
  ∧ second (Fixture.at_time Fixture.aug29 0 30)
    = second (Fixture.at_time Fixture.aug28 19 30)
  ∧ microsecond (Fixture.at_time Fixture.aug29 0 30)
    = microsecond (Fixture.at_time Fixture.aug28 19 30)
  ∧ wellformed_time (Fixture.at_time Fixture.aug29 0 30).
Proof.
  apply (X4_offset_wraps_around_midnight
           (Fixture.at_time Fixture.aug28 19 30)
           (Fixture.at_time Fixture.aug29 0 30) 300).
  - unfold wellformed_time. simpl. lia.
  - vm_compute. reflexivity.
Defined.

Lemma clamp_in_day_id (v : Z) : in_day v → Z.max 0 (Z.min 1439 v) = v.
Proof. unfold in_day. lia. Qed.

Lemma repair_clamp_fixed (a b c d e : Z) :
  Forall in_day [a; b; c; d; e] →
  increasing_or_saturated [a; b; c; d; e] →
  repair (clamp [a; b; c; d; e]) = [a; b; c; d; e].
Proof.
  intros Hday Hinc.
  apply adjacent_5 in Hinc as (Hab & Hbc & Hcd & Hde).
  inversion_clear Hday as [|? ? Ha Hday1].
  inversion_clear Hday1 as [|? ? Hb Hday2].
  inversion_clear Hday2 as [|? ? Hc Hday3].
  inversion_clear Hday3 as [|? ? Hd Hday4].
  inversion_clear Hday4 as [|? ? He _].
  rewrite clamp_5, !clamp_in_day_id by done.
  rewrite repair_5, repair_rule_5. cbv zeta. unfold in_day in *.
  assert ((if b <=? a then Z.min (a + 1) 1439 else b) = b) as ->
    by (destruct (Z.leb_spec b a); lia).
  assert ((if c <=? b then Z.min (b + 1) 1439 else c) = c) as ->
    by (destruct (Z.leb_spec c b); lia).
  assert ((if d <=? c then Z.min (c + 1) 1439 else d) = d) as ->
    by (destruct (Z.leb_spec d c); lia).
  assert ((if e <=? d then Z.min (d + 1) 1439 else e) = e) as ->
    by (destruct (Z.leb_spec e d); lia).
  reflexivity.
Qed.

(** X5: clamping and repairing leaves a row of five unchanged exactly
    when its values are in [0,1439] and each is above its left neighbour
    or both are 1439; hence doing it twice is doing it once. *)
Theorem X5_clamp_and_repair_fixed_points (a b c d e : Z) :
  (repair (clamp [a; b; c; d; e]) = [a; b; c; d; e]
   ↔ Forall in_day [a; b; c; d; e]
     ∧ increasing_or_saturated [a; b; c; d; e])
  ∧ repair (clamp (repair (clamp [a; b; c; d; e])))
    = repair (clamp [a; b; c; d; e]).
Proof.
  assert (is_row (repair (clamp [a; b; c; d; e]))) as Hrow
    by (by exists a, b, c, d, e).
  split.
  - split.
    + intros Heq. rewrite <- Heq.
      split; [by apply row_in_day|by apply row_increasing_or_saturated].
    + intros [Hday Hinc]. by apply repair_clamp_fixed.
  - pose proof (row_in_day _ Hrow) as Hday.
    pose proof (row_increasing_or_saturated _ Hrow) as Hinc.
    revert Hday Hinc. rewrite clamp_5, repair_5, repair_rule_5. cbv zeta.
    apply repair_clamp_fixed.
Qed.

(** ** [write_pray2_bin] (lines 187-232) *)

Lemma method_map_keys (key : string) (m : CalculationMethod) :
  METHOD_MAP !! key = Some m →
  key ∈ ["KARACHI"; "MUSLIM_WORLD_LEAGUE"; "EGYPTIAN";
         "MOON_SIGHTING_COMMITTEE"; "UMM_AL_QURA"; "NORTH_AMERICA"].
Proof.
  intros Hm. unfold METHOD_MAP in Hm.
  apply elem_of_list_to_map_2 in Hm.
  apply (list_elem_of_fmap_2 fst) in Hm. exact Hm.
Qed.

Lemma method_map_code (key : string) (m : CalculationMethod) :
  METHOD_MAP !! key = Some m →
  ∃ code, METHOD_CODE !! key = Some code ∧ 1 ≤ code ≤ 6.
Proof.
  intros Hm. apply method_map_keys in Hm.
  repeat (apply elem_of_cons in Hm as [->|Hm];
          [eexists; split; [vm_compute; reflexivity|lia]|]).
  by apply elem_of_nil in Hm.
Qed.

Section WriterExtras.

Context {float tzinfo : Type}.
Variable ZoneInfo : string → result tzinfo.
Variable PrayerTimes :
  float * float → datetime → CalculationMethod → tzinfo → result prayer_times.

(** X6: the method code of a written file is never 0: a run succeeds only
    for a name the table builder knows, so the code byte is between 1 and
    6; the name "CUSTOM", although it has code 0 in the code table, always
    ends the run in an exception with nothing written, a [KeyError] when
    the time zone is known. *)
Theorem X6_method_code_is_never_custom
    path start end_ lat lon tzname key offsets default_on rtc flags w w' :
  write_pray2_bin ZoneInfo PrayerTimes path start end_ lat lon tzname key
    offsets default_on rtc flags w = (Ok tt, w') →
  (∃ buf code,
     files w' !! path = Some buf ∧ bytes_at buf 15 1 = [code]
     ∧ METHOD_CODE !! key = Some code ∧ 1 ≤ code ≤ 6)
  ∧ key ≠ "CUSTOM"
  ∧ (∀ tz, ZoneInfo tzname = Ok tz →
       write_pray2_bin ZoneInfo PrayerTimes path start end_ lat lon tzname
         "CUSTOM" offsets default_on rtc flags w
       = (Raise (KeyError "CUSTOM"), w)).
Proof.
  intros Hrun.
  destruct (write_pray2_bin_layout _ _ _ _ _ _ _ _ _ _ _ _ _ _ _ Hrun)
    as (_ & buf & rows & w1 & code & Hbuf & Htab & Hcode & Hlayout).
  apply compute_minutes_table_ok in Htab as ([m Hm] & _).
  split_and!.
  - apply method_map_code in Hm as (code' & Hcode' & Hrange).
    assert (code' = code) as -> by congruence.
    exists buf, code. split_and!; try done; try lia.
    by destruct Hlayout as (_ & _ & _ & _ & _ & _ & _ & _ & _ & H15 & _).
  - intros ->. vm_compute in Hm. discriminate Hm.
  - intros tz Hz.
    unfold write_pray2_bin, compute_minutes_table, bind, lift.
    rewrite Hz. reflexivity.
Qed.

(** X7: a successful run replaces the content of the file at [path] and
    leaves every other file as it was; a failed run leaves all files as
    they were. *)
Theorem X7_only_the_target_file_changes
    path start end_ lat lon tzname key offsets default_on rtc flags w r w' :
  write_pray2_bin ZoneInfo PrayerTimes path start end_ lat lon tzname key
    offsets default_on rtc flags w = (r, w') →
  (∀ other, other ≠ path → files w' !! other = files w !! other)
  ∧ (is_raise r → files w' = files w)
  ∧ (r = Ok tt → is_Some (files w' !! path))
  ∧ clock w' = clock w.
Proof.
  intros Hrun.
  pose proof (write_pray2_bin_world _ _ _ _ _ _ _ _ _ _ _ _ _ _ _ _ Hrun)
    as (Hclock & _ & Hfail).
  destruct r as [[]|e].
  - apply write_pray2_bin_ok in Hrun
      as (rows & w1 & code & rtc_bytes & Htab & _ & _ & _ & _ & _ & _
          & Hfiles & _).
    cbv zeta in Hfiles.
    apply compute_minutes_table_world in Htab as (Hsame & _).
    rewrite Hfiles, Hsame. split_and!; try done.
    + intros other Hother. by rewrite lookup_insert_ne.
    + intros _. rewrite lookup_insert_eq. by eexists.
  - rewrite (Hfail I). split_and!; done.
Qed.

End WriterExtras.

Lemma X6_method_code_is_never_custom_witness :
  (∃ buf code,
     files (Fixture.run Fixture.world0).2 !! "out.bin" = Some buf
     ∧ bytes_at buf 15 1 = [code]
     ∧ METHOD_CODE !! "KARACHI" = Some code ∧ 1 ≤ code ≤ 6)
  ∧ "KARACHI" ≠ "CUSTOM"
  ∧ (∀ tz, Fixture.zoneinfo "Asia/Karachi" = Ok tz →
       write_pray2_bin Fixture.zoneinfo Fixture.oracle "out.bin"
         Fixture.aug28 Fixture.aug29 tt tt "Asia/Karachi" "CUSTOM"
         Fixture.no_offsets Fixture.durations Fixture.rtc FLAG_RTC_ONE_SHOT
         Fixture.world0
       = (Raise (KeyError "CUSTOM"), Fixture.world0)).
Proof.
  apply (X6_method_code_is_never_custom Fixture.zoneinfo Fixture.oracle
           "out.bin" Fixture.aug28 Fixture.aug29 tt tt "Asia/Karachi"
           "KARACHI" Fixture.no_offsets Fixture.durations Fixture.rtc
           FLAG_RTC_ONE_SHOT Fixture.world0 (Fixture.run Fixture.world0).2).
  vm_compute. reflexivity.
Defined.

Lemma X7_only_the_target_file_changes_witness :
  (∀ other, other ≠ "prayer.bin" →
     files (write_pray2_bin Fixture.zoneinfo Fixture.oracle "prayer.bin"
              Fixture.aug28 Fixture.aug29 tt tt "Asia/Karachi" "KARACHI"
              Fixture.no_offsets Fixture.durations Fixture.rtc
              FLAG_RTC_ONE_SHOT Fixture.world1).2 !! other
     = files Fixture.world1 !! other)
  ∧ (is_raise (Ok tt) →
     files (write_pray2_bin Fixture.zoneinfo Fixture.oracle "prayer.bin"
              Fixture.aug28 Fixture.aug29 tt tt "Asia/Karachi" "KARACHI"
              Fixture.no_offsets Fixture.durations Fixture.rtc
              FLAG_RTC_ONE_SHOT Fixture.world1).2
     = files Fixture.world1)
  ∧ (Ok tt = Ok tt →
     is_Some
       (files (write_pray2_bin Fixture.zoneinfo Fixture.oracle "prayer.bin"
                 Fixture.aug28 Fixture.aug29 tt tt "Asia/Karachi" "KARACHI"
                 Fixture.no_offsets Fixture.durations Fixture.rtc
                 FLAG_RTC_ONE_SHOT Fixture.world1).2 !! "prayer.bin"))
  ∧ clock (write_pray2_bin Fixture.zoneinfo Fixture.oracle "prayer.bin"
             Fixture.aug28 Fixture.aug29 tt tt "Asia/Karachi" "KARACHI"
             Fixture.no_offsets Fixture.durations Fixture.rtc
             FLAG_RTC_ONE_SHOT Fixture.world1).2
    = clock Fixture.world1.
Proof.
  apply (X7_only_the_target_file_changes Fixture.zoneinfo Fixture.oracle
           "prayer.bin" Fixture.aug28 Fixture.aug29 tt tt "Asia/Karachi"
           "KARACHI" Fixture.no_offsets Fixture.durations Fixture.rtc
           FLAG_RTC_ONE_SHOT Fixture.world1 (Ok tt)).
  vm_compute. reflexivity.
Defined.

(** ** [validate_rtc_ascii] (lines 38-57) *)

Lemma all_ascii_spec (P : ascii → bool) :
  all_ascii P = true → ∀ a, P a = true.
Proof.
  unfold all_ascii. rewrite forallb_forall. intros Hall a.
  apply Hall. rewrite <- (ascii_nat_embedding a).
  apply in_map, in_seq. pose proof (nat_ascii_bounded a). lia.
Qed.

Lemma int2_range (a b : ascii) (v : Z) :
  Py.int (String a (String b EmptyString)) = Some v → -9 ≤ v ≤ 99.
Proof.
  assert (all_ascii (λ a, all_ascii (int2_in_range a)) = true) as Hall
    by (vm_compute; reflexivity).
  pose proof (all_ascii_spec _ (all_ascii_spec _ Hall a) b) as Hab.
  unfold int2_in_range in Hab. intros Hv. rewrite Hv in Hab. lia.
Qed.

Lemma format_02d_two_chars (v : Z) :
  -9 ≤ v ≤ 99 →
  ∃ a b, Py.format_02d v = String a (String b EmptyString)
         ∧ Py.isspace a = false ∧ Py.isspace b = false
         ∧ (Py.ord a <? 128) = true ∧ (Py.ord b <? 128) = true
         ∧ Py.int (String a (String b EmptyString)) = Some v.
Proof.
  intros Hv.
  assert (forallb format_02d_reads_back (seqZ (-9) 109) = true) as Hall
    by (vm_compute; reflexivity).
  rewrite forallb_forall in Hall.
  assert (format_02d_reads_back v = true) as Hcheck.
  { apply Hall. apply list_elem_of_In, elem_of_seqZ. lia. }
  unfold format_02d_reads_back in Hcheck.
  destruct (Py.format_02d v) as [|a [|b [|]]]; try discriminate Hcheck.
  destruct (Py.int _) as [v'|] eqn:Hint;
    [|by rewrite !andb_false_r in Hcheck].
  exists a, b.
  apply andb_prop in Hcheck as [Hcheck Heq]. apply Z.eqb_eq in Heq as ->.
  repeat (apply andb_prop in Hcheck as [Hcheck ?]).
  apply negb_true_iff in Hcheck.
  split_and!; try done; by apply negb_true_iff.
Qed.

(** What an accepted input has gone through. *)
Lemma validate_rtc_ascii_inv (s r : string) :
  validate_rtc_ascii s = Some r →
  ∃ HH MM SS DD MO YY,
    r = rtc_string HH MM SS DD MO YY
    ∧ 0 ≤ HH ≤ 23 ∧ 0 ≤ MM ≤ 59 ∧ 0 ≤ SS ≤ 59
    ∧ 1 ≤ DD ≤ 31 ∧ 1 ≤ MO ≤ 12 ∧ -9 ≤ YY ≤ 99.
Proof.
  unfold validate_rtc_ascii, Py.len. intros Hr.
  destruct (Z.eqb_spec (Z.of_nat (String.length (Py.strip s))) 17) as [Hlen|];
    [|discriminate Hr].
  cbn [negb] in Hr.
  destruct (negb _); [discriminate Hr|].
  destruct (Py.int (Py.slice _ 0 2)) as [HH|]; [|discriminate Hr].
  destruct (Py.int (Py.slice _ 3 5)) as [MM|]; [|discriminate Hr].
  destruct (Py.int (Py.slice _ 6 8)) as [SS|]; [|discriminate Hr].
  destruct (Py.int (Py.slice _ 9 11)) as [DD|]; [|discriminate Hr].
  destruct (Py.int (Py.slice _ 12 14)) as [MO|]; [|discriminate Hr].
  destruct (Py.int (Py.slice _ 15 17)) as [YY|] eqn:HYY; [|discriminate Hr].
  cbn [mbind option_bind] in Hr.
  destruct (negb _) eqn:Htime in Hr; [discriminate Hr|].
  destruct (negb _) eqn:Hdate in Hr; [discriminate Hr|].
  injection Hr as <-.
  apply negb_false_iff in Htime, Hdate.
  exists HH, MM, SS, DD, MO, YY.
  assert (-9 ≤ YY ≤ 99) as Hyy.
  { remember (Py.strip s) as s' eqn:Hs'. clear Hs'.
    do 18 (destruct s' as [|? s']; try (simpl in Hlen; lia)).
    cbn in HYY. by eapply int2_range. }
  split_and!; try done; lia.
Qed.

(** The text of six values in range is accepted as it is. *)
Lemma validate_rtc_ascii_canonical (HH MM SS DD MO YY : Z) :
  0 ≤ HH ≤ 23 → 0 ≤ MM ≤ 59 → 0 ≤ SS ≤ 59 →
  1 ≤ DD ≤ 31 → 1 ≤ MO ≤ 12 → -9 ≤ YY ≤ 99 →
  validate_rtc_ascii (rtc_string HH MM SS DD MO YY)
  = Some (rtc_string HH MM SS DD MO YY).
Proof.
  intros HHH HMM HSS HDD HMO HYY.
  destruct (format_02d_two_chars HH) as (a0 & b0 & E0 & Sa0 & _ & _ & _ & I0);
    [lia|].
  destruct (format_02d_two_chars MM) as (a1 & b1 & E1 & _ & _ & _ & _ & I1);
    [lia|].
  destruct (format_02d_two_chars SS) as (a2 & b2 & E2 & _ & _ & _ & _ & I2);
    [lia|].
  destruct (format_02d_two_chars DD) as (a3 & b3 & E3 & _ & _ & _ & _ & I3);
    [lia|].
  destruct (format_02d_two_chars MO) as (a4 & b4 & E4 & _ & _ & _ & _ & I4);
    [lia|].
  destruct (format_02d_two_chars YY) as (a5 & b5 & E5 & _ & Sb5 & _ & _ & I5);
    [lia|].
  unfold rtc_string. rewrite E0, E1, E2, E3, E4, E5.
  cbv beta iota delta [append].
  unfold validate_rtc_ascii, Py.strip.
  cbn [Py.lstrip]. rewrite Sa0.
  cbn [Py.rstrip]. rewrite Sb5.
  cbn [Py.len String.length Py.char_is String.get Py.slice String.substring
       Nat.sub].
  change (Z.of_nat 17 =? 17) with true.
  cbn [negb andb Ascii.eqb Bool.eqb].
  rewrite I0, I1, I2, I3, I4, I5.
  cbn [mbind option_bind].
  assert ((0 <=? HH) && (HH <=? 23) && (0 <=? MM) && (MM <=? 59)
          && (0 <=? SS) && (SS <=? 59) = true) as -> by lia.
  assert ((1 <=? MO) && (MO <=? 12) && (1 <=? DD) && (DD <=? 31) = true)
    as -> by lia.
  cbn [negb]. rewrite E0, E1, E2, E3, E4, E5. reflexivity.
Qed.

Lemma rtc_string_ascii (HH MM SS DD MO YY : Z) :
  -9 ≤ HH ≤ 99 → -9 ≤ MM ≤ 99 → -9 ≤ SS ≤ 99 →
  -9 ≤ DD ≤ 99 → -9 ≤ MO ≤ 99 → -9 ≤ YY ≤ 99 →
  String.length (rtc_string HH MM SS DD MO YY) = 17%nat
  ∧ ∃ bs, Py.encode_ascii (rtc_string HH MM SS DD MO YY) = Ok bs
          ∧ length bs = 17%nat.
Proof.
  intros HHH HMM HSS HDD HMO HYY.
  destruct (format_02d_two_chars HH HHH) as (a0 & b0 & E0 & _ & _ & A0 & B0 & _).
  destruct (format_02d_two_chars MM HMM) as (a1 & b1 & E1 & _ & _ & A1 & B1 & _).
  destruct (format_02d_two_chars SS HSS) as (a2 & b2 & E2 & _ & _ & A2 & B2 & _).
  destruct (format_02d_two_chars DD HDD) as (a3 & b3 & E3 & _ & _ & A3 & B3 & _).
  destruct (format_02d_two_chars MO HMO) as (a4 & b4 & E4 & _ & _ & A4 & B4 & _).
  destruct (format_02d_two_chars YY HYY) as (a5 & b5 & E5 & _ & _ & A5 & B5 & _).
  unfold rtc_string. rewrite E0, E1, E2, E3, E4, E5.
  cbv beta iota delta [append]. split; [reflexivity|].
  cbn [Py.encode_ascii].
  rewrite A0, B0, A1, B1, A2, B2, A3, B3, A4, B4, A5, B5.
  change (Py.ord ":" <? 128) with true.
  change (Py.ord "|" <? 128) with true.
  change (Py.ord "/" <? 128) with true.
  cbn [rbind]. eexists. split; reflexivity.
Qed.

(** X8: a text [HH:MM:SS|DD/MO/YY] whose fields are written with two
    digits and lie in the ranges the validator checks (hour 0..23, minute
    and second 0..59, day 1..31, month 1..12, any year 00..99) is accepted
    and returned unchanged. *)
Theorem X8_validator_accepts_canonical_text (HH MM SS DD MO YY : Z) :
  0 ≤ HH ≤ 23 → 0 ≤ MM ≤ 59 → 0 ≤ SS ≤ 59 →
  1 ≤ DD ≤ 31 → 1 ≤ MO ≤ 12 → 0 ≤ YY ≤ 99 →
  validate_rtc_ascii (rtc_string HH MM SS DD MO YY)
  = Some (rtc_string HH MM SS DD MO YY).
Proof. intros. apply validate_rtc_ascii_canonical; lia. Qed.

Lemma X8_validator_accepts_canonical_text_witness :
  validate_rtc_ascii (rtc_string 23 59 58 31 2 0)
  = Some (rtc_string 23 59 58 31 2 0).
Proof. apply (X8_validator_accepts_canonical_text 23 59 58 31 2 0); lia. Defined.

(** X9: whatever the validator returns is exactly 17 characters long and
    encodes to 17 ASCII bytes, so the length check of the binary writer
    (line 195) passes on it. *)
Theorem X9_validator_output_is_17_ascii_bytes (s r : string) :
  validate_rtc_ascii s = Some r →
  String.length r = 17%nat
  ∧ ∃ bs, Py.encode_ascii r = Ok bs ∧ length bs = 17%nat.
Proof.
  intros Hr.
  apply validate_rtc_ascii_inv in Hr
    as (HH & MM & SS & DD & MO & YY & -> & ? & ? & ? & ? & ? & ?).
  apply rtc_string_ascii; lia.
Qed.

Lemma X9_validator_output_is_17_ascii_bytes_witness :
  String.length "07:05:00|01/01/-5" = 17%nat
  ∧ ∃ bs, Py.encode_ascii "07:05:00|01/01/-5" = Ok bs ∧ length bs = 17%nat.
Proof.
  apply (X9_validator_output_is_17_ascii_bytes "  +7: 5:0 |01/01/-5 ").
  vm_compute. reflexivity.
Defined.

(** X10: the validator is idempotent: what it returns it accepts, and
    returns unchanged. *)
Theorem X10_validator_idempotent (s r : string) :
  validate_rtc_ascii s = Some r → validate_rtc_ascii r = Some r.
Proof.
  intros Hr.
  apply validate_rtc_ascii_inv in Hr
    as (HH & MM & SS & DD & MO & YY & -> & ? & ? & ? & ? & ? & ?).
  by apply validate_rtc_ascii_canonical.
Qed.

Lemma X10_validator_idempotent_witness :
  validate_rtc_ascii "07:05:00|01/01/-5" = Some "07:05:00|01/01/-5".
Proof.
  apply (X10_validator_idempotent "  +7: 5:0 |01/01/-5 ").
  vm_compute. reflexivity.
Defined.

(** ** [month_span] and [contiguous_months_span] (lines 77-82) *)

Lemma month_cases (m : Z) :
  1 ≤ m ≤ 12 →
  m = 1 ∨ m = 2 ∨ m = 3 ∨ m = 4 ∨ m = 5 ∨ m = 6
  ∨ m = 7 ∨ m = 8 ∨ m = 9 ∨ m = 10 ∨ m = 11 ∨ m = 12.
Proof. lia. Qed.

Ltac each_month H :=
  apply month_cases in H;
  destruct H as [->|[->|[->|[->|[->|[->|[->|[->|[->|[->|[->| ->]]]]]]]]]]].

Lemma days_in_month_range (y m : Z) :
  1 ≤ m ≤ 12 → 28 ≤ days_in_month y m ≤ 31.
Proof.
  intros Hm. unfold days_in_month.
  each_month Hm; destruct (is_leap y); vm_compute; split; discriminate.
Qed.

(** The days of the months of a year follow one another. *)
Lemma days_before_next_month (y m : Z) :
  1 ≤ m ≤ 11 →
  days_before_month y (m + 1) = days_before_month y m + days_in_month y m.
Proof.
  intros Hm. unfold days_before_month, days_in_month.
  assert (m = 1 ∨ m = 2 ∨ m = 3 ∨ m = 4 ∨ m = 5 ∨ m = 6
          ∨ m = 7 ∨ m = 8 ∨ m = 9 ∨ m = 10 ∨ m = 11) as Hcases by lia.
  destruct Hcases as [->|[->|[->|[->|[->|[->|[->|[->|[->|[->| ->]]]]]]]]]];
    destruct (is_leap y); reflexivity.
Qed.

Lemma days_before_month_mono (y m m' : Z) :
  1 ≤ m ≤ m' → m' ≤ 12 →
  days_before_month y m ≤ days_before_month y m'.
Proof.
  intros Hm Hm'. unfold days_before_month.
  assert (1 ≤ m ≤ 12) as H1 by lia. assert (1 ≤ m' ≤ 12) as H2 by lia.
  each_month H1; each_month H2; try lia;
    destruct (is_leap y); vm_compute; discriminate.
Qed.

Lemma days_before_month_bounds (y m : Z) :
  1 ≤ m ≤ 12 →
  0 ≤ days_before_month y m
  ∧ days_before_month y m + days_in_month y m
    ≤ 365 + (if is_leap y then 1 else 0).
Proof.
  intros Hm. unfold days_before_month, days_in_month.
  each_month Hm; destruct (is_leap y); vm_compute; split; discriminate.
Qed.

Lemma days_before_year_next (y : Z) :
  days_before_year (y + 1)
  = days_before_year y + 365 + (if is_leap y then 1 else 0).
Proof.
  unfold days_before_year, is_leap.
  replace (y + 1 - 1) with y by lia.
  destruct (Z.eqb_spec (y mod 4) 0), (Z.eqb_spec (y mod 100) 0),
    (Z.eqb_spec (y mod 400) 0); cbn [negb andb orb];
    Z.to_euclidean_division_equations; lia.
Qed.

Lemma days_before_year_mono (y y' : Z) :
  y ≤ y' → days_before_year y ≤ days_before_year y'.
Proof.
  intros Hle.
  replace y' with (y + Z.of_nat (Z.to_nat (y' - y))) by lia.
  induction (Z.to_nat (y' - y)) as [|n IH]; [by rewrite Z.add_0_r|].
  replace (y + Z.of_nat (S n)) with (y + Z.of_nat n + 1) by lia.
  rewrite days_before_year_next. destruct (is_leap _); lia.
Qed.

(** Valid year, month and day give a valid date, inside its year. *)
Lemma of_ymd_valid (y m d : Z) :
  1 ≤ y ≤ 9999 → 1 ≤ m ≤ 12 → 1 ≤ d ≤ days_in_month y m →
  days_before_year y < toordinal (of_ymd y m d) ≤ days_before_year (y + 1)
  ∧ valid_date (of_ymd y m d).
Proof.
  intros Hy Hm Hd. unfold of_ymd, valid_date, ymd2ord. simpl.
  pose proof (days_before_month_bounds y m Hm) as [Hlo Hhi].
  pose proof (days_before_year_next y) as Hnext.
  pose proof (days_before_year_mono 1 y ltac:(lia)) as Hmin.
  pose proof (days_before_year_mono (y + 1) 10000 ltac:(lia)) as Hmax.
  change (days_before_year 1) with 0 in Hmin.
  change (days_before_year 10000) with 3652059 in Hmax.
  unfold MAXORDINAL. lia.
Qed.

Lemma new_date_ok (y m d : Z) :
  1 ≤ y ≤ 9999 → 1 ≤ m ≤ 12 → 1 ≤ d ≤ days_in_month y m →
  new_date y m d = Ok (of_ymd y m d).
Proof.
  intros Hy Hm Hd. unfold new_date, fits_c_int.
  pose proof (days_in_month_range y m Hm) as Hdays.
  assert ((-2147483648 <=? y) && (y <=? 2147483647) = true) as -> by lia.
  assert ((-2147483648 <=? m) && (m <=? 2147483647) = true) as -> by lia.
  assert ((-2147483648 <=? d) && (d <=? 2147483647) = true) as -> by lia.
  cbn [andb negb].
  assert ((1 <=? y) && (y <=? 9999) = true) as -> by lia.
  assert ((1 <=? m) && (m <=? 12) = true) as -> by lia.
  assert ((1 <=? d) && (d <=? days_in_month y m) = true) as -> by lia.
  reflexivity.
Qed.

Lemma month_span_ok (y m : Z) :
  1 ≤ y ≤ 9999 → 1 ≤ m ≤ 12 →
  month_span y m = Ok (of_ymd y m 1, of_ymd y m (days_in_month y m)).
Proof.
  intros Hy Hm. unfold month_span, monthrange_days.
  assert ((1 <=? m) && (m <=? 12) = true) as -> by lia.
  pose proof (days_in_month_range y m Hm).
  cbn [negb rbind]. rewrite !new_date_ok by lia. reflexivity.
Qed.

(** X11: for a year in 1..9999 and a month in 1..12, [month_span] returns
    the first and the last day of that month: two valid dates of that
    year, the span between them counting the days of the month (28 to 31,
    29 for February exactly in leap years).  A month outside 1..12 is
    refused with a [ValueError] whatever the year; with a month in 1..12,
    a year outside 1..9999 is refused with a [ValueError] when it fits a
    C [int] and with an [OverflowError] when it does not. *)
Theorem X11_month_span (year month : Z) :
  (1 ≤ year ≤ 9999 → 1 ≤ month ≤ 12 →
   ∃ first_day last_day,
     month_span year month = Ok (first_day, last_day)
     ∧ first_day = of_ymd year month 1
     ∧ valid_date first_day ∧ valid_date last_day
     ∧ days_before_year year < toordinal first_day
     ∧ toordinal last_day ≤ days_before_year (year + 1)
     ∧ count_days first_day last_day = days_in_month year month
     ∧ 28 ≤ days_in_month year month ≤ 31
     ∧ (days_in_month year 2 = if is_leap year then 29 else 28))
  ∧ (¬ (1 ≤ month ≤ 12) → month_span year month = Raise ValueError)
  ∧ (1 ≤ month ≤ 12 → ¬ (1 ≤ year ≤ 9999) →
     month_span year month
     = Raise (if fits_c_int year then ValueError else OverflowError)).
Proof.
  split_and!.
  - intros Hy Hm. pose proof (days_in_month_range year month Hm) as Hdays.
    exists (of_ymd year month 1), (of_ymd year month (days_in_month year month)).
    destruct (of_ymd_valid year month 1 Hy Hm ltac:(lia)) as [Hfirst Hv1].
    destruct (of_ymd_valid year month (days_in_month year month) Hy Hm
                ltac:(lia)) as [Hlast Hv2].
    split_and!; try done; try lia;
      first [ by apply month_span_ok
            | unfold count_days, of_ymd, ymd2ord; simpl; lia
            | unfold days_in_month; by destruct (is_leap year) ].
  - intros Hbad. unfold month_span, monthrange_days.
    destruct (Z.leb_spec 1 month), (Z.leb_spec month 12);
      cbn [negb andb rbind]; try reflexivity.
    lia.
  - intros Hm Hbad. unfold month_span, monthrange_days, new_date.
    assert ((1 <=? month) && (month <=? 12) = true) as -> by lia.
    cbn [negb rbind].
    assert (fits_c_int month = true) as -> by (unfold fits_c_int; lia).
    assert (fits_c_int 1 = true) as -> by reflexivity.
    rewrite !andb_true_r.
    destruct (fits_c_int year); cbn [negb rbind]; [|reflexivity].
    destruct (Z.leb_spec 1 year), (Z.leb_spec year 9999);
      cbn [negb andb rbind]; try reflexivity.
    lia.
Qed.

Lemma X11_month_span_witness :
  (∃ first_day last_day,
     month_span 2024 2 = Ok (first_day, last_day)
     ∧ first_day = of_ymd 2024 2 1
     ∧ valid_date first_day ∧ valid_date last_day
     ∧ days_before_year 2024 < toordinal first_day
     ∧ toordinal last_day ≤ days_before_year (2024 + 1)
     ∧ count_days first_day last_day = days_in_month 2024 2
     ∧ 28 ≤ days_in_month 2024 2 ≤ 31
     ∧ (days_in_month 2024 2 = if is_leap 2024 then 29 else 28))
  ∧ month_span 2024 13 = Raise ValueError
  ∧ month_span 10000 2
    = Raise (if fits_c_int 10000 then ValueError else OverflowError)
  ∧ month_span 2147483648 2
    = Raise (if fits_c_int 2147483648 then ValueError else OverflowError).
Proof.
  split_and!.
  - apply (proj1 (X11_month_span 2024 2)); lia.
  - apply (proj1 (proj2 (X11_month_span 2024 13))); lia.
  - apply (proj2 (proj2 (X11_month_span 10000 2))); lia.
  - apply (proj2 (proj2 (X11_month_span 2147483648 2))); lia.
Defined.

(** X12: for a year in 1..9999, a start month in 1..12 and at least one
    month, [contiguous_months_span] returns the first day of the start
    month and the last day of the end month, the end month being capped at
    December: two valid dates of that year, start not after end, at most
    366 days apart, so the day count always fits the 16-bit header field. *)
Theorem X12_contiguous_months_span (year start_month months : Z) :
  1 ≤ year ≤ 9999 → 1 ≤ start_month ≤ 12 → 1 ≤ months →
  let end_month := Z.min 12 (start_month + months - 1) in
  ∃ first_day last_day,
    contiguous_months_span year start_month months = Ok (first_day, last_day)
    ∧ first_day = of_ymd year start_month 1
    ∧ last_day = of_ymd year end_month (days_in_month year end_month)
    ∧ valid_date first_day ∧ valid_date last_day
    ∧ days_before_year year < toordinal first_day
    ∧ toordinal first_day ≤ toordinal last_day
    ∧ toordinal last_day ≤ days_before_year (year + 1)
    ∧ 28 ≤ count_days first_day last_day ≤ 366.
Proof.
  intros Hy Hsm Hn end_month.
  assert (1 ≤ end_month ≤ 12 ∧ start_month ≤ end_month) as [Hem Hle]
    by (unfold end_month; lia).
  exists (of_ymd year start_month 1),
    (of_ymd year end_month (days_in_month year end_month)).
  pose proof (days_in_month_range year end_month Hem) as Hdays.
  destruct (of_ymd_valid year start_month 1 Hy Hsm
              ltac:(pose proof (days_in_month_range year start_month Hsm); lia))
    as [Hfirst Hv1].
  destruct (of_ymd_valid year end_month (days_in_month year end_month) Hy Hem
              ltac:(lia)) as [Hlast Hv2].
  pose proof (days_before_month_mono year start_month end_month
                ltac:(lia) ltac:(lia)) as Hmono.
  pose proof (days_before_month_bounds year start_month Hsm) as [Hlo _].
  pose proof (days_before_month_bounds year end_month Hem) as [_ Hhi].
  assert (toordinal (of_ymd year end_month (days_in_month year end_month))
          - toordinal (of_ymd year start_month 1)
          = days_before_month year end_month + days_in_month year end_month
            - days_before_month year start_month - 1) as Hdiff
    by (unfold of_ymd, ymd2ord; simpl; lia).
  split_and!; try done; try lia;
    first [ unfold contiguous_months_span; fold end_month;
            rewrite !month_span_ok by done; reflexivity
          | unfold count_days; destruct (is_leap year); lia ].
Qed.

Lemma X12_contiguous_months_span_witness :
  ∃ first_day last_day,
    contiguous_months_span 2025 11 6 = Ok (first_day, last_day)
    ∧ first_day = of_ymd 2025 11 1
    ∧ last_day = of_ymd 2025 (Z.min 12 (11 + 6 - 1))
                   (days_in_month 2025 (Z.min 12 (11 + 6 - 1)))
    ∧ valid_date first_day ∧ valid_date last_day
    ∧ days_before_year 2025 < toordinal first_day
    ∧ toordinal first_day ≤ toordinal last_day
    ∧ toordinal last_day ≤ days_before_year (2025 + 1)
    ∧ 28 ≤ count_days first_day last_day ≤ 366.
Proof. apply (X12_contiguous_months_span 2025 11 6); lia. Defined.

(** ** Fields of a valid date *)

(** Year, month and day of a valid date are what a calendar shows. *)
Lemma ord2ymd_ranges (n : Z) :
  1 ≤ n ≤ MAXORDINAL →
  1 ≤ (ord2ymd n).1.1 ≤ 9999
  ∧ 1 ≤ (ord2ymd n).1.2 ≤ 12
  ∧ 1 ≤ (ord2ymd n).2 ≤ 31.
Proof.
  unfold MAXORDINAL, ord2ymd. intros Hn.
  set (n0 := n - 1).
  pose proof (Z.div_mod n0 146097 ltac:(lia)) as E1.
  pose proof (Z.mod_pos_bound n0 146097 ltac:(lia)) as B1.
  set (n400 := n0 / 146097) in *. set (r1 := n0 mod 146097) in *.
  pose proof (Z.div_mod r1 36524 ltac:(lia)) as E2.
  pose proof (Z.mod_pos_bound r1 36524 ltac:(lia)) as B2.
  set (n100 := r1 / 36524) in *. set (r2 := r1 mod 36524) in *.
  pose proof (Z.div_mod r2 1461 ltac:(lia)) as E3.
  pose proof (Z.mod_pos_bound r2 1461 ltac:(lia)) as B3.
  set (n4 := r2 / 1461) in *. set (r3 := r2 mod 1461) in *.
  pose proof (Z.div_mod r3 365 ltac:(lia)) as E4.
  pose proof (Z.mod_pos_bound r3 365 ltac:(lia)) as B4.
  set (n1 := r3 / 365) in *. set (r4 := r3 mod 365) in *.
  assert (0 ≤ n400 ∧ 0 ≤ n100 ∧ 0 ≤ n4 ∧ 0 ≤ n1) as (P1 & P2 & P3 & P4).
  { unfold n400, n100, n4, n1. split_and!; apply Z.div_pos; lia. }
  assert (n400 * 400 + 1 + n100 * 100 + n4 * 4 + n1 ≤ 9999) as Hyear
    by (unfold n0 in E1; lia).
  destruct ((n1 =? 4) || (n100 =? 4)) eqn:Hspecial.
  { cbn [fst snd]. apply orb_true_iff in Hspecial.
    rewrite !Z.eqb_eq in Hspecial. lia. }
  apply orb_false_iff in Hspecial as [N1 N100].
  apply Z.eqb_neq in N1, N100.
  rewrite Z.shiftr_div_pow2 by lia. change (2 ^ 5) with 32.
  pose proof (Z.div_mod (r4 + 50) 32 ltac:(lia)) as E5.
  pose proof (Z.mod_pos_bound (r4 + 50) 32 ltac:(lia)) as B5.
  set (mo := (r4 + 50) / 32) in *.
  generalize ((n1 =? 3) && (negb (n4 =? 24) || (n100 =? 3))). intros leap.
  assert (1 ≤ mo ≤ 12) as Hmo by lia.
  assert (n0 = n - 1) as E0 by reflexivity.
  clearbody n0 n400 r1 n100 r2 n4 r3 n1 r4 mo.
  assert (mo = 1 ∨ mo = 2 ∨ mo = 3 ∨ mo = 4 ∨ mo = 5 ∨ mo = 6
          ∨ mo = 7 ∨ mo = 8 ∨ mo = 9 ∨ mo = 10 ∨ mo = 11 ∨ mo = 12)
    as Hcases by lia.
  destruct Hcases as [M|[M|[M|[M|[M|[M|[M|[M|[M|[M|[M|M]]]]]]]]]]];
    rewrite M in *; destruct leap; simpl;
    match goal with
    | |- context [?a <? ?b] => destruct (Z.ltb_spec a b)
    end; simpl; lia.
Qed.

(** ** When the binary writer succeeds *)

Lemma adj_ok (dt : datetime) (mins : Z) :
  usable_time dt → -1440 ≤ mins ≤ 1440 → ∃ dt', adj dt mins = Ok dt'.
Proof.
  unfold usable_time, wellformed_time, adj, timedelta_minutes, datetime_add,
    rbind, MAXORDINAL.
  intros ((Hh & Hm & Hs & Hu) & Hd) Hmins.
  pose proof (Z.div_mod (mins * 60) 86400 ltac:(lia)) as E1.
  pose proof (Z.mod_pos_bound (mins * 60) 86400 ltac:(lia)) as B1.
  set (q := (mins * 60) / 86400) in *.
  set (r := (mins * 60) mod 86400) in *.
  assert ((Z.abs q <=? 999999999) = true) as -> by lia.
  cbn [td_days td_seconds td_microseconds].
  rewrite Z.add_0_r, (Z.div_small (microsecond dt)) by lia.
  rewrite Z.add_0_r.
  set (s := hour dt * 3600 + minute dt * 60 + second dt + r).
  pose proof (Z.div_mod s 86400 ltac:(lia)) as E2.
  pose proof (Z.mod_pos_bound s 86400 ltac:(lia)) as B2.
  set (q2 := s / 86400) in *. set (r2 := s mod 86400) in *.
  assert (s = hour dt * 3600 + minute dt * 60 + second dt + r) as Es
    by reflexivity.
  clearbody s q2 r2 q r.
  assert ((0 <? toordinal (dt_date dt) + q + q2)
          && (toordinal (dt_date dt) + q + q2 <=? 3652059) = true) as ->
    by lia.
  by eexists.
Qed.

Ltac in_list := solve [repeat (first [left | right])].

Lemma minutes_row_ok (offsets : gmap string Z) (pt : prayer_times) :
  day_offsets offsets → usable_times pt →
  ∃ row, minutes_row offsets pt = Ok row.
Proof.
  intros Hoffs (Hf & Hd & Ha & Hm & Hi). unfold minutes_row, getitem.
  destruct (Hoffs "Fajr") as (o1 & -> & Ho1); [in_list|].
  cbn [rbind]. destruct (adj_ok (fajr pt) o1) as [? ->]; [done|lia|].
  destruct (Hoffs "Dhuhr") as (o2 & -> & Ho2); [in_list|].
  cbn [rbind]. destruct (adj_ok (dhuhr pt) o2) as [? ->]; [done|lia|].
  destruct (Hoffs "Asr") as (o3 & -> & Ho3); [in_list|].
  cbn [rbind]. destruct (adj_ok (asr pt) o3) as [? ->]; [done|lia|].
  destruct (Hoffs "Maghrib") as (o4 & -> & Ho4); [in_list|].
  cbn [rbind]. destruct (adj_ok (maghrib pt) o4) as [? ->]; [done|lia|].
  destruct (Hoffs "Isha") as (o5 & -> & Ho5); [in_list|].
  cbn [rbind]. destruct (adj_ok (isha pt) o5) as [? ->]; [done|lia|].
  cbn [rbind]. by eexists.
Qed.

Section Success.

Context {float tzinfo : Type}.
Variable ZoneInfo : string → result tzinfo.
Variable PrayerTimes :
  float * float → datetime → CalculationMethod → tzinfo → result prayer_times.

Lemma table_loop_ok lat lon tz m offsets ds acc w :
  day_offsets offsets →
  (∀ d, d ∈ ds →
     ∃ pt, PrayerTimes (lat, lon) (midnight d) m tz = Ok pt ∧ usable_times pt) →
  ∃ rows w', table_loop PrayerTimes lat lon tz m offsets ds acc w = (Ok rows, w').
Proof.
  intros Hoffs. revert acc w.
  induction ds as [|d ds IH]; intros acc w Horacle.
  - by eexists _, _.
  - simpl. unfold bind, call_oracle, lift.
    destruct (Horacle d) as (pt & -> & Hpt); [left|].
    destruct (minutes_row_ok offsets pt Hoffs Hpt) as [row ->].
    apply IH. intros d' Hd'. apply Horacle. by right.
Qed.

Lemma compute_minutes_table_succeeds
    start end_ lat lon tzname key offsets w tz m :
  valid_date start → toordinal end_ < MAXORDINAL →
  ZoneInfo tzname = Ok tz → METHOD_MAP !! key = Some m →
  day_offsets offsets →
  (∀ d, toordinal start ≤ toordinal d ≤ toordinal end_ →
     ∃ pt, PrayerTimes (lat, lon) (midnight d) m tz = Ok pt ∧ usable_times pt) →
  ∃ rows w',
    compute_minutes_table ZoneInfo PrayerTimes start end_ lat lon tzname key
      offsets w = (Ok rows, w').
Proof.
  intros [Hs _] He Hz Hm Hoffs Horacle.
  unfold compute_minutes_table, bind, lift, ret, getitem.
  rewrite Hz, Hm.
  assert (daterange start end_
          = (Date <$> seqZ (toordinal start)
                        (toordinal end_ - toordinal start + 1), None))
    as -> by (apply daterange_loop_span; [lia|done..]).
  destruct (table_loop_ok lat lon tz m offsets
              (Date <$> seqZ (toordinal start)
                          (toordinal end_ - toordinal start + 1)) [] w Hoffs)
    as (rows & w' & ->).
  - intros d Hd. apply Horacle.
    apply list_elem_of_fmap in Hd as (o & -> & Ho).
    apply elem_of_seqZ in Ho. simpl. lia.
  - by eexists _, _.
Qed.

End Success.

Lemma pack_uint_in_range (n : nat) (v : Z) :
  0 ≤ v < 2 ^ (8 * Z.of_nat n) →
  Struct.pack_uint n v = Ok (Struct.le_bytes n v).
Proof.
  intros Hv. unfold Struct.pack_uint.
  destruct (Z.leb_spec 0 v), (Z.ltb_spec v (2 ^ (8 * Z.of_nat n)));
    try lia. reflexivity.
Qed.

Lemma pack_all_in_range (vs : list Z) :
  Forall is_u16 vs → Struct.pack_all 2 vs = Ok (row_bytes vs).
Proof.
  induction 1 as [|v vs Hv Hvs IH]; [reflexivity|].
  cbn [Struct.pack_all]. rewrite pack_uint_in_range by exact Hv.
  cbn [rbind]. rewrite IH. reflexivity.
Qed.

Lemma pack_5H_in_range (vs : list Z) :
  length vs = 5%nat → Forall is_u16 vs →
  Struct.pack_5H vs = Ok (row_bytes vs).
Proof.
  intros Hlen Hvs. unfold Struct.pack_5H. rewrite Hlen.
  by apply pack_all_in_range.
Qed.

Lemma extend_rows_in_range (buf : list Z) (rows : list (list Z)) :
  Forall is_row rows →
  extend_rows buf rows = Ok (buf ++ concat (row_bytes <$> rows)).
Proof.
  intros Hrows. revert buf.
  induction Hrows as [|t rows Ht Hrows IH]; intros buf.
  - simpl. by rewrite app_nil_r.
  - cbn [extend_rows]. unfold extend at 1.
    rewrite pack_5H_in_range.
    + cbn [rbind]. rewrite IH, fmap_cons. cbn [concat].
      by rewrite <- app_assoc.
    + by apply row_length.
    + eapply Forall_impl; [by apply row_in_day|].
      unfold in_day, is_u16. intros v. simpl. lia.
Qed.

Lemma encode_ascii_length_17 (rtc : string) (bs : list Z) :
  Py.encode_ascii rtc = Ok bs → String.length rtc = 17%nat →
  (length bs =? 17)%nat = true.
Proof.
  intros Hbs Hlen. apply encode_ascii_ok in Hbs as [-> _].
  by rewrite Hlen.
Qed.

Lemma land_u32_range (c : Z) : 0 ≤ Z.land c 0xFFFFFFFF < 2 ^ (8 * Z.of_nat 4).
Proof.
  change 0xFFFFFFFF with (Z.ones 32). rewrite Z.land_ones by lia.
  apply Z.mod_pos_bound. lia.
Qed.

Ltac pack_range :=
  first [ apply land_u32_range
        | change (2 ^ (8 * Z.of_nat 1)) with 256; first [lia | apply land_byte]
        | change (2 ^ (8 * Z.of_nat 2)) with 65536; lia
        | change (2 ^ (8 * Z.of_nat 4)) with 4294967296; lia ].

Section WriterSuccess.

Context {float tzinfo : Type}.
Variable ZoneInfo : string → result tzinfo.
Variable PrayerTimes :
  float * float → datetime → CalculationMethod → tzinfo → result prayer_times.

(** X13: none of the binary writer's own steps fails (time zone, method
    name, date arithmetic, oracle, packing, the RTC length check, the
    header assertion) whenever the span starts on a valid date, does not
    end after 9999-12-30 and has at most 65535 days, the time zone and the
    method name are known, the offsets hold one value per prayer of at
    most a day, the oracle answers for every date of the span with
    well-formed times not on the first or last day of the calendar, the
    RTC string is 17 ASCII characters, and the five durations fit 16 bits.
    The run then comes down to the [open] and [write] of lines 231-232, on
    an image of 64 + 10 D + 4 bytes, no file having been touched before;
    whether the operating system lets the file be written is not part of
    the statement. *)
Theorem X13_write_pray2_bin_reaches_the_write
    path start end_ lat lon tzname key offsets default_on rtc flags w
    tz m rtc_bytes :
  valid_date start → toordinal start ≤ toordinal end_ →
  toordinal end_ < MAXORDINAL → count_days start end_ ≤ 65535 →
  ZoneInfo tzname = Ok tz → METHOD_MAP !! key = Some m →
  day_offsets offsets →
  (∀ d, toordinal start ≤ toordinal d ≤ toordinal end_ →
     ∃ pt, PrayerTimes (lat, lon) (midnight d) m tz = Ok pt ∧ usable_times pt) →
  Py.encode_ascii rtc = Ok rtc_bytes → String.length rtc = 17%nat →
  length default_on = 5%nat → Forall is_u16 default_on →
  ∃ buf w1,
    write_pray2_bin ZoneInfo PrayerTimes path start end_ lat lon tzname key
      offsets default_on rtc flags w = write_file path buf w1
    ∧ files w1 = files w
    ∧ Z.of_nat (length buf) = 64 + 10 * count_days start end_ + 4.
Proof.
  intros Hstart Hspan Hend Hcount Hz Hm Hoffs Horacle Hrtc Hrtclen Hdlen Hdur.
  destruct (compute_minutes_table_succeeds ZoneInfo PrayerTimes start end_
              lat lon tzname key offsets w tz m Hstart Hend Hz Hm Hoffs Horacle)
    as (rows & w1 & Htab).
  pose proof (compute_minutes_table_ok _ _ _ _ _ _ _ _ _ _ _ _ Htab)
    as (_ & Hdays & Hrows).
  pose proof (compute_minutes_table_world _ _ _ _ _ _ _ _ _ _ _ _ Htab)
    as (Hfiles & _).
  destruct (method_map_code key m Hm) as (code & Hcode & Hcoderange).
  pose proof (ord2ymd_ranges (toordinal start) Hstart) as (Hy & Hmo & Hda).
  fold (year start) in Hy. fold (month start) in Hmo. fold (day start) in Hda.
  assert (∃ buf, write_pray2_bin ZoneInfo PrayerTimes path start end_ lat lon
                   tzname key offsets default_on rtc flags w
                 = (Ok tt, {| files := <[path := buf]> (files w1);
                              oracle_calls := oracle_calls w1;
                              clock := clock w1 |})) as [buf Hrun].
  { unfold write_pray2_bin, bind, lift, getitem. rewrite Htab, Hcode, Hrtc.
    rewrite (encode_ascii_length_17 rtc rtc_bytes Hrtc Hrtclen).
    cbn [negb]. unfold extend, Struct.pack_B, Struct.pack_H, Struct.pack_I.
    repeat (rewrite pack_uint_in_range by pack_range; cbn [rbind]).
    rewrite pack_5H_in_range by done. cbn [rbind].
    repeat (rewrite pack_uint_in_range by pack_range; cbn [rbind]).
    rewrite app_nil_l, <- !app_assoc.
    fold (pray2_header (year start) (Z.of_nat (length rows)) (month start)
            (day start) flags code rtc_bytes default_on).
    rewrite pray2_header_length;
      [|by apply encode_ascii_ok in Hrtc as [-> _]|done].
    change (64 =? Z.to_nat 64)%nat with true. cbn [negb].
    rewrite extend_rows_in_range by done. cbn [rbind].
    rewrite pack_uint_in_range by pack_range. cbn [rbind].
    unfold write_file. by eexists. }
  exists buf, w1. split; [exact Hrun|]. split; [exact Hfiles|].
  destruct (image_length _ _ _ _ _ _ _ _ _ _ _ _ _ _ _ Hrun Hspan)
    as (buf' & Hbuf' & Hlen).
  simpl in Hbuf'. rewrite lookup_insert_eq in Hbuf'. by injection Hbuf' as <-.
Qed.

End WriterSuccess.

Lemma X13_write_pray2_bin_reaches_the_write_witness :
  ∃ buf w1,
    write_pray2_bin Fixture.zoneinfo Fixture.oracle "out.bin" Fixture.aug28
      Fixture.aug29 tt tt "Asia/Karachi" "KARACHI" Fixture.no_offsets
      Fixture.durations Fixture.rtc FLAG_RTC_ONE_SHOT Fixture.world1
    = write_file "out.bin" buf w1
    ∧ files w1 = files Fixture.world1
    ∧ Z.of_nat (length buf)
      = 64 + 10 * count_days Fixture.aug28 Fixture.aug29 + 4.
Proof.
  apply (X13_write_pray2_bin_reaches_the_write Fixture.zoneinfo Fixture.oracle
           "out.bin" Fixture.aug28 Fixture.aug29 tt tt "Asia/Karachi"
           "KARACHI" Fixture.no_offsets Fixture.durations Fixture.rtc
           FLAG_RTC_ONE_SHOT Fixture.world1 tt KARACHI
           [48; 55; 58; 49; 53; 58; 48; 48; 124; 48; 49; 47; 48; 49; 47; 50; 53]).
  - vm_compute. split; discriminate.
  - vm_compute. discriminate.
  - vm_compute. reflexivity.
  - vm_compute. discriminate.
  - reflexivity.
  - vm_compute. reflexivity.
  - intros p Hp. unfold PRAYERS in Hp.
    repeat (apply elem_of_cons in Hp as [->|Hp];
            [exists 0; split; [vm_compute; reflexivity|lia]|]).
    by apply elem_of_nil in Hp.
  - intros [o] Ho. eexists. split; [reflexivity|].
    assert (o = 739491 ∨ o = 739492) as [->| ->]
      by (change (toordinal Fixture.aug28) with 739491 in Ho;
          change (toordinal Fixture.aug29) with 739492 in Ho;
          simpl in Ho; lia);
      vm_compute; repeat split; discriminate.
  - vm_compute. reflexivity.
  - reflexivity.
  - reflexivity.
  - repeat constructor; vm_compute; discriminate.
Defined.

(** ** The prompts (lines 59-146) *)

Lemma str_limited_printable (v : Z) :
  printable v → str_limited v = Some (str_int v).
Proof.
  unfold printable, str_limited. intros Hv.
  by destruct (Z.ltb_spec (Z.abs v) MAX_STR_DIGITS_BOUND); [|lia].
Qed.

Lemma str_limited_unprintable (v : Z) :
  ¬ printable v → str_limited v = None.
Proof.
  unfold printable, str_limited. intros Hv.
  by destruct (Z.ltb_spec (Z.abs v) MAX_STR_DIGITS_BOUND); [lia|].
Qed.

Lemma ask_int_loop_unprintable p lo hi lines out :
  ¬ (printable lo ∧ printable hi) →
  ask_int_loop p lo hi lines out
  = (Hangs, {| Console.stdin := lines; Console.stdout := out |}).
Proof.
  intros Hbad.
  assert (str_limited lo = None ∨ str_limited hi = None) as Hnone.
  { destruct (Z.lt_ge_cases (Z.abs lo) MAX_STR_DIGITS_BOUND) as [Hlo|Hlo];
      [|left; apply str_limited_unprintable; unfold printable; lia].
    destruct (Z.lt_ge_cases (Z.abs hi) MAX_STR_DIGITS_BOUND) as [Hhi|Hhi];
      [|right; apply str_limited_unprintable; unfold printable; lia].
    by destruct Hbad. }
  destruct lines; cbn [ask_int_loop];
    destruct Hnone as [-> | ->]; try reflexivity;
    by destruct (str_limited lo).
Qed.

Lemma ask_int_loop_spec p lo hi lines out r c' :
  printable lo → printable hi →
  ask_int_loop p lo hi lines out = (r, c') →
  match r with
  | Returned v =>
      lo ≤ v ≤ hi
      ∧ ∃ skipped line,
          lines = skipped ++ line :: Console.stdin c'
          ∧ Console.int (Py.strip line) = Some v
          ∧ Forall (rejected lo hi) skipped
  | Raised _ => False
  | Hangs => Forall (rejected lo hi) lines ∧ Console.stdin c' = []
  end.
Proof.
  intros Hlo Hhi.
  apply str_limited_printable in Hlo. apply str_limited_printable in Hhi.
  revert out. induction lines as [|line rest IH]; intros out Hrun.
  - cbn [ask_int_loop] in Hrun. rewrite Hlo, Hhi in Hrun.
    injection Hrun as <- <-. by split.
  - cbn [ask_int_loop] in Hrun. rewrite Hlo, Hhi in Hrun.
    cbv beta iota zeta in Hrun.
    destruct (Console.int (Py.strip line)) as [v|] eqn:Hint.
    + destruct (Z.leb_spec lo v), (Z.leb_spec v hi); cbn [andb] in Hrun;
        try (apply IH in Hrun; destruct r as [v'| |];
             [destruct Hrun as (Hv' & skipped & line' & -> & Hline' & Hskip);
              split; [done|];
              exists (line :: skipped), line'; split_and!; try done;
              constructor; [|done];
              intros v0 Hv0; rewrite Hint in Hv0; injection Hv0 as <-; lia
             |done
             |destruct Hrun as [Hall Hnil]; split; [|done];
              constructor; [|done];
              intros v0 Hv0; rewrite Hint in Hv0; injection Hv0 as <-; lia]).
      injection Hrun as <- <-. split; [lia|].
      exists [], line. by split_and!.
    + apply IH in Hrun. destruct r as [v'| |].
      * destruct Hrun as (Hv' & skipped & line' & -> & Hline' & Hskip).
        split; [done|]. exists (line :: skipped), line'. split_and!; try done.
        constructor; [|done]. intros v0 Hv0. by rewrite Hint in Hv0.
      * done.
      * destruct Hrun as [Hall Hnil]. split; [|done].
        constructor; [|done]. intros v0 Hv0. by rewrite Hint in Hv0.
Qed.

(** X14: [ask_int] never raises, not even at the end of the input.  When
    both bounds can be printed (fewer than 4301 digits), it returns the
    value of the first line that reads as an integer within [lo, hi],
    having consumed the lines up to it, and it loops for ever exactly when
    no remaining line is such an integer.  When a bound cannot be printed
    the prompt cannot be formatted: the call loops for ever without
    reading a line. *)
Theorem X14_ask_int (p : string) (lo hi : Z) (c : console) r c' :
  ask_int p lo hi c = (r, c') →
  match r with
  | Returned v =>
      printable lo ∧ printable hi ∧ lo ≤ v ≤ hi
      ∧ ∃ skipped line,
          Console.stdin c = skipped ++ line :: Console.stdin c'
          ∧ Console.int (Py.strip line) = Some v
          ∧ Forall (rejected lo hi) skipped
  | Raised _ => False
  | Hangs =>
      (¬ (printable lo ∧ printable hi) ∧ Console.stdin c' = Console.stdin c)
      ∨ (printable lo ∧ printable hi
         ∧ Forall (rejected lo hi) (Console.stdin c))
  end.
Proof.
  unfold ask_int. intros Hrun.
  destruct (Z.lt_ge_cases (Z.abs lo) Console.MAX_STR_DIGITS_BOUND) as [Hlo|Hlo];
    [destruct (Z.lt_ge_cases (Z.abs hi) Console.MAX_STR_DIGITS_BOUND)
       as [Hhi|Hhi]|].
  - apply ask_int_loop_spec in Hrun; [|done|done].
    destruct r; [|done|].
    + destruct Hrun as [Hv Hlines]. split; [done|]. split; [done|]. by split.
    + right. destruct Hrun as [Hall _]. split; [done|]. by split.
  - rewrite ask_int_loop_unprintable in Hrun
      by (unfold printable; intros [_ ?]; lia).
    injection Hrun as <- <-. left. split; [|done].
    unfold printable. intros [_ ?]. lia.
  - rewrite ask_int_loop_unprintable in Hrun
      by (unfold printable; intros [? _]; lia).
    injection Hrun as <- <-. left. split; [|done].
    unfold printable. intros [? _]. lia.
Qed.

Lemma X14_ask_int_witness :
  printable 1 ∧ printable 12 ∧ 1 ≤ 12 ≤ 12
  ∧ ∃ skipped line,
      ["0"; "thirteen"; " 12 "; "5"] = skipped ++ line :: ["5"]
      ∧ Console.int (Py.strip line) = Some 12
      ∧ Forall (rejected 1 12) skipped.
Proof.
  apply (X14_ask_int "Month number" 1 12
           {| Console.stdin := ["0"; "thirteen"; " 12 "; "5"];
              Console.stdout := [] |}
           (Returned 12)
           (ask_int "Month number" 1 12
              {| Console.stdin := ["0"; "thirteen"; " 12 "; "5"];
                 Console.stdout := [] |}).2).
  vm_compute. reflexivity.
Defined.

Lemma print_methods_returns (i : Z) (ms : list (string * string)) (c : console) :
  ∃ c2, print_methods i ms c = (Returned tt, c2)
        ∧ Console.stdin c2 = Console.stdin c.
Proof.
  revert i c. induction ms as [|[k desc] ms IH]; intros i c.
  - by exists c.
  - cbn [print_methods]. unfold tbind, print. cbv beta iota.
    destruct (IH (i + 1) (wrote c (Printed
                ("  " ++ str_int i ++ ") " ++ ljust 22 k ++ " – " ++ desc)%string)))
      as (c2 & -> & Hin).
    by exists c2.
Qed.

(** X15: [choose_method] never raises; what it returns is a name the
    table builder and the code table both know, with a code between 1 and
    6, so neither dictionary lookup of the binary writer can fail on it; it
    hangs exactly when no remaining line is an integer within 1..6. *)
Theorem X15_choose_method (c : console) r c' :
  choose_method c = (r, c') →
  match r with
  | Returned key =>
      is_Some (METHOD_MAP !! key)
      ∧ ∃ code, METHOD_CODE !! key = Some code ∧ 1 ≤ code ≤ 6
  | Raised _ => False
  | Hangs => Forall (rejected 1 6) (Console.stdin c)
  end.
Proof.
  unfold choose_method, tbind, print. cbv beta iota. intros Hrun.
  destruct (print_methods_returns 1 METHODS
              (wrote c (Printed (newline ++ "Calculation method:")%string)))
    as (c2 & Hprint & Hin).
  rewrite Hprint in Hrun. cbv beta iota in Hrun.
  destruct (ask_int "Choose method" 1 (Z.of_nat (length METHODS)) c2)
    as [r1 c3] eqn:Hask.
  unfold ask_int in Hask.
  apply ask_int_loop_spec in Hask; [|by vm_compute..].
  simpl in Hin. rewrite Hin in Hask.
  change (Z.of_nat (length METHODS)) with 6 in Hask.
  destruct r1 as [idx| |].
  - destruct Hask as [Hidx _].
    assert (idx = 1 ∨ idx = 2 ∨ idx = 3 ∨ idx = 4 ∨ idx = 5 ∨ idx = 6)
      as Hcases by lia.
    destruct Hcases as [->|[->|[->|[->|[->| ->]]]]];
      vm_compute in Hrun; injection Hrun as <- <-;
      (split; [by eexists|eexists; split; [vm_compute; reflexivity|lia]]).
  - done.
  - injection Hrun as <- <-. by destruct Hask.
Qed.

Lemma X15_choose_method_witness :
  is_Some (METHOD_MAP !! "UMM_AL_QURA")
  ∧ ∃ code, METHOD_CODE !! "UMM_AL_QURA" = Some code ∧ 1 ≤ code ≤ 6.
Proof.
  apply (X15_choose_method
           {| Console.stdin := ["7"; "5"]; Console.stdout := [] |}
           (Returned "UMM_AL_QURA")
           (choose_method
              {| Console.stdin := ["7"; "5"]; Console.stdout := [] |}).2).
  vm_compute. reflexivity.
Defined.

Lemma get_duration_spec (default : Z) (out : list Z) (p : string)
    (c : console) r c' :
  is_duration default →
  get_duration default out p c = (r, c') →
  match Console.stdin c with
  | [] => r = Raised EOFError ∧ Console.stdin c' = []
  | line :: rest =>
      ∃ v, r = Returned (out ++ [v]) ∧ is_duration v
           ∧ Console.stdin c' = rest
  end.
Proof.
  unfold is_duration, get_duration, tbind, input, print, tret. intros Hd Hrun.
  destruct c as [[|line rest] out0]; cbn [Console.stdin Console.stdout] in *.
  - by injection Hrun as <- <-.
  - cbv beta iota zeta in Hrun.
    destruct (String.eqb (Py.strip line) "").
    + injection Hrun as <- <-. by exists default.
    + destruct (Console.int (Py.strip line)) as [v|].
      * destruct (Z.ltb_spec v 0), (Z.ltb_spec 36000 v); cbn [orb] in Hrun;
          injection Hrun as <- <-;
          first [ by exists default | exists v; split_and!; try done; lia ].
      * injection Hrun as <- <-. by exists default.
Qed.

Lemma get_durations_loop_spec (ps : list string) (defaults : list Z) (i : Z)
    (out : list Z) (c : console) r c' :
  (∀ k : nat, (k < length ps)%nat →
     ∃ d, Console.index defaults (i + Z.of_nat k) = Returned d ∧ is_duration d) →
  get_durations_loop ps defaults i out c = (r, c') →
  match r with
  | Returned ds =>
      ∃ new, ds = out ++ new ∧ length new = length ps
             ∧ Forall is_duration new
             ∧ Console.stdin c = take (length ps) (Console.stdin c) ++ Console.stdin c'
             ∧ (length ps ≤ length (Console.stdin c))%nat
  | Raised e => e = EOFError ∧ (length (Console.stdin c) < length ps)%nat
  | Hangs => False
  end.
Proof.
  revert i out c. induction ps as [|p ps IH]; intros i out c Hdef Hrun.
  - injection Hrun as <- <-. exists []. rewrite app_nil_r. simpl.
    split_and!; try done. lia.
  - cbn [get_durations_loop] in Hrun. unfold tbind at 1 in Hrun.
    destruct (Hdef 0%nat ltac:(simpl; lia)) as (d & Hd & Hdur).
    rewrite Z.add_0_r in Hd. rewrite Hd in Hrun. cbv beta iota in Hrun.
    unfold tbind at 1 in Hrun.
    destruct (get_duration d out p c) as [r1 c1] eqn:Hstep.
    apply (get_duration_spec d out p c r1 c1 Hdur) in Hstep.
    destruct (Console.stdin c) as [|line rest] eqn:Hin.
    + destruct Hstep as [-> _]. injection Hrun as <- <-. split; [done|].
      simpl. lia.
    + destruct Hstep as (v & -> & Hv & Hrest).
      apply IH in Hrun.
      2:{ intros k Hk. destruct (Hdef (S k) ltac:(simpl; lia)) as (d' & Hd' & ?).
          exists d'. split; [|done]. rewrite <- Hd'. f_equal. lia. }
      rewrite Hrest in Hrun. destruct r as [ds|e|];
        [|destruct Hrun; split; [done|simpl; lia]|done].
      destruct Hrun as (new & -> & Hlen & Hall & Hsplit & Hle).
      exists (v :: new). rewrite <- app_assoc. simpl.
      split_and!; try done; try lia.
      * by constructor.
      * by rewrite <- Hsplit.
Qed.

(** X16: with at least five lines to read, [get_default_durations]
    consumes exactly five and returns exactly five durations, each within
    0..36000, so that packing them into the header cannot fail; with fewer
    lines it raises [EOFError]; it never hangs. *)
Theorem X16_get_default_durations (c : console) r c' :
  get_default_durations c = (r, c') →
  match r with
  | Returned ds =>
      length ds = 5%nat ∧ Forall is_duration ds
      ∧ Console.stdin c = take 5 (Console.stdin c) ++ Console.stdin c'
      ∧ (5 ≤ length (Console.stdin c))%nat
      ∧ Struct.pack_5H ds = Ok (row_bytes ds)
  | Raised e => e = EOFError ∧ (length (Console.stdin c) < 5)%nat
  | Hangs => False
  end.
Proof.
  unfold get_default_durations, tbind, print. cbv beta iota. intros Hrun.
  apply get_durations_loop_spec in Hrun.
  - destruct r as [ds|e|]; [|done|done].
    destruct Hrun as (new & -> & Hlen & Hall & Hsplit & Hle).
    simpl in *. split_and!; try done.
    apply pack_5H_in_range; [done|].
    eapply Forall_impl; [exact Hall|].
    unfold is_duration, is_u16. intros v. simpl. lia.
  - intros k Hk. unfold PRAYERS in Hk. simpl in Hk.
    assert (k = 0 ∨ k = 1 ∨ k = 2 ∨ k = 3 ∨ k = 4)%nat
      as [->|[->|[->|[->| ->]]]] by lia;
      eexists; (split; [vm_compute; reflexivity|unfold is_duration; lia]).
Qed.

Lemma X16_get_default_durations_witness :
  length [60; 30; 45; 45; 36000] = 5%nat
  ∧ Forall is_duration [60; 30; 45; 45; 36000]
  ∧ [""; "30"; "-1"; "x"; "36000"; "rest"]
    = take 5 [""; "30"; "-1"; "x"; "36000"; "rest"] ++ ["rest"]
  ∧ (5 ≤ length [""; "30"; "-1"; "x"; "36000"; "rest"])%nat
  ∧ Struct.pack_5H [60; 30; 45; 45; 36000]
    = Ok (row_bytes [60; 30; 45; 45; 36000]).
Proof.
  apply (X16_get_default_durations
           {| Console.stdin := [""; "30"; "-1"; "x"; "36000"; "rest"];
              Console.stdout := [] |}
           (Returned [60; 30; 45; 45; 36000])
           (get_default_durations
              {| Console.stdin := [""; "30"; "-1"; "x"; "36000"; "rest"];
                 Console.stdout := [] |}).2).
  vm_compute. reflexivity.
Defined.

Lemma get_offset_spec (offs : gmap string Z) (p : string) (c : console) r c' :
  get_offset offs p c = (r, c') →
  match Console.stdin c with
  | [] => r = Raised EOFError ∧ Console.stdin c' = []
  | line :: rest =>
      r = Returned (<[p := offset_of_line line]> offs)
      ∧ Console.stdin c' = rest
  end.
Proof.
  unfold get_offset, offset_of_line, tbind, input, print, tret. intros Hrun.
  destruct c as [[|line rest] out0]; cbn [Console.stdin Console.stdout] in *.
  - by injection Hrun as <- <-.
  - cbv beta iota zeta in Hrun.
    destruct (String.eqb_spec (Py.strip line) "") as [->|_].
    + by injection Hrun as <- <-.
    + destruct (Console.int (Py.strip line)) as [v|];
        by injection Hrun as <- <-.
Qed.

Lemma get_offsets_loop_spec (ps : list string) (offs : gmap string Z)
    (c : console) r c' :
  NoDup ps →
  get_offsets_loop ps offs c = (r, c') →
  match r with
  | Returned offs' =>
      (length ps ≤ length (Console.stdin c))%nat
      ∧ Console.stdin c = take (length ps) (Console.stdin c) ++ Console.stdin c'
      ∧ (∀ q, q ∉ ps → offs' !! q = offs !! q)
      ∧ (∀ (i : nat) p line, ps !! i = Some p → Console.stdin c !! i = Some line →
           offs' !! p = Some (offset_of_line line))
  | Raised e => e = EOFError ∧ (length (Console.stdin c) < length ps)%nat
  | Hangs => False
  end.
Proof.
  revert offs c. induction ps as [|p ps IH]; intros offs c Hnd Hrun.
  - injection Hrun as <- <-. simpl. split_and!; try done. lia.
  - apply NoDup_cons in Hnd as [Hp Hnd].
    cbn [get_offsets_loop] in Hrun. unfold tbind at 1 in Hrun.
    destruct (get_offset offs p c) as [r1 c1] eqn:Hstep.
    apply get_offset_spec in Hstep.
    destruct (Console.stdin c) as [|line rest] eqn:Hin.
    + destruct Hstep as [-> _]. injection Hrun as <- <-. split; [done|].
      simpl. lia.
    + destruct Hstep as [-> Hrest].
      apply IH in Hrun; [|done]. rewrite Hrest in Hrun.
      destruct r as [offs'|e|];
        [|destruct Hrun; split; [done|simpl; lia]|done].
      destruct Hrun as (Hle & Hsplit & Hother & Hat).
      simpl. split_and!.
      * lia.
      * by rewrite <- Hsplit.
      * intros q Hq. apply not_elem_of_cons in Hq as [Hqp Hq].
        rewrite Hother by done. by rewrite lookup_insert_ne.
      * intros [|i] q l Hq Hl; simpl in Hq, Hl.
        -- injection Hq as <-. injection Hl as <-.
           rewrite Hother by done. by rewrite lookup_insert_eq.
        -- by eapply Hat.
Qed.

Lemma adj_raises (dt : datetime) (mins : Z) (e : exn) :
  adj dt mins = Raise e → e = OverflowError.
Proof.
  unfold adj, timedelta_minutes, datetime_add.
  destruct (_ <=? 999999999); cbn [rbind]; [|congruence].
  destruct (_ && _); congruence.
Qed.

Lemma minutes_row_raises (offsets : gmap string Z) (pt : prayer_times)
    (e : exn) :
  (∀ p, p ∈ PRAYERS → is_Some (offsets !! p)) →
  minutes_row offsets pt = Raise e → e = OverflowError.
Proof.
  intros Hkeys. unfold minutes_row, getitem.
  destruct (Hkeys "Fajr") as [o1 ->]; [in_list|].
  destruct (Hkeys "Dhuhr") as [o2 ->]; [in_list|].
  destruct (Hkeys "Asr") as [o3 ->]; [in_list|].
  destruct (Hkeys "Maghrib") as [o4 ->]; [in_list|].
  destruct (Hkeys "Isha") as [o5 ->]; [in_list|].
  cbn [rbind].
  destruct (adj (fajr pt) o1) eqn:E1; cbn [rbind];
    [|intros [= <-]; by eapply adj_raises].
  destruct (adj (dhuhr pt) o2) eqn:E2; cbn [rbind];
    [|intros [= <-]; by eapply adj_raises].
  destruct (adj (asr pt) o3) eqn:E3; cbn [rbind];
    [|intros [= <-]; by eapply adj_raises].
  destruct (adj (maghrib pt) o4) eqn:E4; cbn [rbind];
    [|intros [= <-]; by eapply adj_raises].
  destruct (adj (isha pt) o5) eqn:E5; cbn [rbind];
    [|intros [= <-]; by eapply adj_raises].
  done.
Qed.

(** X17: with at least five lines to read, [get_offsets] consumes exactly
    five and returns a dict whose keys are exactly the five prayers, the
    i-th prayer mapped to the integer typed on the i-th line, or to 0 when
    the line is blank or not a number; a row built with these offsets
    never fails with [KeyError].  With fewer lines it raises [EOFError];
    it never hangs. *)
Theorem X17_get_offsets (c : console) r c' :
  get_offsets c = (r, c') →
  match r with
  | Returned offs =>
      (5 ≤ length (Console.stdin c))%nat
      ∧ Console.stdin c = take 5 (Console.stdin c) ++ Console.stdin c'
      ∧ (∀ p, is_Some (offs !! p) ↔ p ∈ PRAYERS)
      ∧ (∀ (i : nat) p line,
           PRAYERS !! i = Some p → Console.stdin c !! i = Some line →
           offs !! p = Some (offset_of_line line))
      ∧ (∀ pt e, minutes_row offs pt = Raise e → e = OverflowError)
  | Raised e => e = EOFError ∧ (length (Console.stdin c) < 5)%nat
  | Hangs => False
  end.
Proof.
  unfold get_offsets, tbind, print. cbv beta iota. intros Hrun.
  apply get_offsets_loop_spec in Hrun; [|by apply (bool_decide_unpack (NoDup PRAYERS))].
  destruct r as [offs|e|]; [|done|done].
  unfold wrote in Hrun. cbn [Console.stdin] in Hrun.
  destruct Hrun as (Hle & Hsplit & Hother & Hat).
  change (length PRAYERS) with 5%nat in *.
  assert (Hkeys : ∀ p, p ∈ PRAYERS → is_Some (offs !! p)).
  { intros p Hp. apply list_elem_of_lookup_1 in Hp as [i Hi].
    assert (i < 5)%nat as Hi5
      by (apply lookup_lt_Some in Hi; exact Hi).
    destruct (lookup_lt_is_Some_2 (Console.stdin c) i) as [line Hline]; [lia|].
    rewrite (Hat i p line Hi Hline). by eexists. }
  split_and!; try done.
  - intros p. split; [|by apply Hkeys].
    intros Hsome. destruct (decide (p ∈ PRAYERS)) as [|Hnot]; [done|].
    rewrite (Hother p Hnot), lookup_empty in Hsome. by destruct Hsome.
  - intros pt e. by apply minutes_row_raises.
Qed.

Lemma X17_get_offsets_witness :
  let offs : gmap string Z :=
    list_to_map [("Fajr", 0); ("Dhuhr", -5); ("Asr", 0);
                 ("Maghrib", 10); ("Isha", 1000)] in
  let lines := [""; " -5 "; "soon"; "+10"; "1_000"; "rest"] in
  (5 ≤ length lines)%nat
  ∧ lines = take 5 lines ++ ["rest"]
  ∧ (∀ p, is_Some (offs !! p) ↔ p ∈ PRAYERS)
  ∧ (∀ (i : nat) p line,
       PRAYERS !! i = Some p → lines !! i = Some line →
       offs !! p = Some (offset_of_line line))
  ∧ (∀ pt e, minutes_row offs pt = Raise e → e = OverflowError).
Proof.
  apply (X17_get_offsets
           {| Console.stdin := [""; " -5 "; "soon"; "+10"; "1_000"; "rest"];
              Console.stdout := [] |}
           (Returned (list_to_map [("Fajr", 0); ("Dhuhr", -5); ("Asr", 0);
                                   ("Maghrib", 10); ("Isha", 1000)]))
           (get_offsets
              {| Console.stdin := [""; " -5 "; "soon"; "+10"; "1_000"; "rest"];
                 Console.stdout := [] |}).2).
  vm_compute. reflexivity.
Defined.

Lemma ask_timezone_loop_spec {tzinfo} (ZoneInfo : string → result tzinfo)
    (lines : list string) (out : list output) r c' :
  ask_timezone_loop ZoneInfo lines out = (r, c') →
  match r with
  | Returned tz =>
      (∃ z, ZoneInfo tz = Ok z)
      ∧ ∃ skipped line,
          lines = skipped ++ line :: Console.stdin c'
          ∧ tz = Py.strip line ∧ Forall (unrecognized ZoneInfo) skipped
  | Raised e =>
      e = EOFError ∧ Forall (unrecognized ZoneInfo) lines
      ∧ Console.stdin c' = []
  | Hangs => False
  end.
Proof.
  revert out. induction lines as [|line rest IH]; intros out Hrun.
  - injection Hrun as <- <-. by split_and!.
  - cbn [ask_timezone_loop] in Hrun.
    destruct (ZoneInfo (Py.strip line)) as [z|e0] eqn:Hz.
    + injection Hrun as <- <-. split; [by exists z|].
      exists [], line. by split_and!.
    + apply IH in Hrun.
      assert (unrecognized ZoneInfo line) as Hline by by exists e0.
      destruct r as [tz|e|]; [| |done].
      * destruct Hrun as (Hok & skipped & l & -> & -> & Hall).
        split; [done|]. exists (line :: skipped), l.
        split_and!; try done. by constructor.
      * destruct Hrun as (-> & Hall & Hin). split_and!; try done.
        by constructor.
Qed.

(** X18: [ask_timezone] returns the first line, stripped, whose name
    [ZoneInfo] accepts, after passing over every line before it, each of
    them refused by [ZoneInfo]; when the input ends before such a line
    it raises [EOFError]; no other exception escapes and it does not
    loop for ever on a finite input. *)
Theorem X18_ask_timezone {tzinfo} (ZoneInfo : string → result tzinfo)
    (c : console) r c' :
  ask_timezone ZoneInfo c = (r, c') →
  match r with
  | Returned tz =>
      (∃ z, ZoneInfo tz = Ok z)
      ∧ ∃ skipped line,
          Console.stdin c = skipped ++ line :: Console.stdin c'
          ∧ tz = Py.strip line ∧ Forall (unrecognized ZoneInfo) skipped
  | Raised e => e = EOFError ∧ Forall (unrecognized ZoneInfo) (Console.stdin c)
  | Hangs => False
  end.
Proof.
  unfold ask_timezone. intros Hrun. apply ask_timezone_loop_spec in Hrun.
  destruct r as [tz|e|]; [done| |done].
  by destruct Hrun as (-> & Hall & _).
Qed.

Lemma X18_ask_timezone_witness :
  (∃ z, Fixture.zoneinfo "Asia/Karachi" = Ok z)
  ∧ ∃ skipped line,
      ["Karachi"; "  Asia/Karachi "; "rest"] = skipped ++ line :: ["rest"]
      ∧ "Asia/Karachi" = Py.strip line
      ∧ Forall (unrecognized Fixture.zoneinfo) skipped.
Proof.
  apply (X18_ask_timezone Fixture.zoneinfo
           {| Console.stdin := ["Karachi"; "  Asia/Karachi "; "rest"];
              Console.stdout := [] |}
           (Returned "Asia/Karachi")
           (ask_timezone Fixture.zoneinfo
              {| Console.stdin := ["Karachi"; "  Asia/Karachi "; "rest"];
                 Console.stdout := [] |}).2).
  vm_compute. reflexivity.
Defined.

Lemma strftime_rtc_field (dt : datetime) :
  wellformed_time dt → valid_date (dt_date dt) →
  rtc_field (strftime_rtc dt).
Proof.
  intros (Hh & Hm & Hs & _) Hd. unfold valid_date in Hd.
  apply ord2ymd_ranges in Hd as (Hy & Hmo & Hday).
  pose proof (Z.mod_pos_bound (year (dt_date dt)) 100 ltac:(lia)) as Hyy.
  change (strftime_rtc dt)
    with (rtc_string (hour dt) (minute dt) (second dt) (day (dt_date dt))
            (month (dt_date dt)) (year (dt_date dt) mod 100)).
  unfold year, month, day in *. split.
  - apply validate_rtc_ascii_canonical; lia.
  - apply rtc_string_ascii; lia.
Qed.

Lemma validate_rtc_ascii_field (s v : string) :
  validate_rtc_ascii s = Some v → rtc_field v.
Proof.
  intros Hv. apply validate_rtc_ascii_inv in Hv
    as (HH & MM & SS & DD & MO & YY & -> & ? & ? & ? & ? & ? & ?).
  split.
  - by apply validate_rtc_ascii_canonical.
  - apply rtc_string_ascii; lia.
Qed.

Lemma ask_rtc_loop_spec (default : string) (lines : list string)
    (out : list output) r c' :
  rtc_field default →
  ask_rtc_loop default lines out = (r, c') →
  match r with
  | Returned v =>
      rtc_field v
      ∧ ∃ skipped line,
          lines = skipped ++ line :: Console.stdin c'
          ∧ Forall (λ l, Py.strip l ≠ "" ∧ validate_rtc_ascii (Py.strip l) = None)
                   skipped
          ∧ (if String.eqb (Py.strip line) "" then v = default
             else validate_rtc_ascii (Py.strip line) = Some v)
  | Raised e => e = EOFError
  | Hangs => False
  end.
Proof.
  intros Hdef. revert out. induction lines as [|line rest IH]; intros out Hrun.
  - by injection Hrun as <- <-.
  - cbn [ask_rtc_loop] in Hrun.
    destruct (String.eqb_spec (Py.strip line) "") as [Hblank|Hblank].
    + injection Hrun as <- <-. split; [done|].
      exists [], line. split_and!; try done.
      by rewrite Hblank.
    + destruct (validate_rtc_ascii (Py.strip line)) as [v|] eqn:Hv.
      * injection Hrun as <- <-. split; [by eapply validate_rtc_ascii_field|].
        exists [], line. split_and!; try done.
        by destruct (String.eqb_spec (Py.strip line) "").
      * apply IH in Hrun. destruct r as [v|e|]; [|done|done].
        destruct Hrun as (Hfield & skipped & l & -> & Hall & Hl).
        split; [done|]. exists (line :: skipped), l.
        split_and!; try done. by constructor.
Qed.

(** X19: when the clock reads a well-formed time on a valid date, every
    text [ask_rtc_ascii] returns is one the binary writer takes as the RTC
    field: the validator maps it to itself and it encodes to 17 ASCII
    bytes.  It is the clock's reading when the first line not refused is
    blank, and otherwise what the validator makes of that line.  The only
    exceptions that escape are [EOFError] and what [ZoneInfo] raises; on a
    finite input the loop ends. *)
Theorem X19_ask_rtc_ascii {tzinfo} (ZoneInfo : string → result tzinfo)
    (now : tzinfo → datetime) (tzname : string) (c : console) r c' :
  (∀ tz, wellformed_time (now tz) ∧ valid_date (dt_date (now tz))) →
  ask_rtc_ascii ZoneInfo now tzname c = (r, c') →
  match r with
  | Returned v =>
      rtc_field v
      ∧ ∃ tz skipped line,
          ZoneInfo tzname = Ok tz
          ∧ Console.stdin c = skipped ++ line :: Console.stdin c'
          ∧ Forall (λ l, Py.strip l ≠ "" ∧ validate_rtc_ascii (Py.strip l) = None)
                   skipped
          ∧ (if String.eqb (Py.strip line) "" then v = strftime_rtc (now tz)
             else validate_rtc_ascii (Py.strip line) = Some v)
  | Raised e => e = EOFError ∨ ∃ e', ZoneInfo tzname = Raise e' ∧ e = Other e'
  | Hangs => False
  end.
Proof.
  intros Hnow. unfold ask_rtc_ascii.
  destruct (ZoneInfo tzname) as [tz|e0] eqn:Hz.
  - unfold tbind, print, wrote. cbv beta iota. cbn [Console.stdin Console.stdout].
    intros Hrun. apply ask_rtc_loop_spec in Hrun.
    + destruct r as [v|e|]; [|by left|done].
      destruct Hrun as (Hfield & skipped & line & Hsplit & Hall & Hline).
      split; [done|]. by exists tz, skipped, line.
    + destruct (Hnow tz). by apply strftime_rtc_field.
  - intros [= <- <-]. right. by exists e0.
Qed.

Lemma X19_ask_rtc_ascii_witness :
  rtc_field "23:59:00|28/08/25"
  ∧ ∃ tz skipped line,
      Fixture.zoneinfo "Asia/Karachi" = Ok tz
      ∧ ["7:15:00|1/1/25"; " "; "rest"] = skipped ++ line :: ["rest"]
      ∧ Forall (λ l, Py.strip l ≠ "" ∧ validate_rtc_ascii (Py.strip l) = None)
               skipped
      ∧ (if String.eqb (Py.strip line) ""
         then "23:59:00|28/08/25" = strftime_rtc (Fixture.now tz)
         else validate_rtc_ascii (Py.strip line) = Some "23:59:00|28/08/25").
Proof.
  apply (X19_ask_rtc_ascii Fixture.zoneinfo Fixture.now "Asia/Karachi"
           {| Console.stdin := ["7:15:00|1/1/25"; " "; "rest"];
              Console.stdout := [] |}
           (Returned "23:59:00|28/08/25")
           (ask_rtc_ascii Fixture.zoneinfo Fixture.now "Asia/Karachi"
              {| Console.stdin := ["7:15:00|1/1/25"; " "; "rest"];
                 Console.stdout := [] |}).2).
  - intros []. unfold wellformed_time, valid_date, MAXORDINAL.
    unfold Fixture.now, Fixture.at_time.
    cbn [hour minute second microsecond dt_date].
    change (toordinal Fixture.aug28) with 739491. lia.
  - vm_compute. reflexivity.
Defined.

(** [int] refuses a field that begins with U+001C although [str.strip]
    drops that character, and reads U+00A0 as a blank. *)
Example int_and_strip_blanks :
  Py.int (String (ascii_of_nat 28) "5") = None
  ∧ Py.strip (String (ascii_of_nat 28) "5") = "5"
  ∧ Py.int (String (ascii_of_nat 160) "5") = Some 5
  ∧ validate_rtc_ascii
      ("07:" ++ String (ascii_of_nat 28) "5" ++ ":00|01/01/25")%string = None.
Proof. vm_compute. by split_and!. Qed.

(** With a bound of 4301 digits [ask_int] reads nothing. *)
Example ask_int_bound_too_long :
  ask_int "Year" 1 Console.MAX_STR_DIGITS_BOUND
    {| Console.stdin := ["5"]; Console.stdout := [] |}
  = (Hangs, {| Console.stdin := ["5"]; Console.stdout := [] |}).
Proof. vm_compute. reflexivity. Qed.
